(** * remctl: the network transport layer and the daemon's accept loop

    A shallow embedding of [util/network.c] and of [server/remctld.c].

    Conventions of the embedding:
    - C integers are [Z]; a store into a fixed-width object writes the
      wrap-around out ([u32], [u16]);
    - C strings are [string] (no embedded NUL); a [const char *] that may
      be [NULL] is an [option string];
    - the host is an LP64 little-endian machine ([unsigned long] has 64
      bits, [htonl] swaps bytes), the C library is the GNU one;
    - [HAVE_INET6] and [SO_REUSEADDR] are defined. *)

From Stdlib Require Import ZArith Lia Bool List Ascii String.
From stdpp Require Import base gmap list strings.
Import ListNotations.

Local Open Scope string_scope.
Local Open Scope list_scope.
Local Open Scope Z_scope.

#[local] Set Warnings "-clear-no-such-hyp".

(** ** Fixed-width integers *)

Definition u16 (x : Z) : Z := x mod 2 ^ 16.
Definition u32 (x : Z) : Z := x mod 2 ^ 32.
Definition u64 (x : Z) : Z := x mod 2 ^ 64.

Definition ULONG_MAX : Z := 2 ^ 64 - 1.

(** [htonl] on a little-endian host: the four bytes of a 32-bit word in
    reverse order. *)
Definition htonl (x : Z) : Z :=
  let x := u32 x in
  Z.lor (Z.lor (Z.shiftl (Z.land x 255) 24)
               (Z.shiftl (Z.land (Z.shiftr x 8) 255) 16))
        (Z.lor (Z.shiftl (Z.land (Z.shiftr x 16) 255) 8)
               (Z.land (Z.shiftr x 24) 255)).

Definition ntohl (x : Z) : Z := htonl x.

(** The 32-bit word a little-endian host loads from bytes in memory. *)
Fixpoint le_word (bytes : list Z) : Z :=
  match bytes with
  | [] => 0
  | b :: rest => Z.lor b (Z.shiftl (le_word rest) 8)
  end.

(** ** The C library's character classes and [strtoul] *)

Definition char_code (c : ascii) : Z := Z.of_N (N_of_ascii c).

Definition isspace (c : ascii) : bool :=
  let n := char_code c in (n =? 32) || ((9 <=? n) && (n <=? 13)).

Definition isdigit (c : ascii) : bool :=
  let n := char_code c in (48 <=? n) && (n <=? 57).

Definition isascii (c : ascii) : bool := char_code c <? 128.

(** Value of a character read as a digit in some base up to 36. *)
Definition digit_value (c : ascii) : option Z :=
  let n := char_code c in
  if (48 <=? n) && (n <=? 57) then Some (n - 48)
  else if (97 <=? n) && (n <=? 122) then Some (n - 87)
  else if (65 <=? n) && (n <=? 90) then Some (n - 55)
  else None.

Fixpoint skip_spaces (s : string) : string :=
  match s with
  | String c s' => if isspace c then skip_spaces s' else s
  | EmptyString => s
  end.

(** Consume the longest run of digits of [base]; the value is kept
    unbounded here, [strtoul] saturates it afterwards.  The flag tells
    whether any digit was consumed. *)
Fixpoint scan_digits (base acc : Z) (seen : bool) (s : string)
  : Z * bool * string :=
  match s with
  | String c s' =>
      match digit_value c with
      | Some d =>
          if d <? base then scan_digits base (acc * base + d) true s'
          else (acc, seen, s)
      | None => (acc, seen, s)
      end
  | EmptyString => (acc, seen, s)
  end.

Definition is_x (c : ascii) : bool :=
  (char_code c =? 120) || (char_code c =? 88).

(** [strtoul(nptr, &end, base)]: the result and the string [end] points
    to.  Leading white space and one sign are skipped; with no digits at
    all the result is 0 and [end] is [nptr] itself; a value that does not
    fit is [ULONG_MAX]; a minus sign negates in [unsigned long]. *)
Definition strtoul (nptr : string) (base : Z) : Z * string :=
  let s := skip_spaces nptr in
  let '(neg, s) :=
    match s with
    | String c s' =>
        if char_code c =? 45 then (true, s')
        else if char_code c =? 43 then (false, s')
        else (false, s)
    | EmptyString => (false, s)
    end in
  let '(base, s, after_zero) :=
    match s with
    | String z (String x s') =>
        if (char_code z =? 48) && is_x x && ((base =? 0) || (base =? 16))
        then (16, s', Some (String x s'))
        else if (char_code z =? 48) && (base =? 0) then (8, s, None)
        else (if base =? 0 then 10 else base, s, None)
    | String z EmptyString =>
        if (char_code z =? 48) && (base =? 0) then (8, s, None)
        else (if base =? 0 then 10 else base, s, None)
    | EmptyString => (if base =? 0 then 10 else base, s, None)
    end in
  let '(v, seen, rest) := scan_digits base 0 false s in
  if seen then
    (if v >? ULONG_MAX then ULONG_MAX
     else if neg then u64 (- v) else v, rest)
  else
    match after_zero with
    | Some e => (0, e)
    | None => (0, nptr)
    end.

(** ** The C library's address parsers *)

(** [inet_aton]: up to four numbers in C notation (decimal, octal with a
    leading 0, hexadecimal with 0x) separated by dots, the last one filling
    the remaining bytes; one trailing white-space character ends the
    address.  [bytes] are the parts already stored, in memory order.  The
    result is [s_addr], the word the host loads from the four bytes. *)
Definition inet_aton_max (parts : nat) : Z :=
  match parts with
  | O => 4294967295
  | 1%nat => 16777215
  | 2%nat => 65535
  | _ => 255
  end.

Fixpoint inet_aton_parts (fuel : nat) (cp : string) (bytes : list Z)
  : option Z :=
  match cp with
  | EmptyString => None
  | String c _ =>
      if negb (isdigit c) then None
      else
        let '(val, endp) := strtoul cp 0 in
        if val >? 4294967295 then None
        else
          let digit := negb (String.eqb cp endp) in
          match endp with
          | String dot cp' =>
              if char_code dot =? 46 then
                if (2 <? Z.of_nat (length bytes)) || (val >? 255) then None
                else
                  match fuel with
                  | O => None
                  | S fuel' => inet_aton_parts fuel' cp' (bytes ++ [val])
                  end
              else if negb (isascii dot) || negb (isspace dot) then None
              else if negb digit then None
              else if val >? inet_aton_max (length bytes) then None
              else Some (u32 (Z.lor (le_word bytes) (htonl val)))
          | EmptyString =>
              if negb digit then None
              else if val >? inet_aton_max (length bytes) then None
              else Some (u32 (Z.lor (le_word bytes) (htonl val)))
          end
  end.

Definition inet_aton (cp : string) : option Z := inet_aton_parts 4 cp [].

(** [inet_pton(AF_INET, ...)]: exactly four decimal octets, no leading
    zero.  [tmp] holds the finished octets, [cur] the one being read. *)
Fixpoint inet_pton4_loop (src : string) (tmp : list Z) (cur : Z)
  (saw_digit : bool) (octets : Z) : option (list Z) :=
  match src with
  | EmptyString => if octets <? 4 then None else Some (tmp ++ [cur])
  | String ch src' =>
      if isdigit ch then
        let new := cur * 10 + (char_code ch - 48) in
        if saw_digit && (cur =? 0) then None
        else if new >? 255 then None
        else if saw_digit then inet_pton4_loop src' tmp new true octets
        else if octets + 1 >? 4 then None
        else inet_pton4_loop src' tmp new true (octets + 1)
      else if (char_code ch =? 46) && saw_digit then
        if octets =? 4 then None
        else inet_pton4_loop src' (tmp ++ [cur]) 0 false octets
      else None
  end.

Definition inet_pton4 (src : string) : option (list Z) :=
  inet_pton4_loop src [] 0 false 0.

Definition hex_digit_value (c : ascii) : option Z :=
  match digit_value c with
  | Some d => if d <? 16 then Some d else None
  | None => None
  end.

(** [inet_pton(AF_INET6, ...)].  [tp] are the bytes written so far,
    [colonp] the position of the double colon once seen, [curtok] the
    start of the current group, [val] and [xdigits] the group read so
    far.  The result is the sixteen bytes of [s6_addr]. *)
Definition inet_pton6_finish (tp : list Z) (colonp : option nat)
  (xdigits val : Z) : option (list Z) :=
  let flushed :=
    if 0 <? xdigits then
      if 16 <? Z.of_nat (length tp) + 2 then None
      else Some (tp ++ [Z.land (Z.shiftr val 8) 255; Z.land val 255])
    else Some tp in
  match flushed with
  | None => None
  | Some tp =>
      match colonp with
      | Some k =>
          if Z.of_nat (length tp) =? 16 then None
          else Some (firstn k tp ++ repeat 0 (16 - length tp) ++ skipn k tp)
      | None => if Z.of_nat (length tp) =? 16 then Some tp else None
      end
  end.

Fixpoint inet_pton6_loop (src curtok : string) (tp : list Z)
  (colonp : option nat) (xdigits val : Z) : option (list Z) :=
  match src with
  | EmptyString => inet_pton6_finish tp colonp xdigits val
  | String ch src' =>
      match hex_digit_value ch with
      | Some d =>
          if xdigits =? 4 then None
          else
            let val := Z.lor (Z.shiftl val 4) d in
            if val >? 65535 then None
            else inet_pton6_loop src' curtok tp colonp (xdigits + 1) val
      | None =>
          if char_code ch =? 58 then
            if xdigits =? 0 then
              match colonp with
              | Some _ => None
              | None => inet_pton6_loop src' src' tp (Some (length tp)) 0 0
              end
            else
              match src' with
              | EmptyString => None
              | _ =>
                  if 16 <? Z.of_nat (length tp) + 2 then None
                  else
                    inet_pton6_loop src' src'
                      (tp ++ [Z.land (Z.shiftr val 8) 255; Z.land val 255])
                      colonp 0 0
              end
          else if (char_code ch =? 46)
                  && (Z.of_nat (length tp) + 4 <=? 16) then
            match inet_pton4 curtok with
            | Some quad => inet_pton6_finish (tp ++ quad) colonp 0 0
            | None => None
            end
          else None
      end
  end.

Definition inet_pton6 (src : string) : option (list Z) :=
  match src with
  | EmptyString => None
  | String c src' =>
      if char_code c =? 58 then
        match src' with
        | String c' _ =>
            if char_code c' =? 58 then inet_pton6_loop src' src' [] None 0 0
            else None
        | EmptyString => None
        end
      else inet_pton6_loop src src [] None 0 0
  end.

(** ** Socket addresses *)

Definition AF_INET : Z := 2.
Definition AF_INET6 : Z := 10.

(** A [struct sockaddr] as the code sees it through its casts: the family
    tag, and the fields of [sockaddr_in] and of [sockaddr_in6].  Only the
    fields of the view selected by [sa_family] are meaningful. *)
Record sockaddr := mk_sockaddr {
  sa_family : Z;
  sin_port : Z;
  sin_addr : Z;            (* sin_addr.s_addr *)
  sin6_addr : list Z       (* sin6_addr.s6_addr, sixteen bytes *)
}.

Definition sockaddr_in (port s_addr : Z) : sockaddr :=
  mk_sockaddr AF_INET port s_addr [].

Definition sockaddr_in6 (port : Z) (s6_addr : list Z) : sockaddr :=
  mk_sockaddr AF_INET6 port 0 s6_addr.

(** [s6_addr[i]] *)
Definition s6 (addr : list Z) (i : nat) : Z := nth i addr 0.

Definition IN6_ARE_ADDR_EQUAL (a b : list Z) : bool :=
  forallb (fun i => s6 a i =? s6 b i) (seq 0 16).

Definition IN6_IS_ADDR_V4MAPPED (a : list Z) : bool :=
  forallb (fun i => s6 a i =? 0) (seq 0 10)
  && (s6 a 10 =? 255) && (s6 a 11 =? 255).

(** ** [network_sockaddr_equal] *)

Definition network_sockaddr_equal (a b : sockaddr) : bool :=
  let a4 := a in
  let b4 := b in
  let a6 := a in
  let b6 := b in
  let '(a, b, a6, b4) :=
    if (sa_family a =? AF_INET) && (sa_family b =? AF_INET6)
    then (b, a, b, a)
    else (a, b, a6, b4) in
  if sa_family a =? AF_INET6 then
    if sa_family b =? AF_INET6 then
      IN6_ARE_ADDR_EQUAL (sin6_addr a6) (sin6_addr b6)
    else if negb (sa_family b =? AF_INET) then false
    else if negb (IN6_IS_ADDR_V4MAPPED (sin6_addr a6)) then false
    else
      let in_s_addr :=
        le_word [s6 (sin6_addr a6) 12; s6 (sin6_addr a6) 13;
                 s6 (sin6_addr a6) 14; s6 (sin6_addr a6) 15] in
      in_s_addr =? sin_addr b4
  else if negb (sa_family a =? AF_INET) || negb (sa_family b =? AF_INET)
  then false
  else sin_addr a4 =? sin_addr b4.

(** ** [network_addr_match] *)

(** [1 << k] computed in [int]: bit 31 is the sign bit. *)
Definition int_shl1 (k : Z) : Z :=
  let v := u32 (Z.shiftl 1 k) in
  if v <? 2 ^ 31 then v else v - 2 ^ 32.

(** [for (bits = 0, i = 0; i < cidr; i++) bits |= (1 << (31 - i));]
    with [bits] an [unsigned long]: the [int] is converted to it. *)
Fixpoint cidr4_bits (n : nat) (i bits : Z) : Z :=
  match n with
  | O => bits
  | S n' => cidr4_bits n' (i + 1) (Z.lor bits (u64 (int_shl1 (31 - i))))
  end.

(** [for (addr_mask = 0, bits = 0; bits < cidr % 8; bits++)
       addr_mask |= (1 << (7 - bits));] *)
Fixpoint cidr6_byte_mask (n : nat) (bits addr_mask : Z) : Z :=
  match n with
  | O => addr_mask
  | S n' =>
      cidr6_byte_mask n' (bits + 1)
        (Z.lor addr_mask (u64 (int_shl1 (7 - bits))))
  end.

(** The loop over the bytes of the two IPv6 addresses, from index [i]. *)
Fixpoint addr6_loop (fuel : nat) (i cidr : Z) (a6 b6 : list Z) : bool :=
  match fuel with
  | O => true
  | S fuel' =>
      if i * 8 <? cidr then
        if (i + 1) * 8 <=? cidr then
          if negb (s6 a6 (Z.to_nat i) =? s6 b6 (Z.to_nat i)) then false
          else addr6_loop fuel' (i + 1) cidr a6 b6
        else
          let addr_mask := cidr6_byte_mask (Z.to_nat (cidr mod 8)) 0 0 in
          if negb (Z.land (s6 a6 (Z.to_nat i)) addr_mask
                   =? Z.land (s6 b6 (Z.to_nat i)) addr_mask)
          then false
          else addr6_loop fuel' (i + 1) cidr a6 b6
      else true
  end.

Definition has_dot (s : string) : bool :=
  existsb (fun c => char_code c =? 46) (list_ascii_of_string s).

(** [inet_pton] knows [AF_INET6], so it returns 1 or 0 here and the test
    [!inet_pton(...)] is the test for a text that does not parse. *)
Definition network_addr_match (a b : string) (mask : option string) : bool :=
  match inet_aton a, inet_aton b with
  | Some a4, Some b4 =>
      let addr_mask :=
        match mask with
        | None => Some (htonl 4294967295)
        | Some mask =>
            if negb (has_dot mask) then
              let '(cidr, rest) := strtoul mask 10 in
              if (cidr >? 32) || negb (String.eqb rest "") then None
              else Some (htonl (cidr4_bits (Z.to_nat cidr) 0 0))
            else
              match inet_aton mask with
              | Some tmp => Some tmp
              | None => None
              end
        end in
      match addr_mask with
      | None => false
      | Some addr_mask => Z.land a4 addr_mask =? Z.land b4 addr_mask
      end
  | _, _ =>
      match inet_pton6 a, inet_pton6 b with
      | Some a6, Some b6 =>
          let cidr :=
            match mask with
            | None => Some 128
            | Some mask =>
                let '(cidr, rest) := strtoul mask 10 in
                if (cidr >? 128) || negb (String.eqb rest "") then None
                else Some cidr
            end in
          match cidr with
          | None => false
          | Some cidr => addr6_loop 17 0 cidr a6 b6
          end
      | _, _ => false
      end
  end.

(** ** Notions the specification speaks of *)

(** The position in [x] of bit [j] of [htonl x]: same place in the
    mirrored byte. *)
Definition swapped_bit (j : Z) : Z :=
  if j <? 8 then j + 24
  else if j <? 16 then j + 8
  else if j <? 24 then j - 8
  else j - 24.

(** The mask with [n] one-bits left-justified in a word of [w] bits. *)
Definition left_mask (w n : Z) : Z := Z.shiftl (Z.ones n) (w - n).

(** A decimal numeral: a non-empty run of the digits 0..9, read in base
    ten. *)
Fixpoint decimal_digits (acc : Z) (s : string) : option Z :=
  match s with
  | EmptyString => Some acc
  | String c s' =>
      if isdigit c then decimal_digits (acc * 10 + (char_code c - 48)) s'
      else None
  end.

Definition decimal (s : string) : option Z :=
  match s with
  | EmptyString => None
  | String _ _ => decimal_digits 0 s
  end.

(** The numeric value of an IPv4 address held in [s_addr]: the four
    bytes read most significant first. *)
Definition ipv4_value (s_addr : Z) : Z := ntohl s_addr.

(** The bitmask the specification assigns to the mask text of an IPv4
    comparison: absent, all 32 bits; without a dot, a decimal prefix
    length from 0 to 32, left-justified; otherwise a dotted quad.  [None]
    when the text is none of these. *)
Definition ipv4_mask_spec (mask : option string) : option Z :=
  match mask with
  | None => Some (left_mask 32 32)
  | Some m =>
      if has_dot m then
        match inet_aton m with
        | Some tmp => Some (ipv4_value tmp)
        | None => None
        end
      else
        match decimal m with
        | Some n => if n <=? 32 then Some (left_mask 32 n) else None
        | None => None
        end
  end.

(** Bit [k] of an IPv6 address, counted from the most significant bit of
    its first byte. *)
Definition addr6_bit (a : list Z) (k : Z) : bool :=
  Z.testbit (s6 a (Z.to_nat (k / 8))) (7 - k mod 8).

(** The first [n] bits of two IPv6 addresses agree. *)
Definition prefix_agree (n : Z) (a b : list Z) : Prop :=
  forall k, 0 <= k < n -> addr6_bit a k = addr6_bit b k.

Definition is_byte (x : Z) : Prop := 0 <= x < 256.

(** The prefix length the specification assigns to the mask text of an
    IPv6 comparison: absent, 128; otherwise a decimal prefix length from
    0 to 128. *)
Definition ipv6_prefix_spec (mask : option string) : option Z :=
  match mask with
  | None => Some 128
  | Some m =>
      match decimal m with
      | Some n => if n <=? 128 then Some n else None
      | None => None
      end
  end.

(** The four bytes of [s_addr] as they lie in memory on the host. *)
Definition le_bytes (s_addr : Z) : list Z :=
  [Z.land s_addr 255; Z.land (Z.shiftr s_addr 8) 255;
   Z.land (Z.shiftr s_addr 16) 255; Z.land (Z.shiftr s_addr 24) 255].

(** The IPv4-mapped IPv6 address [::ffff:a.b.c.d] embedding the IPv4
    address held in [s_addr]: ten zero bytes, two bytes 0xff, and the four
    bytes of the IPv4 address. *)
Definition v4mapped_prefix : list Z := repeat 0 10 ++ [255; 255].

Definition v4mapped (s_addr : Z) : list Z := v4mapped_prefix ++ le_bytes s_addr.

(** * The process and its environment *)

(** What a system call, or a call into a collaborator, hands back: the
    value on success, or the error code on failure (a system call then
    returns -1 and stores the code in [errno]). *)
Inductive sysret :=
| Ret (v : Z)
| Fail (e : Z).

(** The decision the environment takes on a call: let it succeed (with a
    value, where the call has one of its own to report) or make it fail
    with an error code. *)
Inductive reply :=
| Yes (v : Z)
| No (e : Z).

(** What the process does that can be observed from outside. *)
Inductive event :=
| EvSocket (domain type protocol : Z) (r : sysret)
| EvSetsockopt (fd : Z) (r : sysret)
| EvBind (fd : Z) (addr : sockaddr) (r : sysret)
| EvListen (fd backlog : Z) (r : sysret)
| EvConnect (fd : Z) (addr : sockaddr) (r : sysret)
| EvAccept (fd : Z) (r : sysret)
| EvClose (fd : Z) (r : sysret)
| EvAlarm (seconds : Z)
| EvWarn (message : string)
| EvSyswarn (message : string) (code : Z)
| EvDebug (message : string)
| EvDie (message : string)
| EvPrint (text : string)
| EvConfigLoad (path : string) (r : sysret)
| EvGssImportName (service : string) (major : sysret)
| EvGssAcquireCred (major : sysret)
| EvGssReleaseName
| EvGssReleaseCred
| EvPidFile (path : string) (r : sysret)
| EvNewClient (fd : Z) (r : sysret)
| EvHandleCommands (version fd : Z)
| EvFreeClient (fd : Z).

(** The state of the process as far as this code depends on it: the
    descriptors it holds open, [errno], and the environment, given as the
    decision it will take on the n-th call. *)
Record world := mk_world {
  open_fds : gset Z;
  errno : Z;
  clock : nat;
  oracle : nat -> reply
}.

(** A computation reads and changes the world, and emits events. *)
Definition M (A : Type) : Type := world -> A * world * list event.

Definition ret {A} (a : A) : M A := fun w => (a, w, []).

Definition bind {A B} (m : M A) (k : A -> M B) : M B :=
  fun w =>
    let '(a, w1, e1) := m w in
    let '(b, w2, e2) := k a w1 in
    (b, w2, e1 ++ e2).

Declare Scope proc_scope.
Delimit Scope proc_scope with proc.
Notation "x <- m ;; k" := (bind m (fun x => k))
  (at level 20, m at level 99, k at level 200, only parsing) : proc_scope.
Notation "' pat <- m ;; k" := (bind m (fun x => match x with pat => k end))
  (at level 20, pat pattern, m at level 99, k at level 200, only parsing)
  : proc_scope.
Notation "m ;; k" := (bind m (fun _ => k))
  (at level 100, k at level 200, only parsing, right associativity)
  : proc_scope.
Local Open Scope proc_scope.

Definition emit (e : event) : M unit := fun w => (tt, w, [e]).

Definition get_errno : M Z := fun w => (errno w, w, []).

Definition set_errno (e : Z) : M unit :=
  fun w => (tt, mk_world (open_fds w) e (clock w) (oracle w), []).

(** Ask the environment for its decision on the current call. *)
Definition ask : M reply :=
  fun w =>
    (oracle w (clock w),
     mk_world (open_fds w) (errno w) (S (clock w)) (oracle w), []).

(** The world once the environment has decided on a call that leaves
    the descriptors [fds] open and [errno] at [e]. *)
Definition after (w : world) (fds : gset Z) (e : Z) : world :=
  mk_world fds e (S (clock w)) (oracle w).

(** The kernel hands out the lowest descriptor that is not open. *)
Fixpoint lowest_from (fuel : nat) (n : Z) (fds : gset Z) : Z :=
  match fuel with
  | O => n
  | S fuel' =>
      if decide (n ∈ fds) then lowest_from fuel' (n + 1) fds else n
  end.

Definition lowest_free (fds : gset Z) : Z := lowest_from (size fds) 0 fds.

Definition alloc_fd : M Z :=
  fun w =>
    let fd := lowest_free (open_fds w) in
    (fd, mk_world ({[fd]} ∪ open_fds w) (errno w) (clock w) (oracle w), []).

Definition release_fd (fd : Z) : M unit :=
  fun w =>
    (tt, mk_world (open_fds w ∖ {[fd]}) (errno w) (clock w) (oracle w), []).

(** A call whose only effects are its result and [errno]. *)
Definition plain_call (ev : sysret -> event) : M Z :=
  r <- ask ;;
  match r with
  | Yes _ => emit (ev (Ret 0)) ;; ret 0
  | No e => set_errno e ;; emit (ev (Fail e)) ;; ret (-1)
  end.

(** A call that creates a descriptor. *)
Definition fd_call (ev : sysret -> event) : M Z :=
  r <- ask ;;
  match r with
  | Yes _ => fd <- alloc_fd ;; emit (ev (Ret fd)) ;; ret fd
  | No e => set_errno e ;; emit (ev (Fail e)) ;; ret (-1)
  end.

Definition sys_socket (domain type protocol : Z) : M Z :=
  fd_call (EvSocket domain type protocol).

Definition sys_accept (fd : Z) : M Z := fd_call (EvAccept fd).

Definition sys_setsockopt (fd : Z) : M Z := plain_call (EvSetsockopt fd).

Definition sys_bind (fd : Z) (addr : sockaddr) : M Z :=
  plain_call (EvBind fd addr).

Definition sys_listen (fd backlog : Z) : M Z :=
  plain_call (EvListen fd backlog).

Definition sys_connect (fd : Z) (addr : sockaddr) : M Z :=
  plain_call (EvConnect fd addr).

(** [close] gives the descriptor up even when it reports an error. *)
Definition sys_close (fd : Z) : M Z :=
  release_fd fd ;; plain_call (EvClose fd).

Definition warn (message : string) : M unit := emit (EvWarn message).

Definition syswarn (message : string) : M unit :=
  e <- get_errno ;; emit (EvSyswarn message e).

Definition debug (message : string) : M unit := emit (EvDebug message).

(** * [util/network.c]: sockets *)

Definition PF_INET : Z := 2.
Definition PF_INET6 : Z := 10.
Definition SOCK_STREAM : Z := 1.
Definition IPPROTO_IP : Z := 0.
Definition EAFNOSUPPORT : Z := 97.
Definition EPROTONOSUPPORT : Z := 93.

Definition htons (x : Z) : Z :=
  let x := u16 x in
  Z.lor (Z.shiftl (Z.land x 255) 8) (Z.land (Z.shiftr x 8) 255).

(** One element of the list [getaddrinfo] returns. *)
Record addrinfo := mk_addrinfo {
  ai_family : Z;
  ai_socktype : Z;
  ai_protocol : Z;
  ai_addr : sockaddr
}.

Definition network_set_reuseaddr (fd : Z) : M unit :=
  r <- sys_setsockopt fd ;;
  if r <? 0 then syswarn "cannot mark bind address reusable" else ret tt.

Definition network_bind_ipv4 (address : string) (port : Z) : M Z :=
  fd <- sys_socket PF_INET SOCK_STREAM IPPROTO_IP ;;
  if fd <? 0 then
    syswarn "cannot create IPv4 socket for %s,%hu" ;; ret (-1)
  else
    network_set_reuseaddr fd ;;
    let address :=
      if String.eqb address "any" || String.eqb address "all"
      then "0.0.0.0" else address in
    match inet_aton address with
    | None => warn "invalid IPv4 address %s" ;; ret (-1)
    | Some addr =>
        let server := mk_sockaddr AF_INET (htons port) addr [] in
        r <- sys_bind fd server ;;
        if r <? 0 then syswarn "cannot bind socket for %s,%hu" ;; ret (-1)
        else ret fd
    end.

Definition network_bind_ipv6 (address : string) (port : Z) : M Z :=
  fd <- sys_socket PF_INET6 SOCK_STREAM IPPROTO_IP ;;
  if fd <? 0 then
    e <- get_errno ;;
    (if negb (e =? EAFNOSUPPORT) && negb (e =? EPROTONOSUPPORT)
     then syswarn "cannot create IPv6 socket for %s,%hu" else ret tt) ;;
    ret (-1)
  else
    network_set_reuseaddr fd ;;
    let address :=
      if String.eqb address "any" || String.eqb address "all"
      then "::" else address in
    match inet_pton6 address with
    | None => warn "invalid IPv6 address %s" ;; sys_close fd ;; ret (-1)
    | Some addr =>
        let server := mk_sockaddr AF_INET6 (htons port) 0 addr in
        r <- sys_bind fd server ;;
        if r <? 0 then
          syswarn "cannot bind socket for %s,%hu" ;; sys_close fd ;; ret (-1)
        else ret fd
    end.

Definition network_source (fd family : Z) (source : option string) : M bool :=
  match source with
  | None => ret true
  | Some source =>
      if family =? AF_INET then
        if String.eqb source "all" then ret true
        else
          match inet_aton source with
          | None => ret false
          | Some addr =>
              r <- sys_bind fd (mk_sockaddr AF_INET 0 addr []) ;;
              ret (r =? 0)
          end
      else if family =? AF_INET6 then
        if String.eqb source "all" then ret true
        else
          match inet_pton6 source with
          | None => ret false
          | Some addr =>
              r <- sys_bind fd (mk_sockaddr AF_INET6 0 0 addr) ;;
              ret (r =? 0)
          end
      else ret true
  end.

(** One turn of the loop of [network_connect], entered with the
    descriptor [fd] left by the turn before: the new descriptor, and
    whether the loop is left through [break] with [success] set. *)
Definition connect_attempt (ai : addrinfo) (source : option string) (fd : Z)
  : M (Z * bool) :=
  (if fd >=? 0 then sys_close fd ;; ret tt else ret tt) ;;
  fd <- sys_socket (ai_family ai) (ai_socktype ai) (ai_protocol ai) ;;
  if fd <? 0 then ret (fd, false)
  else
    ok <- network_source fd (ai_family ai) source ;;
    if negb ok then ret (fd, false)
    else
      r <- sys_connect fd (ai_addr ai) ;;
      if r =? 0 then ret (fd, true) else ret (fd, false).

Fixpoint connect_loop (ai : list addrinfo) (source : option string) (fd : Z)
  : M (Z * bool) :=
  match ai with
  | [] => ret (fd, false)
  | a :: rest =>
      '(fd, success) <- connect_attempt a source fd ;;
      if success then ret (fd, true) else connect_loop rest source fd
  end.

Definition network_connect (ai : list addrinfo) (source : option string)
  : M Z :=
  '(fd, success) <- connect_loop ai source (-1) ;;
  if success then ret fd
  else
    (if fd >=? 0 then
       oerrno <- get_errno ;;
       sys_close fd ;;
       set_errno oerrno
     else ret tt) ;;
    ret (-1).


(** * [server/remctld.c]: the daemon *)

(** How far a computation of the daemon got: it returned a value, the
    process exited, or it is still inside the accept loop, which has no
    exit, after the number of turns under observation. *)
Inductive outcome (A : Type) :=
| Value (a : A)
| Exited (status : Z)
| Serving.

Arguments Value {A} a.
Arguments Exited {A} status.
Arguments Serving {A}.

Definition E (A : Type) : Type := world -> outcome A * world * list event.

Definition eret {A} (a : A) : E A := fun w => (Value a, w, []).

Definition ebind {A B} (m : E A) (k : A -> E B) : E B :=
  fun w =>
    let '(o, w1, e1) := m w in
    match o with
    | Value a => let '(b, w2, e2) := k a w1 in (b, w2, e1 ++ e2)
    | Exited status => (Exited status, w1, e1)
    | Serving => (Serving, w1, e1)
    end.

Definition lift {A} (m : M A) : E A :=
  fun w => let '(a, w1, e1) := m w in (Value a, w1, e1).

Declare Scope daemon_scope.
Delimit Scope daemon_scope with daemon.
Notation "x <- m ;; k" := (ebind m (fun x => k))
  (at level 20, m at level 99, k at level 200, only parsing) : daemon_scope.
Notation "m ;; k" := (ebind m (fun _ => k))
  (at level 100, k at level 200, only parsing, right associativity)
  : daemon_scope.

Definition exit {A} (status : Z) : E A := fun w => (Exited status, w, []).

(** Modelled from the spec: [die] and [sysdie] belong to the message
    library, which is not among the sources; a fatal condition is
    reported and ends the process, here with status 1. *)
Definition die {A} (message : string) : E A :=
  fun w => (Exited 1, w, [EvDie message]).

Definition sysdie {A} (message : string) : E A :=
  fun w => (Exited 1, w, [EvDie message]).

(** A call into a collaborator whose result the caller tests. *)
Definition external_call (ev : sysret -> event) : M sysret :=
  r <- ask ;;
  match r with
  | Yes v => emit (ev (Ret v)) ;; ret (Ret v)
  | No e => emit (ev (Fail e)) ;; ret (Fail e)
  end.

Definition INADDR_ANY : Z := 0.

Definition create_socket (port : Z) : M Z :=
  let saddr := mk_sockaddr AF_INET (htons port) INADDR_ANY [] in
  s <- sys_socket AF_INET SOCK_STREAM 0 ;;
  if s <? 0 then syswarn "error creating socket" ;; ret (-1)
  else
    sys_setsockopt s ;;
    r <- sys_bind s saddr ;;
    if r <? 0 then
      syswarn "error binding socket" ;; sys_close s ;; ret (-1)
    else
      r <- sys_listen s 5 ;;
      if r <? 0 then
        syswarn "error listening on socket" ;; sys_close s ;; ret (-1)
      else ret s.

(** [warn_gssapi] reports through the warning channel. *)
Definition warn_gssapi (message : string) : M unit := warn message.

Definition acquire_creds (service : string) : M bool :=
  major <- external_call (EvGssImportName service) ;;
  match major with
  | Fail _ => warn_gssapi "while importing name" ;; ret false
  | Ret _ =>
      major <- external_call EvGssAcquireCred ;;
      match major with
      | Fail _ => warn_gssapi "while acquiring credentials" ;; ret false
      | Ret _ => emit EvGssReleaseName ;; ret true
      end
  end.

(** Modelled from the spec: [server_free_client] is not among the sources;
    a connection is destroyed (closed) when its handler returns, so the
    call gives the client's descriptor up. *)
Definition server_free_client (fd : Z) : M unit :=
  release_fd fd ;; emit (EvFreeClient fd).

(** [server_new_client] yields the client with its protocol version, or
    [NULL]; the command loops of the two protocol versions return when
    the client is done. *)
Definition server_handle_connection (fd : Z) : M unit :=
  client <- external_call (EvNewClient fd) ;;
  match client with
  | Fail _ => sys_close fd ;; ret tt
  | Ret protocol =>
      debug "accepted connection from %s (protocol %d)" ;;
      (if protocol =? 1 then emit (EvHandleCommands 1 fd)
       else emit (EvHandleCommands 2 fd)) ;;
      server_free_client fd
  end.

Definition LONG_MAX : Z := 2 ^ 63 - 1.
Definition LONG_MIN : Z := - 2 ^ 63.

(** [strtol(nptr, NULL, 10)]: white space, one sign, decimal digits; a
    value that does not fit a [long] is [LONG_MAX] or [LONG_MIN]. *)
Definition strtol10 (nptr : string) : Z :=
  let s := skip_spaces nptr in
  let '(neg, s) :=
    match s with
    | String c s' =>
        if char_code c =? 45 then (true, s')
        else if char_code c =? 43 then (false, s')
        else (false, s)
    | EmptyString => (false, s)
    end in
  let '(v, _, _) := scan_digits 10 0 false s in
  if neg then (if - v <? LONG_MIN then LONG_MIN else - v)
  else (if v >? LONG_MAX then LONG_MAX else v).

(** The conversion of a [long] to [int]: the low 32 bits, read as a
    signed number. *)
Definition int_of_long (x : Z) : Z :=
  let low := u32 x in
  if low <? 2 ^ 31 then low else low - 2 ^ 32.

(** [atoi] is [(int) strtol(nptr, NULL, 10)]. *)
Definition atoi (s : string) : Z := int_of_long (strtol10 s).

(** What [getopt] returns for one element of the command line, with
    [optarg] where the option takes one. *)
Inductive getopt_result :=
| opt_d
| opt_f (optarg : string)
| opt_h
| opt_m
| opt_P (optarg : string)
| opt_p (optarg : string)
| opt_s (optarg : string)
| opt_v
| opt_other.

(** The local variables of [main] the option loop assigns. *)
Record options := mk_options {
  service : option string;
  pid_path : option string;
  port : Z;
  do_standalone : bool;
  conffile : string
}.

Section Remctld.

(** From [config.h], which is not among the sources. *)
Variable CONFIG_FILE : string.
Variable PACKAGE_VERSION : string.

Local Open Scope daemon_scope.

Definition nl : string := String (ascii_of_nat 10) "".

Definition usage_message : string :=
  "Usage: remctld <options>" ++ nl
  ++ nl
  ++ "Options:" ++ nl
  ++ "    -d            Log debugging information to syslog" ++ nl
  ++ "    -f <file>     Config file (default: " ++ CONFIG_FILE ++ ")" ++ nl
  ++ "    -h            Display this help" ++ nl
  ++ "    -m            Stand-alone daemon mode, meant mostly for testing"
  ++ nl
  ++ "    -P <file>     Write PID to file, only useful with -m" ++ nl
  ++ "    -p <port>     Port to use, only for standalone mode (default: 4444)"
  ++ nl
  ++ "    -s <service>  Service principal to use (default: host/<host>)"
  ++ nl
  ++ "    -v            Display the version of remctld" ++ nl.

Definition usage {A} (status : Z) : E A :=
  lift (emit (EvPrint usage_message)) ;;
  if status =? 0 then exit 0 else die "invalid usage".

Fixpoint parse_options (argv : list getopt_result) (o : options)
  : E options :=
  match argv with
  | [] => eret o
  | option :: rest =>
      match option with
      | opt_d => parse_options rest o
      | opt_f optarg =>
          parse_options rest
            (mk_options (service o) (pid_path o) (port o) (do_standalone o)
               optarg)
      | opt_h => usage 0
      | opt_m =>
          parse_options rest
            (mk_options (service o) (pid_path o) (port o) true (conffile o))
      | opt_P optarg =>
          parse_options rest
            (mk_options (service o) (Some optarg) (port o) (do_standalone o)
               (conffile o))
      | opt_p optarg =>
          parse_options rest
            (mk_options (service o) (pid_path o) (u16 (atoi optarg))
               (do_standalone o) (conffile o))
      | opt_s optarg =>
          parse_options rest
            (mk_options (Some optarg) (pid_path o) (port o) (do_standalone o)
               (conffile o))
      | opt_v =>
          lift (emit (EvPrint ("remctld " ++ PACKAGE_VERSION ++ nl))) ;;
          exit 0
      | opt_other => usage 1
      end
  end.

(** [do { ... } while (1)], observed for [fuel] turns. *)
Fixpoint accept_loop (fuel : nat) (stmp : Z) : E unit :=
  match fuel with
  | O => fun w => (Serving, w, [])
  | S fuel' =>
      s <- lift (sys_accept stmp) ;;
      (if s <? 0 then lift (syswarn "error accepting connection")
       else lift (server_handle_connection s)) ;;
      accept_loop fuel' stmp
  end.

Definition main (fuel : nat) (argv : list getopt_result) : E Z :=
  lift (emit (EvAlarm (60 * 60))) ;;
  o <- parse_options argv (mk_options None None 4444 false CONFIG_FILE) ;;
  config <- lift (external_call (EvConfigLoad (conffile o))) ;;
  (match config with
   | Fail _ => die "cannot read configuration file %s"
   | Ret _ => eret tt
   end) ;;
  creds <-
    (match service o with
     | Some service =>
         ok <- lift (acquire_creds service) ;;
         if negb ok then die "unable to acquire creds, aborting"
         else eret true
     | None => eret false
     end) ;;
  (if negb (do_standalone o) then lift (server_handle_connection 0)
   else
     lift (emit (EvAlarm 0)) ;;
     stmp <- lift (create_socket (port o)) ;;
     (if stmp <? 0 then sysdie "cannot create socket" else eret tt) ;;
     (match pid_path o with
      | Some pid_path =>
          pid_file <- lift (external_call (EvPidFile pid_path)) ;;
          match pid_file with
          | Fail _ => sysdie "cannot create PID file %s"
          | Ret _ => eret tt
          end
      | None => eret tt
      end) ;;
     accept_loop fuel stmp) ;;
  (if creds : bool then lift (emit EvGssReleaseCred) else eret tt) ;;
  eret 0.

End Remctld.

(** * Reading a run off its events *)

(** The descriptors a run holds after its events, having started with
    [h]: creating a descriptor adds it, [close] removes it. *)
Definition held_step (h : gset Z) (e : event) : gset Z :=
  match e with
  | EvSocket _ _ _ (Ret fd) => {[fd]} ∪ h
  | EvAccept _ (Ret fd) => {[fd]} ∪ h
  | EvClose fd _ => h ∖ {[fd]}
  | _ => h
  end.

Definition held (h : gset Z) (evs : list event) : gset Z :=
  fold_left held_step evs h.

(** Every [socket] call of the run is made while the run holds no
    descriptor of its own. *)
Fixpoint sockets_start_clean (h : gset Z) (evs : list event) : Prop :=
  match evs with
  | [] => True
  | e :: rest =>
      match e with
      | EvSocket _ _ _ _ => h = ∅
      | _ => True
      end
      /\ sockets_start_clean (held_step h e) rest
  end.

(** The arguments of the [socket] calls, in the order they were made. *)
Fixpoint socket_calls (evs : list event) : list (Z * Z * Z) :=
  match evs with
  | [] => []
  | EvSocket domain type protocol _ :: rest =>
      (domain, type, protocol) :: socket_calls rest
  | _ :: rest => socket_calls rest
  end.

Definition is_connected (e : event) : bool :=
  match e with
  | EvConnect _ _ (Ret _) => true
  | _ => false
  end.

(** Some [connect] call of the run succeeded. *)
Definition connected (evs : list event) : bool := existsb is_connected evs.

(** The error code a system call of the run failed with, if it did. *)
Definition failure_of (e : event) : option Z :=
  match e with
  | EvSocket _ _ _ (Fail c) => Some c
  | EvSetsockopt _ (Fail c) => Some c
  | EvBind _ _ (Fail c) => Some c
  | EvListen _ _ (Fail c) => Some c
  | EvConnect _ _ (Fail c) => Some c
  | EvAccept _ (Fail c) => Some c
  | EvClose _ (Fail c) => Some c
  | _ => None
  end.

(** The error code of the most recent failed system call among [evs],
    [e0] when none failed. *)
Definition last_failure (e0 : Z) (evs : list event) : Z :=
  fold_left (fun e ev => match failure_of ev with Some c => c | None => e end)
    evs e0.

Definition is_close (e : event) : bool :=
  match e with
  | EvClose _ _ => true
  | _ => false
  end.

(** The events of a run without the [close] it ends with, if it ends
    with one. *)
Definition strip_cleanup (evs : list event) : list event :=
  match last evs with
  | Some e => if is_close e then removelast evs else evs
  | None => evs
  end.

(** The run does not end with a [close]. *)
Definition last_not_close (evs : list event) : Prop :=
  forall e, last evs = Some e -> is_close e = false.

Definition candidate (a : addrinfo) : Z * Z * Z :=
  (ai_family a, ai_socktype a, ai_protocol a).

(** The descriptor a variable [fd] of the code stands for: none when it
    is negative. *)
Definition holding (fd : Z) : gset Z := if fd >=? 0 then {[fd]} else ∅.

(** Events that neither create nor close a descriptor nor connect one. *)
Definition is_quiet (e : event) : bool :=
  match e with
  | EvSocket _ _ _ _ | EvAccept _ _ | EvClose _ _ | EvConnect _ _ _ => false
  | _ => true
  end.

(** A failure to acquire the credentials of the requested service. *)
Definition is_creds_failure (e : event) : bool :=
  match e with
  | EvGssImportName _ (Fail _) | EvGssAcquireCred (Fail _) => true
  | _ => false
  end.

Definition creds_failed (evs : list event) : bool :=
  existsb is_creds_failure evs.

(** The events of the socket and of the accept phase of the daemon. *)
Definition is_network_event (e : event) : bool :=
  match e with
  | EvSocket _ _ _ _ | EvSetsockopt _ _ | EvBind _ _ _ | EvListen _ _ _
  | EvConnect _ _ _ | EvAccept _ _ | EvNewClient _ _
  | EvHandleCommands _ _ | EvFreeClient _ => true
  | _ => false
  end.

Definition is_accept (e : event) : bool :=
  match e with
  | EvAccept _ _ => true
  | _ => false
  end.

Definition accept_calls (evs : list event) : nat :=
  length (filter (fun e => is_accept e = true) evs).

(** The events of one call of the connection handler on descriptor [s],
    from its first to its return: the session is refused and the
    descriptor closed, or the session is served and freed. *)
Inductive handler_events (s : Z) : list event -> Prop :=
| handler_refused (e : Z) (r : sysret) :
    handler_events s [EvNewClient s (Fail e); EvClose s r]
| handler_served (protocol version : Z) (message : string) :
    handler_events s
      [EvNewClient s (Ret protocol); EvDebug message;
       EvHandleCommands version s; EvFreeClient s].

(** A run of the accept loop on the listening descriptor [stmp] that
    takes one connection at a time: each [accept] either fails and is
    reported, or is followed by the whole of the handler's events for the
    accepted descriptor, before the next [accept]. *)
Inductive serial_blocks (stmp : Z) : list event -> Prop :=
| serial_done : serial_blocks stmp []
| serial_accept_failed (e : Z) (message : string) (rest : list event) :
    serial_blocks stmp rest ->
    serial_blocks stmp (EvAccept stmp (Fail e) :: EvSyswarn message e :: rest)
| serial_served (s : Z) (body rest : list event) :
    handler_events s body ->
    serial_blocks stmp rest ->
    serial_blocks stmp (EvAccept stmp (Ret s) :: body ++ rest).

(** ** The course of [network_connect] *)

(** What the source address asks of a socket of family [family] before
    it is connected: nothing ([Some None]), a [bind] to an address, or,
    when the text is no address of the family, that the candidate be
    given up ([None]). *)
Definition source_binding (family : Z) (source : option string)
  : option (option sockaddr) :=
  match source with
  | None => Some None
  | Some text =>
      if family =? AF_INET then
        if String.eqb text "all" then Some None
        else
          match inet_aton text with
          | Some addr => Some (Some (mk_sockaddr AF_INET 0 addr []))
          | None => None
          end
      else if family =? AF_INET6 then
        if String.eqb text "all" then Some None
        else
          match inet_pton6 text with
          | Some addr => Some (Some (mk_sockaddr AF_INET6 0 0 addr))
          | None => None
          end
      else Some None
  end.

(** The socket left by the attempt before is closed, if there is one. *)
Inductive closes_previous (prev : Z) : list event -> Prop :=
| closes_none : prev < 0 -> closes_previous prev []
| closes_one (r : sysret) : 0 <= prev -> closes_previous prev [EvClose prev r].

(** What is done with the socket [s] created for the candidate [a], and
    whether that connected it: the candidate is given up without a call
    when the source is no address of its family, and after the [bind]
    when that fails; otherwise the socket, bound to the source if there
    is one, is connected to the address of the candidate. *)
Inductive socket_use (source : option string) (a : addrinfo) (s : Z)
  : list event -> bool -> Prop :=
| use_no_source :
    source_binding (ai_family a) source = None ->
    socket_use source a s [] false
| use_bind_failed (addr : sockaddr) (e : Z) :
    source_binding (ai_family a) source = Some (Some addr) ->
    socket_use source a s [EvBind s addr (Fail e)] false
| use_unbound (r : sysret) :
    source_binding (ai_family a) source = Some None ->
    socket_use source a s [EvConnect s (ai_addr a) r]
      match r with Ret _ => true | Fail _ => false end
| use_bound (addr : sockaddr) (r : sysret) :
    source_binding (ai_family a) source = Some (Some addr) ->
    socket_use source a s
      [EvBind s addr (Ret 0); EvConnect s (ai_addr a) r]
      match r with Ret _ => true | Fail _ => false end.

(** One attempt, on the candidate [a], entered with the descriptor
    [prev]: its events, the descriptor it leaves and whether it
    connected. *)
Inductive attempt (source : option string) (prev : Z) (a : addrinfo)
  : list event -> Z -> bool -> Prop :=
| attempt_no_socket (closes : list event) (e : Z) :
    closes_previous prev closes ->
    attempt source prev a
      (closes
       ++ [EvSocket (ai_family a) (ai_socktype a) (ai_protocol a) (Fail e)])
      (-1) false
| attempt_socket (closes body : list event) (s : Z) (ok : bool) :
    closes_previous prev closes ->
    0 <= s ->
    socket_use source a s body ok ->
    attempt source prev a
      (closes
       ++ EvSocket (ai_family a) (ai_socktype a) (ai_protocol a) (Ret s)
          :: body)
      s ok.

(** A whole call on the candidates [ai], entered with the descriptor
    [prev]: its events and its result.  The candidates are attempted in
    order; the first attempt that connects ends the call, whose result is
    the descriptor of that attempt; an attempt that does not connect is
    followed by the attempt on the next candidate; and when no candidate
    is left the descriptor of the last attempt is closed and the result
    is -1. *)
Inductive connect_course (source : option string)
  : Z -> list addrinfo -> list event -> Z -> Prop :=
| course_exhausted (prev : Z) (closes : list event) :
    closes_previous prev closes ->
    connect_course source prev [] closes (-1)
| course_connected (prev : Z) (a : addrinfo) (rest : list addrinfo)
    (evs : list event) (s : Z) :
    attempt source prev a evs s true ->
    connect_course source prev (a :: rest) evs s
| course_next (prev : Z) (a : addrinfo) (rest : list addrinfo)
    (e1 e2 : list event) (fd r : Z) :
    attempt source prev a e1 fd false ->
    connect_course source fd rest e2 r ->
    connect_course source prev (a :: rest) (e1 ++ e2) r.

(** * [util/network.c]: printing an address, its port, binding them all *)

(** ** The C library's [inet_ntop] *)

Definition ENOSPC : Z := 28.
Definition INET6_ADDRSTRLEN : Z := 46.

(** The digit of value [d], below 16, as [printf] writes it. *)
Definition digit_char (d : Z) : ascii :=
  ascii_of_N (Z.to_N (if d <? 10 then 48 + d else 87 + d)).

(** [printf] of an unsigned number in [base], most significant digit
    first, in front of [acc]; [fuel] bounds the number of digits. *)
Fixpoint print_digits (fuel : nat) (base n : Z) (acc : string) : string :=
  match fuel with
  | O => acc
  | S fuel' =>
      let acc := String (digit_char (n mod base)) acc in
      if n / base =? 0 then acc else print_digits fuel' base (n / base) acc
  end.

(** ["%u"] and ["%x"] of an [unsigned int]. *)
Definition print_u (n : Z) : string := print_digits 10 10 n "".
Definition print_x (n : Z) : string := print_digits 8 16 n "".

Definition strlen (s : string) : Z := Z.of_nat (String.length s).

(** [inet_ntop4]: the four bytes at [src] as a dotted quad, or [None]
    when the text with its terminator does not fit into [size]. *)
Definition inet_ntop4 (src : list Z) (size : Z) : option string :=
  let tmp :=
    (print_u (s6 src 0) ++ "." ++ print_u (s6 src 1) ++ "."
     ++ print_u (s6 src 2) ++ "." ++ print_u (s6 src 3))%string in
  if strlen tmp >=? size then None else Some tmp.

(** The eight 16-bit groups of the sixteen bytes at [src]. *)
Definition ntop6_words (src : list Z) : list Z :=
  map (fun i => Z.lor (Z.shiftl (s6 src (2 * i)%nat) 8)
                      (s6 src (2 * i + 1)%nat))
    (seq 0 8).

(** The first loop of [inet_ntop6]: [best] and [cur] are the [base] and
    [len] of the longest run of zero groups so far and of the run being
    read. *)
Fixpoint ntop6_runs (words : list Z) (i : Z) (best cur : Z * Z)
  : (Z * Z) * (Z * Z) :=
  match words with
  | [] => (best, cur)
  | word :: rest =>
      if word =? 0 then
        if cur.1 =? -1 then ntop6_runs rest (i + 1) best (i, 1)
        else ntop6_runs rest (i + 1) best (cur.1, cur.2 + 1)
      else if negb (cur.1 =? -1) then
        let best :=
          if (best.1 =? -1) || (cur.2 >? best.2) then cur else best in
        ntop6_runs rest (i + 1) best (-1, cur.2)
      else ntop6_runs rest (i + 1) best cur
  end.

Definition ntop6_best (words : list Z) : Z * Z :=
  let '(best, cur) := ntop6_runs words 0 (-1, 0) (-1, 0) in
  let best :=
    if negb (cur.1 =? -1) then
      if (best.1 =? -1) || (cur.2 >? best.2) then cur else best
    else best in
  if negb (best.1 =? -1) && (best.2 <? 2) then (-1, best.2) else best.

(** The second loop of [inet_ntop6], from group [i] on, [tp] being the
    text written so far; [None] when the embedded dotted quad does not
    fit. *)
Fixpoint ntop6_groups (fuel : nat) (i : Z) (src words : list Z)
  (best : Z * Z) (tp : string) : option string :=
  match fuel with
  | O => Some tp
  | S fuel' =>
      if negb (i <? 8) then Some tp
      else if negb (best.1 =? -1) && (i >=? best.1)
              && (i <? best.1 + best.2) then
        ntop6_groups fuel' (i + 1) src words best
          (if i =? best.1 then (tp ++ ":")%string else tp)
      else
        let tp := if negb (i =? 0) then (tp ++ ":")%string else tp in
        if (i =? 6) && (best.1 =? 0)
           && ((best.2 =? 6)
               || ((best.2 =? 5) && (nth 5 words 0 =? 65535))) then
          match inet_ntop4 (skipn 12 src) (u32 (46 - strlen tp)) with
          | None => None
          | Some quad => Some (tp ++ quad)%string
          end
        else
          ntop6_groups fuel' (i + 1) src words best
            (tp ++ print_x (nth (Z.to_nat i) words 0))%string
  end.

Definition inet_ntop6 (src : list Z) (size : Z) : option string :=
  let words := ntop6_words src in
  let best := ntop6_best words in
  match ntop6_groups 9 0 src words best "" with
  | None => None
  | Some tp =>
      let tp :=
        if negb (best.1 =? -1) && (best.1 + best.2 =? 8)
        then (tp ++ ":")%string else tp in
      if strlen tp + 1 >? size then None else Some tp
  end.

(** [inet_ntop(af, src, dst, size)], [size] being a [socklen_t]: the
    text written into [dst], which is left as it was when the call
    fails; a failure stores its code in [errno]. *)
Definition inet_ntop (af : Z) (src : list Z) (dst : string) (size : Z)
  : M (bool * string) :=
  if af =? AF_INET then
    match inet_ntop4 src size with
    | Some text => ret (true, text)
    | None => set_errno ENOSPC ;; ret (false, dst)
    end
  else if af =? AF_INET6 then
    match inet_ntop6 src size with
    | Some text => ret (true, text)
    | None => set_errno ENOSPC ;; ret (false, dst)
    end
  else set_errno EAFNOSUPPORT ;; ret (false, dst).

(** ** [network_sockaddr_sprint] *)

(** The conversion of the [size_t] the function takes to the
    [socklen_t] that [inet_ntop] takes: the low 32 bits. *)
Definition socklen_t (size : Z) : Z := u32 size.

(** The result and the content of [dst] after the call. *)
Definition network_sockaddr_sprint (dst : string) (size : Z) (addr : sockaddr)
  : M (bool * string) :=
  if sa_family addr =? AF_INET6 then
    let sin6 := addr in
    if IN6_IS_ADDR_V4MAPPED (sin6_addr sin6) then
      let in_s_addr :=
        le_word [s6 (sin6_addr sin6) 12; s6 (sin6_addr sin6) 13;
                 s6 (sin6_addr sin6) 14; s6 (sin6_addr sin6) 15] in
      inet_ntop AF_INET (le_bytes in_s_addr) dst (socklen_t size)
    else inet_ntop AF_INET6 (sin6_addr sin6) dst (socklen_t size)
  else if sa_family addr =? AF_INET then
    let sin := addr in
    inet_ntop AF_INET (le_bytes (sin_addr sin)) dst (socklen_t size)
  else set_errno EAFNOSUPPORT ;; ret (false, dst).

(** ** [network_sockaddr_port] *)

Definition network_sockaddr_port (sa : sockaddr) : Z :=
  if sa_family sa =? AF_INET6 then
    let sin6 := sa in htons (sin_port sin6)
  else if negb (sa_family sa =? AF_INET) then 0
  else
    let sin := sa in htons (sin_port sin).

(** ** [network_bind_all] *)

Section BindAll.

(** What the memory the function does not initialise holds: the buffer
    [name] on its stack, and a cell of the array it allocates. *)
Variable stack_text : string.
Variable heap_cell : Z.

Definition xmalloc_ints (size : Z) : list Z :=
  repeat heap_cell (Z.to_nat size).

Definition xrealloc_ints (fds : list Z) (size : Z) : list Z :=
  firstn (Z.to_nat size) fds
  ++ repeat heap_cell (Z.to_nat size - length fds).

(** The end of a turn of the loop: a descriptor is stored at index
    [count], the array growing by two cells when it is full. *)
Definition bind_all_store (fd size : Z) (fds : list Z) (count : Z)
  : Z * list Z * Z :=
  if fd >=? 0 then
    let '(size, fds) :=
      if count >=? size then (size + 2, xrealloc_ints fds (size + 2))
      else (size, fds) in
    (size, <[Z.to_nat count := fd]> fds, count + 1)
  else (size, fds, count).

Fixpoint bind_all_loop (addrs : list addrinfo) (port : Z) (name : string)
  (size : Z) (fds : list Z) (count : Z) : M (list Z * Z) :=
  match addrs with
  | [] => ret (fds, count)
  | addr :: rest =>
      '(_, name) <-
        network_sockaddr_sprint name INET6_ADDRSTRLEN (ai_addr addr) ;;
      if ai_family addr =? AF_INET then
        fd <- network_bind_ipv4 name port ;;
        let '(size, fds, count) := bind_all_store fd size fds count in
        bind_all_loop rest port name size fds count
      else if ai_family addr =? AF_INET6 then
        fd <- network_bind_ipv6 name port ;;
        let '(size, fds, count) := bind_all_store fd size fds count in
        bind_all_loop rest port name size fds count
      else bind_all_loop rest port name size fds count
  end.

(** [getaddrinfo] hands back [error] and, when that is 0, the list
    [addrs].  The result is the array stored in [*fds], [None] when
    nothing was stored there, and [*count]. *)
Definition network_bind_all (error : Z) (addrs : list addrinfo) (port : Z)
  : M (option (list Z) * Z) :=
  let count := 0 in
  if error <? 0 then
    warn "getaddrinfo failed: %s" ;; ret (None, count)
  else
    let size := 2 in
    let fds := xmalloc_ints size in
    '(fds, count) <- bind_all_loop addrs port stack_text size fds count ;;
    ret (Some fds, count).

End BindAll.

(** * Further notions used by the properties *)

(** The two families the code knows. *)
Definition supported (a : sockaddr) : Prop :=
  sa_family a = AF_INET \/ sa_family a = AF_INET6.

(** The fields of the view selected by the family hold what their C
    types can hold: a 32-bit [s_addr], sixteen bytes of [s6_addr]. *)
Definition sockaddr_wf (a : sockaddr) : Prop :=
  (sa_family a = AF_INET -> 0 <= sin_addr a < 2 ^ 32)
  /\ (sa_family a = AF_INET6 ->
      length (sin6_addr a) = 16%nat /\ Forall is_byte (sin6_addr a)).

(** The host an address names, as sixteen bytes: an IPv4 address stands
    for its IPv4-mapped form. *)
Definition host_bytes (a : sockaddr) : list Z :=
  if sa_family a =? AF_INET then v4mapped (sin_addr a) else sin6_addr a.

Definition is_bind (e : event) : bool :=
  match e with
  | EvBind _ _ _ => true
  | _ => false
  end.

Definition is_connect (e : event) : bool :=
  match e with
  | EvConnect _ _ _ => true
  | _ => false
  end.

(** The descriptors the run bound with success, in the order of the
    calls. *)
Fixpoint bound_fds (evs : list event) : list Z :=
  match evs with
  | [] => []
  | EvBind fd _ (Ret _) :: rest => fd :: bound_fds rest
  | _ :: rest => bound_fds rest
  end.

Definition is_socket (e : event) : bool :=
  match e with
  | EvSocket _ _ _ _ => true
  | _ => false
  end.

Definition is_alarm_off (e : event) : bool :=
  match e with
  | EvAlarm seconds => seconds =? 0
  | _ => false
  end.

(** What a call of a binder leaves behind, as far as the loop of
    [network_bind_all] depends on it: the descriptors open before are
    still open, and the one descriptor bound is the one returned, which
    was not open before and is open now. *)
Definition binder_run (r : Z * world * list event) (w : world) : Prop :=
  open_fds w ⊆ open_fds r.1.2
  /\ bound_fds r.2 = (if r.1.1 >=? 0 then [r.1.1] else [])
  /\ (0 <= r.1.1 -> r.1.1 ∉ open_fds w /\ r.1.1 ∈ open_fds r.1.2).

(** The addresses of the [bind] calls of a run, in the order they were
    made. *)
Fixpoint bind_calls (evs : list event) : list sockaddr :=
  match evs with
  | [] => []
  | EvBind _ addr _ :: rest => addr :: bind_calls rest
  | _ :: rest => bind_calls rest
  end.

(** A report that does not come from a failed system call. *)
Definition is_warn (e : event) : bool :=
  match e with
  | EvWarn _ => true
  | _ => false
  end.

(** The candidates [getaddrinfo] can return for the two families, as far
    as the properties distinguish them. *)
Definition ipv4_candidate (a : addrinfo) : Prop :=
  ai_family a = AF_INET /\ sa_family (ai_addr a) = AF_INET
  /\ 0 <= sin_addr (ai_addr a) < 2 ^ 32.

Definition v4mapped_candidate (a : addrinfo) : Prop :=
  ai_family a = AF_INET6 /\ sa_family (ai_addr a) = AF_INET6
  /\ IN6_IS_ADDR_V4MAPPED (sin6_addr (ai_addr a)) = true.

(** ** The stages of [main] *)

(** The settings [main] starts the option loop with. *)
Definition default_options (CONFIG_FILE : string) : options :=
  mk_options None None 4444 false CONFIG_FILE.

(** The credentials stage of [main]: whether credentials were acquired
    that have to be released. *)
Definition main_creds (o : options) : E bool :=
  match service o with
  | Some service =>
      (ok <- lift (acquire_creds service) ;;
       if negb ok then die "unable to acquire creds, aborting"
       else eret true)%daemon
  | None => eret false
  end.

(** The serving stage of [main]. *)
Definition main_serve (fuel : nat) (o : options) : E unit :=
  if negb (do_standalone o) then lift (server_handle_connection 0)
  else
    (lift (emit (EvAlarm 0)) ;;
     stmp <- lift (create_socket (port o)) ;;
     (if stmp <? 0 then sysdie "cannot create socket" else eret tt) ;;
     (match pid_path o with
      | Some pid_path =>
          pid_file <- lift (external_call (EvPidFile pid_path)) ;;
          match pid_file with
          | Fail _ => sysdie "cannot create PID file %s"
          | Ret _ => eret tt
          end
      | None => eret tt
      end) ;;
     accept_loop fuel stmp)%daemon.

(** The options that end the run: [-h], [-v] and what [getopt] does not
    know. *)
Definition is_exit_option (o : getopt_result) : bool :=
  match o with
  | opt_h | opt_v | opt_other => true
  | _ => false
  end.

(** The port the command line selects: that of the last [-p], as an
    [unsigned short], 4444 without one. *)
Definition selected_port (argv : list getopt_result) : Z :=
  fold_left (fun p o => match o with
                        | opt_p optarg => u16 (atoi optarg)
                        | _ => p
                        end) argv 4444.

(** The events of the listening socket and of the accept loop. *)
Definition is_listener_event (e : event) : bool :=
  match e with
  | EvSocket _ _ _ _ | EvSetsockopt _ _ | EvBind _ _ _ | EvListen _ _ _
  | EvAccept _ _ => true
  | _ => false
  end.

Definition is_syswarn (e : event) : bool :=
  match e with
  | EvSyswarn _ _ => true
  | _ => false
  end.

(** The descriptors of the [accept] calls of a run. *)
Fixpoint accept_fds (evs : list event) : list Z :=
  match evs with
  | [] => []
  | EvAccept fd _ :: rest => fd :: accept_fds rest
  | _ :: rest => accept_fds rest
  end.

Definition is_config_failure (e : event) : bool :=
  match e with
  | EvConfigLoad _ (Fail _) => true
  | _ => false
  end.

(** Credentials were acquired. *)
Definition is_acquired (e : event) : bool :=
  match e with
  | EvGssAcquireCred (Ret _) => true
  | _ => false
  end.

(** A call into the GSS-API library. *)
Definition is_gss (e : event) : bool :=
  match e with
  | EvGssImportName _ _ | EvGssAcquireCred _ | EvGssReleaseName
  | EvGssReleaseCred => true
  | _ => false
  end.

(** What the run prints and reports for the option that ends it. *)
Definition exit_option_events (usage_message version : string)
  (o : getopt_result) : list event :=
  match o with
  | opt_h => [EvPrint usage_message]
  | opt_v => [EvPrint version]
  | _ => [EvPrint usage_message; EvDie "invalid usage"]
  end.

Definition exit_option_status (o : getopt_result) : Z :=
  match o with
  | opt_h | opt_v => 0
  | _ => 1
  end.

(** ** Environments for worked examples *)

(** The environment that takes the decisions of [replies] in turn and
    lets every later call succeed. *)
Definition script (replies : list reply) : nat -> reply :=
  fun n => nth n replies (Yes 0).

(** A process holding its three standard descriptors. *)
Definition std_world (replies : list reply) : world :=
  mk_world {[0; 1; 2]} 0 0 (script replies).

(** * Properties *)

Example strtoul_24 : strtoul "24" 10 = (24, "").
Proof. reflexivity. Qed.

Example strtoul_junk : strtoul "24x" 10 = (24, "x").
Proof. reflexivity. Qed.

Example strtoul_empty : strtoul "" 10 = (0, "").
Proof. reflexivity. Qed.

Example strtoul_hex : strtoul "0x1f.2" 0 = (31, ".2").
Proof. reflexivity. Qed.

Example strtoul_octal : strtoul "017" 0 = (15, "").
Proof. reflexivity. Qed.

Example strtoul_minus : strtoul "-1" 10 = (ULONG_MAX, "").
Proof. reflexivity. Qed.

Example atoi_port : atoi " 4373" = 4373.
Proof. reflexivity. Qed.

Example atoi_negative : atoi "-12x" = -12.
Proof. reflexivity. Qed.

Example atoi_truncates : atoi "4294967297" = 1.
Proof. reflexivity. Qed.

Example atoi_saturates : u16 (atoi "10000000000000000000") = 65535.
Proof. reflexivity. Qed.

Example inet_aton_quad : inet_aton "10.0.0.1" = Some 16777226.
Proof. reflexivity. Qed.

Example inet_aton_short : inet_aton "127.1" = inet_aton "127.0.0.1".
Proof. reflexivity. Qed.

Example inet_aton_bad : inet_aton "10.0.0.256" = None.
Proof. reflexivity. Qed.

Example inet_pton6_loopback :
  inet_pton6 "::1" = Some [0;0;0;0;0;0;0;0;0;0;0;0;0;0;0;1].
Proof. reflexivity. Qed.

Example inet_pton6_doc :
  inet_pton6 "2001:db8::1" = Some [32;1;13;184;0;0;0;0;0;0;0;0;0;0;0;1].
Proof. reflexivity. Qed.

Example inet_pton6_mapped :
  inet_pton6 "::ffff:203.0.113.5"
  = Some [0;0;0;0;0;0;0;0;0;0;255;255;203;0;113;5].
Proof. reflexivity. Qed.

Example inet_pton6_full :
  inet_pton6 "1:2:3:4:5:6:7:8" = Some [0;1;0;2;0;3;0;4;0;5;0;6;0;7;0;8].
Proof. reflexivity. Qed.

Example inet_pton6_bad :
  inet_pton6 "1:2:3:4:5:6:7:8:9" = None /\ inet_pton6 "10.0.0.1" = None
  /\ inet_pton6 "1::2::3" = None /\ inet_pton6 "::" = Some (repeat 0 16).
Proof. repeat split; reflexivity. Qed.

Example addr_match_24 :
  network_addr_match "10.0.0.1" "10.0.0.2" (Some "24") = true
  /\ network_addr_match "10.0.0.1" "10.1.0.2" (Some "24") = false
  /\ network_addr_match "10.0.0.1" "10.1.0.2" (Some "255.0.0.0") = true
  /\ network_addr_match "10.0.0.1" "10.1.0.2" (Some "33") = false
  /\ network_addr_match "10.0.0.1" "10.1.0.2" (Some "abc") = false
  /\ network_addr_match "10.0.0.1" "10.0.0.1" None = true
  /\ network_addr_match "10.0.0.1" "192.168.0.1" (Some "") = true
  /\ network_addr_match "fe80::1" "fe80::2" (Some "126") = true
  /\ network_addr_match "fe80::1" "fe80::2" (Some "127") = false
  /\ network_addr_match "fe80::1" "fe80::2" (Some "129") = false
  /\ network_addr_match "fe80::1" "fe80::2" None = false
  /\ network_addr_match "fe80::1" "::2" (Some "") = true.
Proof. repeat split; vm_compute; reflexivity. Qed.

(** ** Bit-level facts about the byte order conversions *)

Lemma testbit_255 (k : Z) : Z.testbit 255 k = (0 <=? k) && (k <? 8).
Proof. change 255 with (Z.ones 8). apply Z.testbit_ones. lia. Qed.

Lemma u32_testbit (x k : Z) :
  Z.testbit (u32 x) k = (k <? 32) && Z.testbit x k.
Proof. unfold u32. apply Z.testbit_mod_pow2. lia. Qed.

Lemma u32_range (x : Z) : 0 <= u32 x < 2 ^ 32.
Proof. unfold u32. apply Z.mod_pos_bound. lia. Qed.

Lemma u32_small (x : Z) : 0 <= x < 2 ^ 32 -> u32 x = x.
Proof. intros. unfold u32. now apply Z.mod_small. Qed.

Ltac decide_ltb :=
  repeat match goal with
    | |- context [?a <? ?b] =>
        first [ replace (a <? b) with true by (symmetry; apply Z.ltb_lt; lia)
              | replace (a <? b) with false by (symmetry; apply Z.ltb_ge; lia) ]
    | |- context [?a <=? ?b] =>
        first [ replace (a <=? b) with true by (symmetry; apply Z.leb_le; lia)
              | replace (a <=? b) with false by (symmetry; apply Z.leb_gt; lia) ]
    end.

Ltac bool_simpl :=
  repeat rewrite ?andb_true_r, ?andb_false_r, ?orb_false_r, ?orb_true_r,
    ?andb_true_l, ?andb_false_l, ?orb_false_l, ?orb_true_l.

Lemma htonl_testbit (x j : Z) :
  0 <= j ->
  Z.testbit (htonl x) j = (j <? 32) && Z.testbit x (swapped_bit j).
Proof.
  intros Hj. unfold htonl, swapped_bit.
  rewrite !Z.lor_spec, !Z.shiftl_spec, !Z.land_spec by lia.
  rewrite !testbit_255.
  destruct (Z.ltb_spec j 8); [|destruct (Z.ltb_spec j 16);
    [|destruct (Z.ltb_spec j 24); [|destruct (Z.ltb_spec j 32)]]].
  all: rewrite ?(Z.testbit_neg_r _ (j - 8)), ?(Z.testbit_neg_r _ (j - 16)),
         ?(Z.testbit_neg_r _ (j - 24)) by lia.
  all: rewrite ?Z.shiftr_spec by lia.
  all: rewrite !u32_testbit.
  all: decide_ltb; bool_simpl; simpl.
  all: try reflexivity.
  all: f_equal; lia.
Qed.

Lemma swapped_bit_range (j : Z) :
  0 <= j < 32 -> 0 <= swapped_bit j < 32.
Proof.
  intros. unfold swapped_bit.
  repeat match goal with |- context [?a <? ?b] => destruct (Z.ltb_spec a b) end;
    lia.
Qed.

Lemma swapped_bit_involutive (j : Z) :
  0 <= j < 32 -> swapped_bit (swapped_bit j) = j.
Proof.
  intros. unfold swapped_bit.
  repeat match goal with |- context [?a <? ?b] => destruct (Z.ltb_spec a b) end;
    lia.
Qed.

Lemma htonl_u32 (x : Z) : u32 (htonl x) = htonl x.
Proof.
  apply Z.bits_inj'; intros j Hj.
  rewrite u32_testbit, htonl_testbit by lia.
  now destruct (j <? 32).
Qed.

Lemma htonl_range (x : Z) : 0 <= htonl x < 2 ^ 32.
Proof. rewrite <- htonl_u32. apply u32_range. Qed.

Lemma htonl_land (x y : Z) : htonl (Z.land x y) = Z.land (htonl x) (htonl y).
Proof.
  apply Z.bits_inj'; intros j Hj.
  rewrite Z.land_spec, !htonl_testbit, Z.land_spec by lia.
  now destruct (j <? 32); bool_simpl.
Qed.

Lemma htonl_involutive (x : Z) : htonl (htonl x) = u32 x.
Proof.
  apply Z.bits_inj'; intros j Hj.
  rewrite u32_testbit, htonl_testbit by lia.
  destruct (Z.ltb_spec j 32) as [Hlt | Hge]; [|reflexivity].
  pose proof (swapped_bit_range j ltac:(lia)).
  rewrite htonl_testbit, swapped_bit_involutive by lia.
  now decide_ltb.
Qed.

Lemma htonl_of_u32 (x : Z) : htonl (u32 x) = htonl x.
Proof.
  apply Z.bits_inj'; intros j Hj.
  rewrite !htonl_testbit, u32_testbit by lia.
  destruct (Z.ltb_spec j 32) as [Hlt | Hge]; [|reflexivity].
  pose proof (swapped_bit_range j ltac:(lia)).
  now decide_ltb.
Qed.

(** On 32-bit words [htonl] is one-to-one, so comparing two words and
    comparing their byte-swapped forms is the same test. *)
Lemma htonl_eqb (x y : Z) :
  0 <= x < 2 ^ 32 -> 0 <= y < 2 ^ 32 -> (htonl x =? htonl y) = (x =? y).
Proof.
  intros Hx Hy.
  destruct (Z.eqb_spec x y) as [-> | Hne]; [apply Z.eqb_refl|].
  apply Z.eqb_neq. intros Heq. apply Hne.
  rewrite <- (u32_small x), <- (u32_small y) by assumption.
  rewrite <- !htonl_involutive. now rewrite Heq.
Qed.

Lemma land_range32 (x m : Z) : 0 <= x < 2 ^ 32 -> 0 <= Z.land x m < 2 ^ 32.
Proof.
  intros Hx.
  rewrite <- (u32_small x) by assumption.
  assert (E : Z.land (u32 x) m = u32 (Z.land x m)).
  { apply Z.bits_inj'; intros j Hj.
    rewrite Z.land_spec, !u32_testbit, Z.land_spec.
    now destruct (j <? 32). }
  rewrite E. apply u32_range.
Qed.

(** ** The prefix masks built by the loops of [network_addr_match] *)

Lemma int_shl1_testbit (k j : Z) :
  0 <= k <= 31 -> 0 <= j < 32 ->
  Z.testbit (u64 (int_shl1 k)) j = (j =? k).
Proof.
  intros Hk Hj.
  unfold u64. rewrite Z.testbit_mod_pow2 by lia.
  replace (j <? 64) with true by (symmetry; apply Z.ltb_lt; lia).
  rewrite andb_true_l.
  destruct (Z.eq_dec k 31) as [-> | Hne].
  - change (int_shl1 31) with (Z.lnot (Z.ones 31)).
    rewrite Z.lnot_spec, Z.testbit_ones by lia.
    destruct (Z.eqb_spec j 31); decide_ltb; reflexivity.
  - unfold int_shl1. rewrite Z.shiftl_1_l.
    assert (Hlt : 2 ^ k < 2 ^ 31) by (apply Z.pow_lt_mono_r; lia).
    rewrite u32_small by lia.
    replace (2 ^ k <? 2 ^ 31) with true by (symmetry; apply Z.ltb_lt; lia).
    rewrite Z.pow2_bits_eqb by lia. apply Z.eqb_sym.
Qed.

Lemma cidr4_bits_testbit (n : nat) :
  forall i bits j,
    0 <= i -> i + Z.of_nat n <= 32 -> 0 <= j < 32 ->
    Z.testbit (cidr4_bits n i bits) j
    = Z.testbit bits j || ((31 - i - Z.of_nat n <? j) && (j <=? 31 - i)).
Proof.
  induction n as [|n IH]; intros i bits j Hi Hn Hj; cbn [cidr4_bits].
  - replace ((31 - i - Z.of_nat 0 <? j) && (j <=? 31 - i)) with false.
    + now rewrite orb_false_r.
    + symmetry. apply andb_false_iff.
      destruct (Z.ltb_spec (31 - i - Z.of_nat 0) j); [right|now left].
      apply Z.leb_gt. lia.
  - rewrite IH, Z.lor_spec, int_shl1_testbit by lia.
    destruct (Z.testbit bits j); [reflexivity|]. cbn [orb].
    destruct (Z.eqb_spec j (31 - i)) as [-> | Hne].
    + decide_ltb. reflexivity.
    + cbn [orb].
      destruct (Z.leb_spec j (31 - i)); decide_ltb; bool_simpl; try reflexivity.
      destruct (Z.ltb_spec (31 - i - Z.of_nat (S n)) j); decide_ltb; reflexivity.
Qed.

Lemma left_mask_testbit (w n j : Z) :
  0 <= n <= w -> 0 <= j ->
  Z.testbit (left_mask w n) j = (w - n <=? j) && (j <? w).
Proof.
  intros Hn Hj. unfold left_mask.
  rewrite Z.shiftl_spec by lia.
  destruct (Z.leb_spec (w - n) j).
  - rewrite Z.testbit_ones by lia. decide_ltb. cbn [andb].
    destruct (Z.ltb_spec j w); decide_ltb; reflexivity.
  - now rewrite Z.testbit_neg_r by lia.
Qed.

(** The loop over the prefix length builds the left-justified mask. *)
Lemma cidr4_bits_left_mask (n : Z) :
  0 <= n <= 32 -> u32 (cidr4_bits (Z.to_nat n) 0 0) = left_mask 32 n.
Proof.
  intros Hn. apply Z.bits_inj'; intros j Hj.
  rewrite u32_testbit, left_mask_testbit by lia.
  destruct (Z.ltb_spec j 32) as [Hlt | Hge].
  - rewrite cidr4_bits_testbit by lia.
    rewrite Z.testbit_0_l, Z2Nat.id by lia. cbn [orb andb].
    destruct (Z.leb_spec (32 - n) j); decide_ltb; reflexivity.
  - now rewrite andb_false_r.
Qed.

Lemma left_mask_range (n : Z) :
  0 <= n <= 32 -> u32 (left_mask 32 n) = left_mask 32 n.
Proof.
  intros Hn. rewrite <- cidr4_bits_left_mask by lia.
  unfold u32. now rewrite Z.mod_mod by lia.
Qed.

(** ** [strtoul] on decimal numerals *)

Lemma isdigit_digit_value (c : ascii) :
  isdigit c = true ->
  digit_value c = Some (char_code c - 48) /\ 0 <= char_code c - 48 < 10.
Proof.
  unfold isdigit, digit_value. cbv zeta. intros H. rewrite H.
  apply andb_true_iff in H as [H1 H2].
  apply Z.leb_le in H1. apply Z.leb_le in H2. split; [reflexivity | lia].
Qed.

Lemma isdigit_not_space (c : ascii) : isdigit c = true -> isspace c = false.
Proof.
  unfold isdigit, isspace. cbv zeta. intros H.
  apply andb_true_iff in H as [H1 H2].
  apply Z.leb_le in H1. apply Z.leb_le in H2.
  apply orb_false_iff; split.
  - apply Z.eqb_neq. lia.
  - apply andb_false_iff. right. apply Z.leb_gt. lia.
Qed.

Lemma scan_decimal_digits (s : string) :
  forall acc seen n,
    decimal_digits acc s = Some n ->
    scan_digits 10 acc seen s
    = (n, match s with EmptyString => seen | _ => true end, "").
Proof.
  induction s as [|c s IH]; intros acc seen n H; cbn in H |- *.
  - now inversion H.
  - destruct (isdigit c) eqn:Hc; [|discriminate].
    destruct (isdigit_digit_value c Hc) as [-> Hr].
    replace (char_code c - 48 <? 10) with true by (symmetry; apply Z.ltb_lt; lia).
    rewrite (IH _ true n H). now destruct s.
Qed.

Lemma decimal_digits_lower (s : string) :
  forall acc n, 0 <= acc -> decimal_digits acc s = Some n -> acc <= n.
Proof.
  induction s as [|c s IH]; intros acc n Hacc H; cbn in H.
  - inversion H. lia.
  - destruct (isdigit c) eqn:Hc; [|discriminate].
    destruct (isdigit_digit_value c Hc) as [_ Hr].
    apply IH in H; lia.
Qed.

Lemma decimal_nonneg (s : string) (n : Z) : decimal s = Some n -> 0 <= n.
Proof.
  destruct s; [discriminate|]. unfold decimal.
  apply decimal_digits_lower. lia.
Qed.

(** On a decimal numeral that fits, [strtoul] returns its value and
    consumes the whole string. *)
Lemma strtoul_decimal (s : string) (n : Z) :
  decimal s = Some n -> n <= ULONG_MAX -> strtoul s 10 = (n, "").
Proof.
  intros Hdec Hmax. destruct s as [|c s]; [discriminate|].
  unfold decimal in Hdec.
  assert (Hc : isdigit c = true).
  { cbn in Hdec. now destruct (isdigit c). }
  pose proof (isdigit_not_space c Hc) as Hsp.
  assert (Hcode : 48 <= char_code c <= 57).
  { unfold isdigit in Hc. cbv zeta in Hc.
    apply andb_true_iff in Hc as [H1 H2].
    apply Z.leb_le in H1. apply Z.leb_le in H2. lia. }
  unfold strtoul. cbn [skip_spaces]. rewrite Hsp.
  replace (char_code c =? 45) with false by (symmetry; apply Z.eqb_neq; lia).
  replace (char_code c =? 43) with false by (symmetry; apply Z.eqb_neq; lia).
  change (10 =? 0) with false. change (10 =? 16) with false.
  cbn [orb]. rewrite !andb_false_r.
  assert (Hscan : scan_digits 10 0 false (String c s) = (n, true, "")).
  { now rewrite (scan_decimal_digits _ 0 false n Hdec). }
  assert (Hfit : (n >? ULONG_MAX) = false).
  { rewrite Z.gtb_ltb. apply Z.ltb_ge. lia. }
  destruct s as [|x s']; rewrite ?andb_false_r; cbv beta iota zeta;
    rewrite Hscan, Hfit; reflexivity.
Qed.

(** ** [network_addr_match] on IPv4 addresses *)

Lemma inet_aton_parts_range (fuel : nat) :
  forall cp bytes v,
    inet_aton_parts fuel cp bytes = Some v -> 0 <= v < 2 ^ 32.
Proof.
  induction fuel as [|fuel IH]; intros cp bytes v H;
    destruct cp as [|c cp]; cbn [inet_aton_parts] in H; try discriminate.
  all: destruct (negb (isdigit c)); try discriminate.
  all: destruct (strtoul (String c cp) 0) as [val endp].
  all: destruct (val >? 4294967295); try discriminate.
  all: destruct endp as [|dot cp'].
  all: repeat match type of H with
         | (if ?b then _ else _) = _ => destruct b; try discriminate
         end.
  all: try (inversion H; apply u32_range).
  eapply IH; eassumption.
Qed.

Lemma inet_aton_range (cp : string) (v : Z) :
  inet_aton cp = Some v -> 0 <= v < 2 ^ 32.
Proof. apply inet_aton_parts_range. Qed.

Lemma decimal_digits_no_dot (s : string) :
  forall acc n, decimal_digits acc s = Some n -> has_dot s = false.
Proof.
  induction s as [|c s IH]; intros acc n H; [reflexivity|].
  cbn in H. destruct (isdigit c) eqn:Hc; [|discriminate].
  unfold has_dot. cbn [list_ascii_of_string existsb].
  apply orb_false_iff; split; [|exact (IH _ _ H)].
  unfold isdigit in Hc. cbv zeta in Hc.
  apply andb_true_iff in Hc as [H1 _]. apply Z.leb_le in H1.
  apply Z.eqb_neq. lia.
Qed.

Lemma decimal_no_dot (s : string) (n : Z) :
  decimal s = Some n -> has_dot s = false.
Proof. destruct s; [reflexivity|]. apply decimal_digits_no_dot. Qed.

(** Masking two addresses in network byte order and comparing is the
    same as masking their numeric values with the byte-swapped mask. *)
Lemma masked_compare_value (a4 b4 m : Z) :
  0 <= a4 < 2 ^ 32 -> 0 <= b4 < 2 ^ 32 ->
  (Z.land a4 m =? Z.land b4 m)
  = (Z.land (ipv4_value a4) (ntohl m) =? Z.land (ipv4_value b4) (ntohl m)).
Proof.
  intros Ha Hb. unfold ipv4_value, ntohl.
  rewrite <- !htonl_land. symmetry. apply htonl_eqb; now apply land_range32.
Qed.

(** C3: for two IPv4 literals the mask text is turned into a bitmask --
    absent: all 32 bits; no dot: a decimal prefix length 0..32,
    left-justified; otherwise: a dotted quad -- and the result is true
    exactly when the two addresses are equal under that bitmask.  In
    particular an address matches itself with no mask, 10.0.0.1 matches
    10.0.0.2 under /24 and 10.0.0.1 does not match 10.1.0.2 under /24. *)
Theorem addr_match_ipv4_masked (a b : string) (mask : option string)
  (a4 b4 M : Z) :
  inet_aton a = Some a4 ->
  inet_aton b = Some b4 ->
  ipv4_mask_spec mask = Some M ->
  network_addr_match a b mask
  = (Z.land (ipv4_value a4) M =? Z.land (ipv4_value b4) M)
  /\ network_addr_match a a None = true
  /\ network_addr_match "10.0.0.1" "10.0.0.2" (Some "24") = true
  /\ network_addr_match "10.0.0.1" "10.1.0.2" (Some "24") = false.
Proof.
  intros Ha Hb HM.
  pose proof (inet_aton_range _ _ Ha) as Ra.
  pose proof (inet_aton_range _ _ Hb) as Rb.
  split; [|split; [|split; reflexivity]].
  - unfold network_addr_match. rewrite Ha, Hb.
    destruct mask as [m|]; cbn [ipv4_mask_spec] in HM.
    + destruct (has_dot m) eqn:Hdot; cbn [negb].
      * destruct (inet_aton m) as [tmp|] eqn:Hm; [|discriminate].
        inversion HM; subst M. now apply masked_compare_value.
      * destruct (decimal m) as [n|] eqn:Hdec; [|discriminate].
        destruct (Z.leb_spec n 32) as [Hn|]; [|discriminate].
        inversion HM; subst M.
        pose proof (decimal_nonneg _ _ Hdec) as Hn0.
        rewrite (strtoul_decimal m n Hdec) by (unfold ULONG_MAX; lia).
        replace (n >? 32) with false
          by (symmetry; rewrite Z.gtb_ltb; apply Z.ltb_ge; lia).
        cbn [String.eqb negb orb].
        rewrite masked_compare_value by assumption.
        unfold ntohl.
        now rewrite htonl_involutive, cidr4_bits_left_mask by lia.
    + inversion HM; subst M.
      rewrite masked_compare_value by assumption.
      unfold ntohl. rewrite htonl_involutive. reflexivity.
  - unfold network_addr_match. rewrite Ha. apply Z.eqb_refl.
Qed.

Lemma addr_match_ipv4_masked_witness :
  inet_aton "192.168.7.9" = Some 151496896
  /\ inet_aton "192.168.200.1" = Some 29927616
  /\ ipv4_mask_spec (Some "255.255.0.0") = Some 4294901760
  /\ network_addr_match "192.168.7.9" "192.168.200.1" (Some "255.255.0.0")
     = true.
Proof.
  split; [reflexivity|]. split; [reflexivity|]. split; [reflexivity|].
  destruct (addr_match_ipv4_masked "192.168.7.9" "192.168.200.1"
              (Some "255.255.0.0") 151496896 29927616 4294901760
              eq_refl eq_refl eq_refl) as [H _].
  rewrite H. reflexivity.
Defined.

(** ** [network_sockaddr_equal] *)

Lemma IN6_ARE_ADDR_EQUAL_sym (a b : list Z) :
  IN6_ARE_ADDR_EQUAL a b = IN6_ARE_ADDR_EQUAL b a.
Proof.
  unfold IN6_ARE_ADDR_EQUAL.
  induction (seq 0 16) as [|i l IH]; [reflexivity|].
  cbn [forallb]. now rewrite IH, Z.eqb_sym.
Qed.

Lemma sockaddr_equal_swap (a b : sockaddr) :
  network_sockaddr_equal a b = network_sockaddr_equal b a.
Proof.
  unfold network_sockaddr_equal, AF_INET, AF_INET6.
  destruct (Z.eqb_spec (sa_family a) 2) as [Ea | Ea];
    destruct (Z.eqb_spec (sa_family b) 2) as [Eb | Eb];
    destruct (Z.eqb_spec (sa_family a) 10) as [Ea' | Ea'];
    destruct (Z.eqb_spec (sa_family b) 10) as [Eb' | Eb'];
    try lia; cbn [andb orb negb];
    rewrite ?Ea, ?Eb, ?Ea', ?Eb'; cbn [Z.eqb Pos.eqb andb orb negb];
    repeat match goal with
      | |- context [?x =? 2] =>
          is_var x; fail
      | |- context [sa_family ?s =? ?k] =>
          destruct (Z.eqb_spec (sa_family s) k); try lia
      end;
    cbn [andb orb negb]; try reflexivity.
  - apply Z.eqb_sym.
  - apply IN6_ARE_ADDR_EQUAL_sym.
Qed.

(** C10: the comparison of two socket addresses does not depend on the
    order of its arguments, whatever their address families. *)
Theorem network_sockaddr_equal_comm (a b : sockaddr) :
  network_sockaddr_equal a b = network_sockaddr_equal b a.
Proof. apply sockaddr_equal_swap. Qed.

Lemma le_word_le_bytes (v : Z) : 0 <= v < 2 ^ 32 -> le_word (le_bytes v) = v.
Proof.
  intros Hv. apply Z.bits_inj'; intros j Hj.
  assert (Hhigh : Z.testbit v j = (j <? 32) && Z.testbit v j)
    by now rewrite <- u32_testbit, u32_small.
  rewrite Hhigh.
  cbn [le_word le_bytes].
  destruct (Z.ltb_spec j 8); [|destruct (Z.ltb_spec j 16);
    [|destruct (Z.ltb_spec j 24); [|destruct (Z.ltb_spec j 32)]]].
  all: repeat (rewrite Z.lor_spec, Z.land_spec, testbit_255;
               first [ rewrite Z.shiftl_spec by lia
                     | rewrite (Z.testbit_neg_r (Z.shiftl _ _)) by lia ]).
  all: rewrite ?Z.shiftr_spec, ?Z.testbit_0_l by lia.
  all: rewrite ?(Z.testbit_neg_r _ (j - 8)), ?(Z.testbit_neg_r _ (j - 8 - 8)),
         ?(Z.testbit_neg_r _ (j - 8 - 8 - 8)),
         ?(Z.testbit_neg_r _ (j - 8 - 8 - 8 - 8)) by lia.
  all: rewrite ?Z.shiftr_spec, ?Z.testbit_0_l by lia.
  all: decide_ltb; bool_simpl; cbn [andb orb].
  all: try reflexivity.
  all: f_equal; lia.
Qed.

Lemma v4mapped_is_mapped (v : Z) : IN6_IS_ADDR_V4MAPPED (v4mapped v) = true.
Proof. reflexivity. Qed.

Lemma v4mapped_embedded (v : Z) :
  0 <= v < 2 ^ 32 ->
  le_word [s6 (v4mapped v) 12; s6 (v4mapped v) 13;
           s6 (v4mapped v) 14; s6 (v4mapped v) 15] = v.
Proof. intros Hv. now apply le_word_le_bytes. Qed.

(** An address of sixteen bytes that does not start with the mapped
    prefix fails the [IN6_IS_ADDR_V4MAPPED] test. *)
Lemma not_mapped_prefix (l : list Z) :
  length l = 16%nat ->
  firstn 12 l <> v4mapped_prefix ->
  IN6_IS_ADDR_V4MAPPED l = false.
Proof.
  intros Hlen Hne.
  do 16 (destruct l as [|? l]; [discriminate Hlen|]).
  destruct l; [|discriminate Hlen].
  apply not_true_is_false. intros Hm. apply Hne.
  unfold IN6_IS_ADDR_V4MAPPED in Hm. cbn in Hm.
  repeat match goal with
         | H : _ && _ = true |- _ => apply andb_true_iff in H as [? ?]
         end.
  repeat match goal with
         | H : (_ =? _) = true |- _ => apply Z.eqb_eq in H; subst
         end.
  reflexivity.
Qed.

(** C5: a plain IPv4 address and the IPv4-mapped IPv6 address embedding
    the same 32-bit address compare equal, in either order; a plain IPv4
    address and an IPv6 address that is not IPv4-mapped never do.  So
    203.0.113.5 equals ::ffff:203.0.113.5 and differs from 2001:db8::1. *)
Theorem network_sockaddr_equal_v4mapped (a m p : sockaddr) :
  sa_family a = AF_INET ->
  0 <= sin_addr a < 2 ^ 32 ->
  sa_family m = AF_INET6 ->
  sin6_addr m = v4mapped (sin_addr a) ->
  sa_family p = AF_INET6 ->
  length (sin6_addr p) = 16%nat ->
  firstn 12 (sin6_addr p) <> v4mapped_prefix ->
  (network_sockaddr_equal a m = true /\ network_sockaddr_equal m a = true)
  /\ (network_sockaddr_equal a p = false /\ network_sockaddr_equal p a = false)
  /\ (exists v4 m6 p6,
        inet_aton "203.0.113.5" = Some v4
        /\ inet_pton6 "::ffff:203.0.113.5" = Some m6
        /\ inet_pton6 "2001:db8::1" = Some p6
        /\ network_sockaddr_equal (sockaddr_in 0 v4) (sockaddr_in6 0 m6) = true
        /\ network_sockaddr_equal (sockaddr_in 0 v4) (sockaddr_in6 0 p6)
           = false).
Proof.
  intros Fa Ra Fm Hm Fp Lp Hp.
  assert (Eam : network_sockaddr_equal m a = true).
  { unfold network_sockaddr_equal. rewrite Fa, Fm.
    cbn [Z.eqb Pos.eqb AF_INET AF_INET6 andb negb orb].
    rewrite Fa, Fm.
    cbn [Z.eqb Pos.eqb AF_INET AF_INET6 andb negb orb].
    rewrite Hm, v4mapped_is_mapped. cbn [negb].
    rewrite v4mapped_embedded by assumption. apply Z.eqb_refl. }
  assert (Epa : network_sockaddr_equal p a = false).
  { unfold network_sockaddr_equal. rewrite Fa, Fp.
    cbn [Z.eqb Pos.eqb AF_INET AF_INET6 andb negb orb].
    rewrite Fa, Fp.
    cbn [Z.eqb Pos.eqb AF_INET AF_INET6 andb negb orb].
    now rewrite not_mapped_prefix. }
  repeat split.
  - now rewrite sockaddr_equal_swap.
  - exact Eam.
  - now rewrite sockaddr_equal_swap.
  - exact Epa.
  - eexists _, _, _. repeat split; reflexivity.
Qed.

Lemma network_sockaddr_equal_v4mapped_witness :
  network_sockaddr_equal (sockaddr_in 80 91291851)
    (sockaddr_in6 80 (v4mapped 91291851)) = true
  /\ network_sockaddr_equal (sockaddr_in 80 91291851)
       (sockaddr_in6 80 [32; 1; 13; 184; 0; 0; 0; 0; 0; 0; 0; 0; 0; 0; 0; 1])
     = false.
Proof.
  destruct (network_sockaddr_equal_v4mapped
              (sockaddr_in 80 91291851)
              (sockaddr_in6 80 (v4mapped 91291851))
              (sockaddr_in6 80
                 [32; 1; 13; 184; 0; 0; 0; 0; 0; 0; 0; 0; 0; 0; 0; 1]))
    as [[H1 _] [[H2 _] _]];
    [ reflexivity | cbn; lia | reflexivity | reflexivity | reflexivity
    | reflexivity | cbn; discriminate | ].
  split; assumption.
Defined.

(** * [network_addr_match] on IPv6 addresses *)

Lemma int_shl1_small (k : Z) : 0 <= k < 31 -> u64 (int_shl1 k) = 2 ^ k.
Proof.
  intros Hk. unfold int_shl1. rewrite Z.shiftl_1_l.
  assert (Hlt : 2 ^ k < 2 ^ 31) by (apply Z.pow_lt_mono_r; lia).
  assert (Hpos : 0 < 2 ^ k) by (apply Z.pow_pos_nonneg; lia).
  rewrite u32_small by lia.
  replace (2 ^ k <? 2 ^ 31) with true by (symmetry; apply Z.ltb_lt; lia).
  unfold u64. apply Z.mod_small. lia.
Qed.

Lemma cidr6_byte_mask_testbit (n : nat) :
  forall bits addr_mask j,
    0 <= bits -> bits + Z.of_nat n <= 8 -> 0 <= j ->
    Z.testbit (cidr6_byte_mask n bits addr_mask) j
    = Z.testbit addr_mask j
      || ((7 - bits - Z.of_nat n <? j) && (j <=? 7 - bits)).
Proof.
  induction n as [|n IH]; intros bits addr_mask j Hb Hn Hj;
    cbn [cidr6_byte_mask].
  - destruct (Z.ltb_spec (7 - bits - Z.of_nat 0) j);
      destruct (Z.leb_spec j (7 - bits)); try lia;
      now rewrite orb_false_r.
  - rewrite IH, Z.lor_spec, int_shl1_small, Z.pow2_bits_eqb by lia.
    destruct (Z.testbit addr_mask j); [reflexivity|]. cbn [orb].
    destruct (Z.eqb_spec (7 - bits) j) as [E | E];
      destruct (Z.ltb_spec (7 - (bits + 1) - Z.of_nat n) j);
      destruct (Z.leb_spec j (7 - (bits + 1)));
      destruct (Z.ltb_spec (7 - bits - Z.of_nat (S n)) j);
      destruct (Z.leb_spec j (7 - bits)); try lia; reflexivity.
Qed.

Lemma byte_testbit_high (x j : Z) : is_byte x -> 8 <= j -> Z.testbit x j = false.
Proof.
  intros Hx Hj. rewrite <- (Z.mod_small x (2 ^ 8)) by (unfold is_byte in Hx; lia).
  apply Z.mod_pow2_bits_high. lia.
Qed.

(** Two bytes are equal exactly when their eight bits agree. *)
Lemma byte_eqb_bits (x y : Z) :
  is_byte x -> is_byte y ->
  (x =? y) = true <-> (forall t, 0 <= t < 8 -> Z.testbit x t = Z.testbit y t).
Proof.
  intros Hx Hy. split.
  - intros E%Z.eqb_eq. now subst.
  - intros Hbits. apply Z.eqb_eq, Z.bits_inj'. intros j Hj.
    destruct (Z.lt_ge_cases j 8).
    + apply Hbits. lia.
    + now rewrite !byte_testbit_high.
Qed.

(** Under the mask of a partial byte two bytes compare equal exactly
    when their [r] most significant bits agree. *)
Lemma partial_byte_bits (x y r : Z) :
  0 <= r < 8 ->
  (Z.land x (cidr6_byte_mask (Z.to_nat r) 0 0)
   =? Z.land y (cidr6_byte_mask (Z.to_nat r) 0 0)) = true
  <-> (forall t, 8 - r <= t < 8 -> Z.testbit x t = Z.testbit y t).
Proof.
  intros Hr.
  assert (Hmask : forall j, 0 <= j ->
            Z.testbit (cidr6_byte_mask (Z.to_nat r) 0 0) j
            = (7 - r <? j) && (j <=? 7)).
  { intros j Hj. rewrite cidr6_byte_mask_testbit by lia.
    rewrite Z.testbit_0_l, Z2Nat.id by lia. cbn [orb].
    now replace (7 - 0 - r) with (7 - r) by lia. }
  split.
  - intros E%Z.eqb_eq t Ht.
    apply (f_equal (fun v => Z.testbit v t)) in E.
    rewrite !Z.land_spec, Hmask in E by lia.
    replace (7 - r <? t) with true in E by (symmetry; apply Z.ltb_lt; lia).
    replace (t <=? 7) with true in E by (symmetry; apply Z.leb_le; lia).
    now rewrite !andb_true_r in E.
  - intros Hbits. apply Z.eqb_eq, Z.bits_inj'. intros j Hj.
    rewrite !Z.land_spec, Hmask by lia.
    destruct (Z.ltb_spec (7 - r) j); destruct (Z.leb_spec j 7);
      cbn [andb]; rewrite ?andb_false_r; try reflexivity.
    rewrite !andb_true_r. apply Hbits. lia.
Qed.

Lemma addr6_bit_at (a : list Z) (i t : Z) :
  0 <= i -> 0 <= t < 8 ->
  addr6_bit a (8 * i + (7 - t)) = Z.testbit (s6 a (Z.to_nat i)) t.
Proof.
  intros Hi Ht. unfold addr6_bit.
  replace ((8 * i + (7 - t)) / 8) with i
    by (apply Z.div_unique with (r := 7 - t); lia).
  replace ((8 * i + (7 - t)) mod 8) with (7 - t)
    by (apply Z.mod_unique with (q := i); lia).
  f_equal. lia.
Qed.

(** The loop compares exactly the bits from [8 * i] up to [cidr]. *)
Lemma addr6_loop_bits (fuel : nat) :
  forall i cidr a6 b6,
    0 <= i -> cidr <= 8 * (i + Z.of_nat fuel) ->
    (forall j, is_byte (s6 a6 j)) -> (forall j, is_byte (s6 b6 j)) ->
    addr6_loop fuel i cidr a6 b6 = true
    <-> (forall k, 8 * i <= k < cidr -> addr6_bit a6 k = addr6_bit b6 k).
Proof.
  induction fuel as [|fuel IH]; intros i cidr a6 b6 Hi Hfuel Ha Hb;
    cbn [addr6_loop].
  - split; [intros _ k Hk; lia | reflexivity].
  - destruct (Z.ltb_spec (i * 8) cidr) as [Hlt | Hge];
      [|split; [intros _ k Hk; lia | reflexivity]].
    specialize (IH (i + 1) cidr a6 b6 ltac:(lia) ltac:(lia) Ha Hb).
    destruct (Z.leb_spec ((i + 1) * 8) cidr) as [Hfull | Hpart].
    + destruct (s6 a6 (Z.to_nat i) =? s6 b6 (Z.to_nat i)) eqn:Hbyte;
        cbn [negb].
      * pose proof (proj1 (byte_eqb_bits _ _ (Ha _) (Hb _)) Hbyte) as Hsame.
        clear Hbyte. rename Hsame into Hbyte.
        rewrite IH. split.
        -- intros Hrest k Hk.
           destruct (Z.lt_ge_cases k (8 * (i + 1))) as [Hin | Hout];
             [|apply Hrest; lia].
           replace k with (8 * i + (7 - (8 * i + 7 - k))) by lia.
           rewrite !addr6_bit_at by lia. apply Hbyte. lia.
        -- intros Hall k Hk. apply Hall. lia.
      * split; [discriminate|]. intros Hall. exfalso.
        assert (Hbits : forall t, 0 <= t < 8 ->
                  Z.testbit (s6 a6 (Z.to_nat i)) t
                  = Z.testbit (s6 b6 (Z.to_nat i)) t).
        { intros t Ht. rewrite <- !addr6_bit_at by lia. apply Hall. lia. }
        apply (byte_eqb_bits _ _ (Ha _) (Hb _)) in Hbits. congruence.
    + assert (Hr : cidr mod 8 = cidr - 8 * i)
        by (symmetry; apply Z.mod_unique with (q := i); lia).
      rewrite Hr.
      destruct (Z.land (s6 a6 (Z.to_nat i))
                  (cidr6_byte_mask (Z.to_nat (cidr - 8 * i)) 0 0)
                =? Z.land (s6 b6 (Z.to_nat i))
                     (cidr6_byte_mask (Z.to_nat (cidr - 8 * i)) 0 0))
        eqn:Hbyte; cbn [negb].
      * pose proof (proj1 (partial_byte_bits _ _ (cidr - 8 * i) ltac:(lia))
                      Hbyte) as Hsame.
        clear Hbyte. rename Hsame into Hbyte.
        rewrite IH. split.
        -- intros _ k Hk.
           replace k with (8 * i + (7 - (8 * i + 7 - k))) by lia.
           rewrite !addr6_bit_at by lia. apply Hbyte. lia.
        -- intros _ k Hk. lia.
      * split; [discriminate|]. intros Hall. exfalso.
        assert (Hbits : forall t, 8 - (cidr - 8 * i) <= t < 8 ->
                  Z.testbit (s6 a6 (Z.to_nat i)) t
                  = Z.testbit (s6 b6 (Z.to_nat i)) t).
        { intros t Ht. rewrite <- !addr6_bit_at by lia. apply Hall. lia. }
        apply (partial_byte_bits _ _ (cidr - 8 * i) ltac:(lia)) in Hbits.
        congruence.
Qed.

(** ** The bytes [inet_pton] produces *)

Lemma land_255_byte (x : Z) : is_byte (Z.land x 255).
Proof.
  unfold is_byte. change 255 with (Z.ones 8). rewrite Z.land_ones by lia.
  apply Z.mod_pos_bound. lia.
Qed.

Lemma inet_pton4_loop_bytes (src : string) :
  forall tmp cur saw_digit octets quad,
    Forall is_byte tmp -> is_byte cur ->
    inet_pton4_loop src tmp cur saw_digit octets = Some quad ->
    Forall is_byte quad.
Proof.
  induction src as [|ch src IH]; intros tmp cur saw octets quad Htmp Hcur H;
    cbn [inet_pton4_loop] in H.
  - destruct (octets <? 4); [discriminate|]. inversion H; subst quad.
    apply Forall_app. split; [assumption | now constructor].
  - destruct (isdigit ch) eqn:Hd.
    + destruct (isdigit_digit_value ch Hd) as [_ Hrange].
      destruct (saw && (cur =? 0)); [discriminate|].
      destruct (Z.gtb_spec (cur * 10 + (char_code ch - 48)) 255) as [|Hle];
        [discriminate|].
      assert (Hnew : is_byte (cur * 10 + (char_code ch - 48)))
        by (unfold is_byte in *; lia).
      destruct saw.
      * eapply IH; eassumption.
      * destruct (octets + 1 >? 4); [discriminate|]. eapply IH; eassumption.
    + destruct ((char_code ch =? 46) && saw); [|discriminate].
      destruct (octets =? 4); [discriminate|].
      eapply (IH (tmp ++ [cur]) 0); try eassumption.
      * apply Forall_app. split; [assumption | now constructor].
      * unfold is_byte. lia.
Qed.

Lemma repeat_zero_bytes (n : nat) : Forall is_byte (repeat 0 n).
Proof.
  induction n; cbn; constructor; [unfold is_byte; lia | assumption].
Qed.

Lemma inet_pton6_finish_bytes (tp : list Z) (colonp : option nat)
  (xdigits val : Z) (l : list Z) :
  Forall is_byte tp ->
  inet_pton6_finish tp colonp xdigits val = Some l ->
  Forall is_byte l.
Proof.
  intros Htp H. unfold inet_pton6_finish in H.
  assert (Hflush : forall tp',
            (if 0 <? xdigits
             then if 16 <? Z.of_nat (length tp) + 2 then None
                  else Some (tp ++ [Z.land (Z.shiftr val 8) 255;
                                    Z.land val 255])
             else Some tp) = Some tp' ->
            Forall is_byte tp').
  { intros tp' Hf. destruct (0 <? xdigits).
    - destruct (16 <? Z.of_nat (length tp) + 2); [discriminate|].
      inversion Hf; subst tp'. apply Forall_app. split; [assumption|].
      repeat constructor; apply land_255_byte.
    - now inversion Hf; subst tp'. }
  destruct (if 0 <? xdigits then _ else _) as [tp'|]; [|discriminate].
  specialize (Hflush tp' eq_refl).
  destruct colonp as [k|].
  - destruct (Z.of_nat (length tp') =? 16); [discriminate|].
    inversion H; subst l.
    apply Forall_app. split; [now apply Forall_take|].
    apply Forall_app. split; [apply repeat_zero_bytes | now apply Forall_drop].
  - destruct (Z.of_nat (length tp') =? 16); [|discriminate].
    now inversion H; subst l.
Qed.

Lemma inet_pton6_loop_bytes (src : string) :
  forall curtok tp colonp xdigits val l,
    Forall is_byte tp ->
    inet_pton6_loop src curtok tp colonp xdigits val = Some l ->
    Forall is_byte l.
Proof.
  induction src as [|ch src IH]; intros curtok tp colonp xdigits val l Htp H;
    cbn [inet_pton6_loop] in H.
  - eapply inet_pton6_finish_bytes; eassumption.
  - destruct (hex_digit_value ch) as [d|].
    + destruct (xdigits =? 4); [discriminate|].
      destruct (Z.lor (Z.shiftl val 4) d >? 65535); [discriminate|].
      eapply IH; eassumption.
    + destruct (char_code ch =? 58).
      * destruct (xdigits =? 0).
        -- destruct colonp; [discriminate|]. eapply IH; eassumption.
        -- destruct src as [|c' src']; [discriminate|].
           destruct (16 <? Z.of_nat (length tp) + 2); [discriminate|].
           eapply IH; [|eassumption].
           apply Forall_app. split; [assumption|].
           repeat constructor; apply land_255_byte.
      * destruct ((char_code ch =? 46) && (Z.of_nat (length tp) + 4 <=? 16));
          [|discriminate].
        destruct (inet_pton4 curtok) as [quad|] eqn:Hquad; [|discriminate].
        eapply inet_pton6_finish_bytes; [|eassumption].
        apply Forall_app. split; [assumption|].
        eapply inet_pton4_loop_bytes; [constructor | | exact Hquad].
        unfold is_byte. lia.
Qed.

Lemma inet_pton6_bytes (src : string) (l : list Z) :
  inet_pton6 src = Some l -> forall j, is_byte (s6 l j).
Proof.
  intros H.
  assert (Hl : Forall is_byte l).
  { unfold inet_pton6 in H. destruct src as [|c src]; [discriminate|].
    destruct (char_code c =? 58).
    - destruct src as [|c' src]; [discriminate|].
      destruct (char_code c' =? 58); [|discriminate].
      eapply inet_pton6_loop_bytes; [constructor | eassumption].
    - eapply inet_pton6_loop_bytes; [constructor | eassumption]. }
  intros j. unfold s6.
  destruct (nth_in_or_default j l 0) as [Hin | ->].
  - rewrite Forall_forall in Hl. apply Hl. now apply list_elem_of_In.
  - unfold is_byte. lia.
Qed.

(** ** The prefix comparison *)

(** On masks that are masks: when one of the texts is no IPv4 literal,
    both are IPv6 literals and the mask is absent or a decimal prefix
    length up to 128, the result is true exactly when the first bits of
    the two addresses agree. *)
Lemma addr_match_ipv6_prefix (a b : string) (mask : option string)
  (a6 b6 : list Z) (n : Z) :
  inet_aton a = None \/ inet_aton b = None ->
  inet_pton6 a = Some a6 ->
  inet_pton6 b = Some b6 ->
  ipv6_prefix_spec mask = Some n ->
  network_addr_match a b mask = true <-> prefix_agree n a6 b6.
Proof.
  intros Hv4 Ha Hb Hmask.
  pose proof (inet_pton6_bytes _ _ Ha) as Hbytes_a.
  pose proof (inet_pton6_bytes _ _ Hb) as Hbytes_b.
  assert (Hcode :
    network_addr_match a b mask
    = match mask with
      | None => addr6_loop 17 0 128 a6 b6
      | Some m =>
          let '(cidr, rest) := strtoul m 10 in
          if (cidr >? 128) || negb (String.eqb rest "") then false
          else addr6_loop 17 0 cidr a6 b6
      end).
  { unfold network_addr_match. rewrite Ha, Hb.
    destruct Hv4 as [-> | Hnb].
    - destruct mask as [m|]; [|reflexivity].
      destruct (strtoul m 10) as [cidr rest].
      now destruct ((cidr >? 128) || negb (String.eqb rest "")).
    - rewrite Hnb. destruct (inet_aton a).
      + destruct mask as [m|]; [|reflexivity].
        destruct (strtoul m 10) as [cidr rest].
        now destruct ((cidr >? 128) || negb (String.eqb rest "")).
      + destruct mask as [m|]; [|reflexivity].
        destruct (strtoul m 10) as [cidr rest].
        now destruct ((cidr >? 128) || negb (String.eqb rest "")). }
  rewrite Hcode. unfold prefix_agree.
  destruct mask as [m|]; cbn [ipv6_prefix_spec] in Hmask.
  - destruct (decimal m) as [n'|] eqn:Hdec; [|discriminate].
    destruct (Z.leb_spec n' 128) as [Hn|]; [|discriminate].
    inversion Hmask; subst n'.
    pose proof (decimal_nonneg _ _ Hdec) as Hn0.
    rewrite (strtoul_decimal m n Hdec) by (unfold ULONG_MAX; lia).
    replace (n >? 128) with false
      by (symmetry; rewrite Z.gtb_ltb; apply Z.ltb_ge; lia).
    cbn [String.eqb negb orb].
    rewrite addr6_loop_bits by (try assumption; lia).
    split; intros H k Hk; apply H; lia.
  - inversion Hmask; subst n.
    rewrite addr6_loop_bits by (try assumption; lia).
    split; intros H k Hk; apply H; lia.
Qed.

(** Texts that are not both IPv4 literals and not both IPv6 literals never
    match. *)
Lemma addr_match_no_family (a b : string) (mask : option string) :
  inet_aton a = None \/ inet_aton b = None ->
  inet_pton6 a = None \/ inet_pton6 b = None ->
  network_addr_match a b mask = false.
Proof.
  intros Hv4 Hv6. unfold network_addr_match.
  destruct (inet_aton a), (inet_aton b), (inet_pton6 a), (inet_pton6 b);
    try reflexivity; destruct Hv4, Hv6; discriminate.
Qed.

(** ** Masks that start with a digit or hold a dot *)

Lemma scan_digits_stops (s : string) :
  forall acc seen,
    decimal_digits acc s = None -> (scan_digits 10 acc seen s).2 <> "".
Proof.
  induction s as [|c s IH]; intros acc seen H; cbn in H; [discriminate|].
  cbn [scan_digits].
  destruct (isdigit c) eqn:Hc.
  - destruct (isdigit_digit_value c Hc) as [-> Hr].
    replace (char_code c - 48 <? 10) with true
      by (symmetry; apply Z.ltb_lt; lia).
    now apply IH.
  - assert (Hstop : match digit_value c with
                    | Some d => (d <? 10) = false
                    | None => True
                    end).
    { unfold isdigit, digit_value in *. cbv zeta in *. rewrite Hc.
      destruct ((97 <=? char_code c) && (char_code c <=? 122)) eqn:H1.
      - apply andb_true_iff in H1 as [H1 _]. apply Z.leb_le in H1.
        apply Z.ltb_ge. lia.
      - destruct ((65 <=? char_code c) && (char_code c <=? 90)) eqn:H2;
          [|exact I].
        apply andb_true_iff in H2 as [H2 _]. apply Z.leb_le in H2.
        apply Z.ltb_ge. lia. }
    destruct (digit_value c) as [d|]; [rewrite Hstop|]; cbn; discriminate.
Qed.

Lemma strtoul_leading_digit (c : ascii) (s : string) :
  isdigit c = true ->
  strtoul (String c s) 10
  = ((if (scan_digits 10 0 false (String c s)).1.1 >? ULONG_MAX
      then ULONG_MAX else (scan_digits 10 0 false (String c s)).1.1),
     (scan_digits 10 0 false (String c s)).2).
Proof.
  intros Hc.
  pose proof (isdigit_not_space c Hc) as Hsp.
  destruct (isdigit_digit_value c Hc) as [Hdv Hr].
  unfold strtoul. cbn [skip_spaces]. rewrite Hsp.
  replace (char_code c =? 45) with false by (symmetry; apply Z.eqb_neq; lia).
  replace (char_code c =? 43) with false by (symmetry; apply Z.eqb_neq; lia).
  change (10 =? 0) with false. change (10 =? 16) with false.
  cbn [orb]. rewrite !andb_false_r.
  assert (Hseen : (scan_digits 10 0 false (String c s)).1.2 = true).
  { cbn [scan_digits]. rewrite Hdv.
    replace (char_code c - 48 <? 10) with true
      by (symmetry; apply Z.ltb_lt; lia).
    generalize (0 * 10 + (char_code c - 48)).
    induction s as [|c' s IH]; intros acc; [reflexivity|].
    cbn [scan_digits]. destruct (digit_value c') as [d|]; [|reflexivity].
    destruct (d <? 10); [apply IH | reflexivity]. }
  destruct s as [|x s']; rewrite ?andb_false_r; cbv beta iota zeta;
    destruct (scan_digits 10 0 false _) as [[v seen] rest];
    cbn [fst snd] in *; subst seen; reflexivity.
Qed.

(** A text that starts with a digit and is no decimal number up to
    [limit] fails the test the code makes after [strtoul]. *)
Lemma cidr_text_rejected (c : ascii) (s : string) (limit : Z) :
  isdigit c = true ->
  0 <= limit < ULONG_MAX ->
  match decimal (String c s) with
  | Some n => limit < n
  | None => True
  end ->
  ((strtoul (String c s) 10).1 >? limit)
  || negb (String.eqb (strtoul (String c s) 10).2 "") = true.
Proof.
  intros Hc Hlimit Hbad. rewrite (strtoul_leading_digit c s Hc). cbn [fst snd].
  unfold decimal in Hbad.
  destruct (decimal_digits 0 (String c s)) as [n|] eqn:Hdec.
  - rewrite (scan_decimal_digits _ 0 false n Hdec). cbn [fst snd].
    apply orb_true_iff. left. rewrite Z.gtb_ltb. apply Z.ltb_lt.
    destruct (Z.gtb_spec n ULONG_MAX); lia.
  - apply orb_true_iff. right.
    pose proof (scan_digits_stops _ 0 false Hdec) as Hrest.
    destruct ((scan_digits 10 0 false (String c s)).2); [contradiction|].
    reflexivity.
Qed.

(** A mask that starts with a digit or holds a dot, and is neither a
    decimal prefix length of the family nor (for IPv4) a dotted quad,
    makes the result false. *)
Lemma addr_match_bad_mask (a b : string) (c : ascii) (s : string) :
  isdigit c = true \/ has_dot (String c s) = true ->
  match inet_aton a, inet_aton b with
  | Some _, Some _ => ipv4_mask_spec (Some (String c s)) = None
  | _, _ => isdigit c = true /\ ipv6_prefix_spec (Some (String c s)) = None
  end ->
  network_addr_match a b (Some (String c s)) = false.
Proof.
  intros Hshape Hbad. unfold network_addr_match.
  assert (Hv6 :
    isdigit c = true /\ ipv6_prefix_spec (Some (String c s)) = None ->
    match inet_pton6 a, inet_pton6 b with
    | Some a6, Some b6 =>
        match
          (let '(cidr, rest) := strtoul (String c s) 10 in
           if (cidr >? 128) || negb (String.eqb rest "") then None
           else Some cidr)
        with
        | Some cidr => addr6_loop 17 0 cidr a6 b6
        | None => false
        end
    | _, _ => false
    end = false).
  { intros [Hc Hspec]. destruct (inet_pton6 a), (inet_pton6 b); try reflexivity.
    pose proof (cidr_text_rejected c s 128 Hc) as Hrej.
    destruct (strtoul (String c s) 10) as [cidr rest]. cbn [fst snd] in Hrej.
    rewrite Hrej; [reflexivity | unfold ULONG_MAX; lia |].
    cbn [ipv6_prefix_spec] in Hspec.
    destruct (decimal (String c s)) as [n|]; [|exact I].
    destruct (Z.leb_spec n 128); [discriminate | assumption]. }
  destruct (inet_aton a) as [a4|]; [|now apply Hv6].
  destruct (inet_aton b) as [b4|]; [|now apply Hv6].
  clear Hv6. cbn [ipv4_mask_spec] in Hbad.
  destruct (has_dot (String c s)) eqn:Hdot; cbn [negb].
  - destruct (inet_aton (String c s)); [discriminate | reflexivity].
  - destruct Hshape as [Hc | Habs]; [|discriminate].
    pose proof (cidr_text_rejected c s 32 Hc) as Hrej.
    destruct (strtoul (String c s) 10) as [cidr rest]. cbn [fst snd] in Hrej.
    rewrite Hrej; [reflexivity | unfold ULONG_MAX; lia |].
    destruct (decimal (String c s)) as [n|]; [|exact I].
    destruct (Z.leb_spec n 32); [discriminate | assumption].
Qed.

(** ** [network_addr_match] and masks that are no masks *)

(** C2: a mask that is neither a decimal prefix length nor a dotted quad
    should make the result false.  The code does not do so on the empty
    mask: it is no decimal number and no dotted quad, [strtoul] reports
    that it read no digit by leaving [end] at the start of the text, the
    test [*end != 0] does not see that on the empty string, and two
    different IPv4 addresses match. *)
Theorem addr_match_ipv4_empty_mask :
  decimal "" = None
  /\ inet_aton "" = None
  /\ ipv4_mask_spec (Some "") = None
  /\ strtoul "" 10 = (0, "")
  /\ network_addr_match "10.0.0.1" "192.168.1.1" (Some "") = true.
Proof. repeat split; reflexivity. Qed.

(** C4: when one of the texts is no IPv4 literal the result should be
    false unless both are IPv6 literals and the mask is absent or a
    decimal prefix length 0..128.  The code does not do so on the empty
    mask: neither text is an IPv4 literal, the empty mask is no decimal
    prefix length, and two different IPv6 addresses match. *)
Theorem addr_match_ipv6_empty_mask :
  inet_aton "fe80::1" = None
  /\ (exists a6 b6,
        inet_pton6 "fe80::1" = Some a6 /\ inet_pton6 "2001:db8::2" = Some b6
        /\ a6 <> b6)
  /\ ipv6_prefix_spec (Some "") = None
  /\ network_addr_match "fe80::1" "2001:db8::2" (Some "") = true.
Proof.
  split; [reflexivity|]. split; [|split; reflexivity].
  eexists _, _. split; [reflexivity|]. split; [reflexivity|]. discriminate.
Qed.

(** * The process model *)

(** ** The descriptor the kernel hands out is a new one *)

Lemma lowest_from_ge (fuel : nat) :
  forall n fds, n <= lowest_from fuel n fds.
Proof.
  induction fuel as [|fuel IH]; intros n fds; cbn [lowest_from]; [lia|].
  destruct (decide (n ∈ fds)); [|lia].
  specialize (IH (n + 1) fds). lia.
Qed.

Lemma lowest_free_nonneg (fds : gset Z) : 0 <= lowest_free fds.
Proof. apply lowest_from_ge. Qed.

Lemma initial_segment_size (n : nat) (fds : gset Z) :
  (forall k, 0 <= k < Z.of_nat n -> k ∈ fds) -> (n <= size fds)%nat.
Proof.
  intros Hall.
  set (seg := list_to_set (Z.of_nat <$> seq 0 n) : gset Z).
  assert (Hsize : size seg = n).
  { unfold seg. rewrite size_list_to_set.
    - now rewrite length_fmap, length_seq.
    - apply NoDup_fmap; [apply _ | apply NoDup_seq]. }
  rewrite <- Hsize. apply subseteq_size.
  intros k Hk. unfold seg in Hk.
  apply elem_of_list_to_set, list_elem_of_fmap in Hk as (i & -> & Hi).
  apply elem_of_seq in Hi. apply Hall. lia.
Qed.

Lemma lowest_from_fresh (fuel : nat) :
  forall n fds,
    0 <= n ->
    (forall k, 0 <= k < n -> k ∈ fds) ->
    Z.of_nat (size fds) <= n + Z.of_nat fuel ->
    lowest_from fuel n fds ∉ fds.
Proof.
  induction fuel as [|fuel IH]; intros n fds Hn Hall Hsize; cbn [lowest_from].
  - intros Hin.
    assert (Hle : (S (Z.to_nat n) <= size fds)%nat).
    { apply initial_segment_size. intros k Hk.
      destruct (Z.eq_dec k n) as [-> | Hne]; [assumption|].
      apply Hall. lia. }
    lia.
  - destruct (decide (n ∈ fds)) as [Hin | Hout]; [|assumption].
    apply IH; [lia | | lia].
    intros k Hk. destruct (Z.eq_dec k n) as [-> | Hne]; [assumption|].
    apply Hall. lia.
Qed.

Lemma lowest_free_fresh (fds : gset Z) : lowest_free fds ∉ fds.
Proof. apply lowest_from_fresh; [lia | intros; lia | lia]. Qed.

(** ** How the readings of a run compose *)

Lemma held_app (h : gset Z) (e1 e2 : list event) :
  held h (e1 ++ e2) = held (held h e1) e2.
Proof. apply fold_left_app. Qed.

Lemma socket_calls_app (e1 e2 : list event) :
  socket_calls (e1 ++ e2) = socket_calls e1 ++ socket_calls e2.
Proof.
  induction e1 as [|e e1 IH]; [reflexivity|].
  destruct e; cbn [app socket_calls]; rewrite IH; reflexivity.
Qed.

Lemma connected_app (e1 e2 : list event) :
  connected (e1 ++ e2) = connected e1 || connected e2.
Proof. apply existsb_app. Qed.

Lemma last_failure_app (e0 : Z) (e1 e2 : list event) :
  last_failure e0 (e1 ++ e2) = last_failure (last_failure e0 e1) e2.
Proof. apply fold_left_app. Qed.

Lemma sockets_start_clean_app (e1 e2 : list event) :
  forall h,
    sockets_start_clean h (e1 ++ e2)
    <-> sockets_start_clean h e1 /\ sockets_start_clean (held h e1) e2.
Proof.
  induction e1 as [|e e1 IH]; intros h; cbn [app sockets_start_clean].
  - unfold held. cbn. tauto.
  - rewrite IH. unfold held. cbn [fold_left]. tauto.
Qed.

Lemma quiet_held (evs : list event) :
  forall h, forallb is_quiet evs = true -> held h evs = h.
Proof.
  induction evs as [|e evs IH]; intros h Hq; [reflexivity|].
  cbn [forallb] in Hq. apply andb_true_iff in Hq as [He Hq].
  unfold held. cbn [fold_left]. fold (held (held_step h e) evs).
  rewrite IH by assumption. destruct e; try discriminate; reflexivity.
Qed.

Lemma quiet_socket_calls (evs : list event) :
  forallb is_quiet evs = true -> socket_calls evs = [].
Proof.
  induction evs as [|e evs IH]; intros Hq; [reflexivity|].
  cbn [forallb] in Hq. apply andb_true_iff in Hq as [He Hq].
  destruct e; try discriminate; cbn [socket_calls]; auto.
Qed.

Lemma quiet_connected (evs : list event) :
  forallb is_quiet evs = true -> connected evs = false.
Proof.
  induction evs as [|e evs IH]; intros Hq; [reflexivity|].
  cbn [forallb] in Hq. apply andb_true_iff in Hq as [He Hq].
  unfold connected. cbn [existsb]. fold (connected evs). rewrite IH by assumption.
  destruct e; try discriminate; reflexivity.
Qed.

Lemma quiet_sockets_start_clean (evs : list event) :
  forall h, forallb is_quiet evs = true -> sockets_start_clean h evs.
Proof.
  induction evs as [|e evs IH]; intros h Hq; [exact I|].
  cbn [forallb] in Hq. apply andb_true_iff in Hq as [He Hq].
  cbn [sockets_start_clean]. split.
  - destruct e; try discriminate; exact I.
  - now apply IH.
Qed.

(** ** The system calls, one decision of the environment at a time *)

Lemma plain_call_run (ev : sysret -> event) (w : world) :
  plain_call ev w
  = match oracle w (clock w) with
    | Yes _ => (0, after w (open_fds w) (errno w), [ev (Ret 0)])
    | No e => (-1, after w (open_fds w) e, [ev (Fail e)])
    end.
Proof.
  unfold plain_call, bind, ask. destruct (oracle w (clock w)); reflexivity.
Qed.

Lemma fd_call_run (ev : sysret -> event) (w : world) :
  fd_call ev w
  = match oracle w (clock w) with
    | Yes _ =>
        let fd := lowest_free (open_fds w) in
        (fd, after w ({[fd]} ∪ open_fds w) (errno w), [ev (Ret fd)])
    | No e => (-1, after w (open_fds w) e, [ev (Fail e)])
    end.
Proof.
  unfold fd_call, bind, ask. destruct (oracle w (clock w)); reflexivity.
Qed.

Lemma sys_close_run (fd : Z) (w : world) :
  sys_close fd w
  = match oracle w (clock w) with
    | Yes _ =>
        (0, after w (open_fds w ∖ {[fd]}) (errno w), [EvClose fd (Ret 0)])
    | No e => (-1, after w (open_fds w ∖ {[fd]}) e, [EvClose fd (Fail e)])
    end.
Proof.
  unfold sys_close, bind, release_fd. rewrite plain_call_run. cbn.
  destruct (oracle w (clock w)); reflexivity.
Qed.

(** ** [network_source] *)

Lemma network_source_run (fd family : Z) (source : option string) (w : world) :
  forallb is_quiet (network_source fd family source w).2 = true
  /\ open_fds (network_source fd family source w).1.2 = open_fds w
  /\ oracle (network_source fd family source w).1.2 = oracle w
  /\ errno (network_source fd family source w).1.2
     = last_failure (errno w) (network_source fd family source w).2.
Proof.
  unfold network_source.
  destruct source as [source|]; [|now cbn].
  destruct (family =? AF_INET).
  - destruct (String.eqb source "all"); [now cbn|].
    destruct (inet_aton source); [|now cbn].
    unfold bind, sys_bind. rewrite plain_call_run.
    destruct (oracle w (clock w)); now cbn.
  - destruct (family =? AF_INET6); [|now cbn].
    destruct (String.eqb source "all"); [now cbn|].
    destruct (inet_pton6 source); [|now cbn].
    unfold bind, sys_bind. rewrite plain_call_run.
    destruct (oracle w (clock w)); now cbn.
Qed.

(** ** One turn of the loop of [network_connect] *)

Lemma holding_nonneg (fd : Z) : 0 <= fd -> holding fd = {[fd]}.
Proof.
  intros H. unfold holding.
  now replace (fd >=? 0) with true by (symmetry; apply Z.geb_le; lia).
Qed.

Lemma holding_neg (fd : Z) : fd < 0 -> holding fd = ∅.
Proof.
  intros H. unfold holding.
  destruct (Z.geb_spec fd 0); [lia | reflexivity].
Qed.

Lemma held_cons (h : gset Z) (e : event) (evs : list event) :
  held h (e :: evs) = held (held_step h e) evs.
Proof. reflexivity. Qed.

Lemma held_nil (h : gset Z) : held h [] = h.
Proof. reflexivity. Qed.

Lemma connected_cons (e : event) (evs : list event) :
  connected (e :: evs) = is_connected e || connected evs.
Proof. reflexivity. Qed.

Lemma connected_nil : connected [] = false.
Proof. reflexivity. Qed.

Lemma last_failure_cons (e0 : Z) (e : event) (evs : list event) :
  last_failure e0 (e :: evs)
  = last_failure (match failure_of e with Some c => c | None => e0 end) evs.
Proof. reflexivity. Qed.

Lemma last_failure_nil (e0 : Z) : last_failure e0 [] = e0.
Proof. reflexivity. Qed.

Ltac events_simpl :=
  repeat first
    [ rewrite held_app | rewrite socket_calls_app | rewrite connected_app
    | rewrite last_failure_app | rewrite held_cons | rewrite held_nil
    | rewrite connected_cons | rewrite last_failure_cons
    | rewrite last_failure_nil
    | rewrite connected_nil
    | progress cbn [held_step socket_calls is_connected failure_of app orb] ].

Lemma closes_readings (evs : list event) :
  forallb is_close evs = true ->
  socket_calls evs = [] /\ connected evs = false
  /\ forall h, sockets_start_clean h evs.
Proof.
  induction evs as [|e evs IH]; intros Hc; [now repeat split|].
  cbn [forallb] in Hc. apply andb_true_iff in Hc as [He Hc].
  destruct (IH Hc) as (IH1 & IH2 & IH3).
  destruct e; try discriminate.
  repeat split; auto.
Qed.

Lemma connect_attempt_spec (a : addrinfo) (source : option string)
  (fd : Z) (w : world) (B : gset Z) (fd' : Z) (ok : bool) (w' : world)
  (evs : list event) :
  connect_attempt a source fd w = (fd', ok, w', evs) ->
  open_fds w = holding fd ∪ B ->
  (0 <= fd -> fd ∉ B) ->
  open_fds w' = holding fd' ∪ B
  /\ (0 <= fd' -> fd' ∉ B)
  /\ oracle w' = oracle w
  /\ socket_calls evs = [candidate a]
  /\ held (holding fd) evs = holding fd'
  /\ sockets_start_clean (holding fd) evs
  /\ connected evs = ok
  /\ (ok = true ->
      0 <= fd'
      /\ exists pre,
          evs = pre ++ [EvConnect fd' (ai_addr a) (Ret 0)]
          /\ connected pre = false)
  /\ (fd' < 0 -> last_not_close evs)
  /\ evs <> []
  /\ errno w' = last_failure (errno w) evs.
Proof.
  intros Hrun Hopen Hfresh.
  unfold connect_attempt, bind in Hrun.
  (* the descriptor left by the turn before is closed *)
  assert (Hclose :
    exists w1 e1,
      (if fd >=? 0 then bind (sys_close fd) (fun _ => ret tt) else ret tt) w
      = (tt, w1, e1)
      /\ open_fds w1 = B /\ oracle w1 = oracle w
      /\ held (holding fd) e1 = ∅
      /\ forallb is_close e1 = true
      /\ errno w1 = last_failure (errno w) e1).
  { destruct (Z.geb_spec fd 0) as [Hge | Hlt].
    - unfold bind. rewrite sys_close_run. rewrite holding_nonneg in * by lia.
      specialize (Hfresh ltac:(lia)).
      destruct (oracle w (clock w)); eexists _, _; cbn;
        (split; [reflexivity|]); repeat split; try reflexivity;
        rewrite ?Hopen; set_solver.
    - exists w, []. rewrite holding_neg in * by lia. cbn.
      repeat split; try reflexivity. rewrite Hopen. set_solver. }
  destruct Hclose as (w1 & e1 & Hc & Hopen1 & Horacle1 & Hheld1 & Hcl1 & Herr1).
  unfold bind in Hc. rewrite Hc in Hrun. clear Hc.
  destruct (closes_readings e1 Hcl1) as (Hs1 & Hn1 & Hclean1).
  unfold sys_socket in Hrun. rewrite fd_call_run in Hrun.
  destruct (oracle w1 (clock w1)) as [v | e]; cbv beta iota zeta in Hrun.
  - (* the socket is created *)
    remember (lowest_free (open_fds w1)) as s eqn:Hs.
    assert (Hs0 : 0 <= s) by (subst s; apply lowest_free_nonneg).
    assert (HsB : s ∉ B) by (subst s; rewrite <- Hopen1; apply lowest_free_fresh).
    replace (s <? 0) with false in Hrun by (symmetry; apply Z.ltb_ge; lia).
    remember (after w1 ({[s]} ∪ open_fds w1) (errno w1)) as w2 eqn:Hw2.
    pose proof (network_source_run s (ai_family a) source w2)
      as (Hq & Hopen3 & Horacle3 & Herr3).
    destruct (network_source s (ai_family a) source w2) as [[ok3 w3] e3].
    cbn [fst snd] in Hq, Hopen3, Horacle3, Herr3.
    assert (Hopen3' : open_fds w3 = {[s]} ∪ B)
      by (rewrite Hopen3, Hw2; cbn; now rewrite Hopen1).
    assert (Horacle3' : oracle w3 = oracle w)
      by (rewrite Horacle3, Hw2; cbn; assumption).
    assert (Herr3' : errno w3
                     = last_failure (last_failure (errno w) e1) e3)
      by (rewrite Herr3, Hw2; cbn; now rewrite Herr1).
    clear Hopen3 Horacle3 Herr3 Hs Hw2.
    pose proof (quiet_socket_calls e3 Hq) as Hs3.
    pose proof (quiet_connected e3 Hq) as Hn3.
    pose proof (fun h => quiet_held e3 h Hq) as Hh3.
    cbv beta iota zeta in Hrun.
    destruct ok3; cbn [negb] in Hrun; cbv beta iota zeta in Hrun.
    + unfold sys_connect in Hrun. rewrite plain_call_run in Hrun.
      destruct (oracle w3 (clock w3)) as [v' | e'];
        cbn in Hrun; inversion Hrun; subst fd' ok w' evs; clear Hrun;
        rewrite !holding_nonneg by lia; cbn [open_fds oracle errno after].
      * split; [assumption|]. split; [auto|]. split; [assumption|].
        split; [events_simpl; now rewrite ?Hs1, ?Hs3|].
        split; [events_simpl; rewrite ?Hh3, Hheld1; set_solver|].
        split.
        { apply sockets_start_clean_app. split; [apply Hclean1|].
          cbn [sockets_start_clean]. split; [assumption|].
          apply (sockets_start_clean_app e3 [_]). split.
          - now apply quiet_sockets_start_clean.
          - cbn. auto. }
        split; [events_simpl; now rewrite Hn1, ?Hn3|].
        split.
        { intros _. split; [lia|].
          exists (e1 ++ EvSocket (ai_family a) (ai_socktype a)
                    (ai_protocol a) (Ret s) :: e3).
          split.
          - now rewrite <- !app_assoc.
          - events_simpl. now rewrite Hn1, Hn3. }
        split; [lia|].
        split; [intros Hnil; apply app_eq_nil in Hnil as [_ Hnil]; discriminate|].
        events_simpl. assumption.
      * split; [assumption|]. split; [auto|]. split; [assumption|].
        split; [events_simpl; now rewrite ?Hs1, ?Hs3|].
        split; [events_simpl; rewrite ?Hh3, Hheld1; set_solver|].
        split.
        { apply sockets_start_clean_app. split; [apply Hclean1|].
          cbn [sockets_start_clean]. split; [assumption|].
          apply (sockets_start_clean_app e3 [_]). split.
          - now apply quiet_sockets_start_clean.
          - cbn. auto. }
        split; [events_simpl; now rewrite Hn1, ?Hn3|].
        split; [discriminate|].
        split; [lia|].
        split; [intros Hnil; apply app_eq_nil in Hnil as [_ Hnil]; discriminate|].
        events_simpl. reflexivity.
    + cbn in Hrun. inversion Hrun; subst fd' ok w' evs; clear Hrun.
      rewrite !holding_nonneg by lia. rewrite !app_nil_r.
      split; [assumption|]. split; [auto|]. split; [assumption|].
      split; [events_simpl; now rewrite ?Hs1, ?Hs3|].
      split; [events_simpl; rewrite ?Hh3, Hheld1; set_solver|].
      split.
      { apply sockets_start_clean_app. split; [apply Hclean1|].
        cbn [sockets_start_clean]. split; [assumption|].
        now apply quiet_sockets_start_clean. }
      split; [events_simpl; now rewrite Hn1, ?Hn3|].
      split; [discriminate|].
      split; [lia|].
      split; [intros Hnil; apply app_eq_nil in Hnil as [_ Hnil]; discriminate|].
      events_simpl. assumption.
  - (* the socket is refused *)
    cbn in Hrun. inversion Hrun; subst fd' ok w' evs; clear Hrun.
    rewrite (holding_neg (-1)) by lia. cbn [open_fds oracle errno after].
    split; [rewrite Hopen1; set_solver|]. split; [intros; lia|].
    split; [assumption|].
    split; [events_simpl; now rewrite ?Hs1, ?Hs3|].
    split; [events_simpl; assumption|].
    split.
    { apply sockets_start_clean_app. split; [apply Hclean1|]. cbn. auto. }
    split; [events_simpl; now rewrite Hn1, ?Hn3|].
    split; [discriminate|].
    split.
    { intros _ ev. rewrite last_snoc. intros Hev. now inversion Hev. }
    split; [intros Hnil; apply app_eq_nil in Hnil as [_ Hnil]; discriminate|].
    events_simpl. now rewrite ?Herr1.
Qed.

(** ** The loop of [network_connect] *)

Lemma connect_loop_spec (ai : list addrinfo) (source : option string) :
  forall (fd : Z) (w : world) (B : gset Z) (fd' : Z) (ok : bool) (w' : world)
         (evs : list event),
    connect_loop ai source fd w = (fd', ok, w', evs) ->
    open_fds w = holding fd ∪ B ->
    (0 <= fd -> fd ∉ B) ->
    open_fds w' = holding fd' ∪ B
    /\ (0 <= fd' -> fd' ∉ B)
    /\ (exists tried rest,
          ai = tried ++ rest
          /\ socket_calls evs = map candidate tried
          /\ (ok = false -> rest = [])
          /\ (ok = true ->
              exists a pre,
                last tried = Some a
                /\ evs = pre ++ [EvConnect fd' (ai_addr a) (Ret 0)]
                /\ connected pre = false
                /\ 0 <= fd'))
    /\ held (holding fd) evs = holding fd'
    /\ sockets_start_clean (holding fd) evs
    /\ connected evs = ok
    /\ (fd' < 0 -> last_not_close evs)
    /\ (evs = [] -> fd' = fd)
    /\ errno w' = last_failure (errno w) evs.
Proof.
  induction ai as [|a ai IH]; intros fd w B fd' ok w' evs Hrun Hopen Hfresh.
  - cbn in Hrun. inversion Hrun; subst fd' ok w' evs.
    repeat split; auto.
    + exists [], []. repeat split; auto. discriminate.
    + intros _ e He. discriminate.
  - cbn [connect_loop] in Hrun. unfold bind in Hrun.
    destruct (connect_attempt a source fd w) as [[[fd1 ok1] w1] e1] eqn:Ha.
    destruct (connect_attempt_spec _ _ _ _ B _ _ _ _ Ha Hopen Hfresh)
      as (Hopen1 & Hfresh1 & _ & Hs1 & Hh1 & Hc1 & Hn1 & Hok1 & Hl1 & Hne1
          & Herr1).
    destruct ok1.
    + cbn in Hrun. inversion Hrun; subst fd' ok w' evs. rewrite app_nil_r.
      repeat split; auto.
      * exists [a], ai. repeat split; auto; [discriminate|].
        intros _. destruct (Hok1 eq_refl) as (H0 & pre & Hpre & Hnpre).
        exists a, pre. repeat split; auto.
      * intros Hnil. contradiction.
    + destruct (connect_loop ai source fd1 w1) as [[[fd2 ok2] w2] e2] eqn:Hl.
      inversion Hrun; subst fd' ok w' evs.
      destruct (IH _ _ B _ _ _ _ Hl Hopen1 Hfresh1)
        as (Hopen2 & Hfresh2 & (tried & rest & Hai & Hs2 & Hrest & Hok2)
            & Hh2 & Hc2 & Hn2 & Hl2 & Hnil2 & Herr2).
      repeat split; auto.
      * exists (a :: tried), rest. repeat split.
        -- now rewrite Hai.
        -- now rewrite socket_calls_app, Hs1, Hs2.
        -- assumption.
        -- intros Hok. destruct (Hok2 Hok) as (b & pre & Hlast & Hevs & Hnpre & H0).
           exists b, (e1 ++ pre). repeat split; auto.
           ++ destruct tried as [|t tried]; [discriminate|].
              now rewrite last_cons, Hlast.
           ++ now rewrite Hevs, app_assoc.
           ++ now rewrite connected_app, Hn1, Hnpre.
      * now rewrite held_app, Hh1.
      * apply sockets_start_clean_app. split; [assumption|]. now rewrite Hh1.
      * now rewrite connected_app, Hn1.
      * intros Hneg e. rewrite last_app.
        destruct (last e2) as [e'|] eqn:Hlast.
        -- intros He. inversion He; subst e'. now apply (Hl2 Hneg).
        -- apply last_None in Hlast. specialize (Hnil2 Hlast). subst fd2.
           apply (Hl1 Hneg).
      * intros Hnil. apply app_eq_nil in Hnil as [Hnil _]. contradiction.
      * now rewrite last_failure_app, <- Herr1.
Qed.

(** ** [network_connect] *)

Lemma network_connect_run (ai : list addrinfo) (source : option string)
  (w : world) (fd : Z) (ok : bool) (w1 : world) (e1 : list event) :
  connect_loop ai source (-1) w = (fd, ok, w1, e1) ->
  network_connect ai source w
  = if ok then (fd, w1, e1)
    else if fd >=? 0 then
      (-1, after w1 (open_fds w1 ∖ {[fd]}) (errno w1),
       e1 ++ [EvClose fd match oracle w1 (clock w1) with
                         | Yes _ => Ret 0
                         | No e => Fail e
                         end])
    else (-1, w1, e1).
Proof.
  intros Hloop. unfold network_connect, bind. rewrite Hloop.
  destruct ok; [cbn; now rewrite app_nil_r|].
  destruct (fd >=? 0).
  - unfold get_errno, set_errno. rewrite sys_close_run.
    destruct (oracle w1 (clock w1)); cbn; now rewrite ?app_nil_r.
  - cbn. now rewrite ?app_nil_r.
Qed.

Lemma holding_minus_one : holding (-1) = ∅.
Proof. reflexivity. Qed.

(** *** The course of the call, event by event *)

Lemma network_source_course (s family : Z) (source : option string)
  (w : world) :
  network_source s family source w
  = match source_binding family source with
    | None => (false, w, [])
    | Some None => (true, w, [])
    | Some (Some addr) =>
        match oracle w (clock w) with
        | Yes _ =>
            (true, after w (open_fds w) (errno w), [EvBind s addr (Ret 0)])
        | No e => (false, after w (open_fds w) e, [EvBind s addr (Fail e)])
        end
    end.
Proof.
  unfold network_source, source_binding.
  destruct source as [text|]; [|reflexivity].
  destruct (family =? AF_INET).
  - destruct (String.eqb text "all"); [reflexivity|].
    destruct (inet_aton text); [|reflexivity].
    unfold bind, sys_bind. rewrite plain_call_run.
    destruct (oracle w (clock w)); reflexivity.
  - destruct (family =? AF_INET6); [|reflexivity].
    destruct (String.eqb text "all"); [reflexivity|].
    destruct (inet_pton6 text); [|reflexivity].
    unfold bind, sys_bind. rewrite plain_call_run.
    destruct (oracle w (clock w)); reflexivity.
Qed.

Lemma connect_attempt_course (a : addrinfo) (source : option string)
  (prev : Z) (w : world) :
  attempt source prev a (connect_attempt a source prev w).2
    (connect_attempt a source prev w).1.1.1
    (connect_attempt a source prev w).1.1.2.
Proof.
  unfold connect_attempt, bind.
  assert (Hclose : exists w1 closes,
      (if prev >=? 0 then bind (sys_close prev) (fun _ => ret tt) else ret tt)
        w = (tt, w1, closes)
      /\ closes_previous prev closes).
  { destruct (Z.geb_spec prev 0).
    - unfold bind. rewrite sys_close_run.
      destruct (oracle w (clock w)); eexists _, _;
        (split; [reflexivity|]); now constructor.
    - exists w, []. split; [reflexivity|]. constructor. lia. }
  destruct Hclose as (w1 & closes & Hc & Hcloses).
  unfold bind in Hc. rewrite Hc. clear Hc.
  unfold sys_socket. rewrite fd_call_run.
  destruct (oracle w1 (clock w1)) as [v | e]; cbv beta iota zeta.
  2: { change (-1 <? 0) with true. cbn [fst snd ret].
       rewrite app_nil_r. now constructor. }
  pose proof (lowest_free_nonneg (open_fds w1)) as Hs.
  replace (lowest_free (open_fds w1) <? 0) with false
    by (symmetry; apply Z.ltb_ge; lia).
  set (s := lowest_free (open_fds w1)) in *.
  rewrite network_source_course.
  destruct (source_binding (ai_family a) source) as [[addr|]|] eqn:Hbinding.
  - match goal with
    | |- context [oracle ?w' ?n] => destruct (oracle w' n) as [v2 | e2]
    end; cbn [negb].
    + unfold sys_connect. rewrite plain_call_run.
      match goal with
      | |- context [oracle ?w' ?n] => destruct (oracle w' n) as [v3 | e3]
      end; cbn [fst snd app].
      * apply attempt_socket; [assumption | assumption |].
        apply (use_bound source a s addr (Ret 0) Hbinding).
      * apply attempt_socket; [assumption | assumption |].
        apply (use_bound source a s addr (Fail e3) Hbinding).
    + cbn [fst snd app ret].
      apply attempt_socket; [assumption | assumption |].
      now apply use_bind_failed.
  - cbn [negb]. unfold sys_connect. rewrite plain_call_run.
    match goal with
    | |- context [oracle ?w' ?n] => destruct (oracle w' n) as [v3 | e3]
    end; cbn [fst snd app].
    + apply attempt_socket; [assumption | assumption |].
      apply (use_unbound source a s (Ret 0) Hbinding).
    + apply attempt_socket; [assumption | assumption |].
      apply (use_unbound source a s (Fail e3) Hbinding).
  - cbn [negb fst snd app ret].
    apply attempt_socket; [assumption | assumption |].
    now apply use_no_source.
Qed.

Lemma connect_loop_course (ai : list addrinfo) (source : option string) :
  forall (prev : Z) (w : world) (fd : Z) (ok : bool) (w' : world)
         (evs : list event),
    connect_loop ai source prev w = (fd, ok, w', evs) ->
    if ok then connect_course source prev ai evs fd
    else
      forall closes,
        closes_previous fd closes ->
        connect_course source prev ai (evs ++ closes) (-1).
Proof.
  induction ai as [|a ai IH]; intros prev w fd ok w' evs Hrun.
  - cbn in Hrun. inversion Hrun; subst fd ok w' evs.
    intros closes Hcloses. now constructor.
  - cbn [connect_loop] in Hrun. unfold bind in Hrun.
    pose proof (connect_attempt_course a source prev w) as Hattempt.
    destruct (connect_attempt a source prev w) as [[[fd1 ok1] w1] e1].
    cbn [fst snd] in Hattempt.
    destruct ok1.
    + cbn in Hrun. inversion Hrun; subst fd ok w' evs.
      rewrite app_nil_r. now apply course_connected.
    + destruct (connect_loop ai source fd1 w1) as [[[fd2 ok2] w2] e2] eqn:Hloop.
      inversion Hrun; subst fd ok w' evs.
      specialize (IH _ _ _ _ _ _ Hloop).
      destruct ok2.
      * now apply course_next with (fd := fd1).
      * intros closes Hcloses. rewrite <- app_assoc.
        apply course_next with (fd := fd1); [assumption|].
        now apply IH.
Qed.

Lemma network_connect_course (ai : list addrinfo) (source : option string)
  (w : world) :
  connect_course source (-1) ai (network_connect ai source w).2
    (network_connect ai source w).1.1.
Proof.
  destruct (connect_loop ai source (-1) w) as [[[fd ok] w1] e1] eqn:Hloop.
  rewrite (network_connect_run _ _ _ _ _ _ _ Hloop).
  pose proof (connect_loop_course _ _ _ _ _ _ _ _ Hloop) as Hcourse.
  destruct ok; [exact Hcourse|].
  destruct (Z.geb_spec fd 0); cbn [fst snd].
  - apply Hcourse. now constructor.
  - rewrite <- (app_nil_r e1). apply Hcourse. constructor. lia.
Qed.

(** C6: the call takes the course laid down by [connect_course]: the
    candidates are attempted in the order supplied; each attempt first
    closes the socket the attempt before left, then creates a socket for
    its candidate; a candidate whose socket is not created, or whose
    source is no address of its family, or whose [bind] to the source
    fails, is given up, without a [connect], for the next one; every
    other candidate is connected to, after the [bind] to the source if
    there is one; the first [connect] that succeeds ends the call, which
    returns the descriptor of that socket; and when no candidate is left
    the last socket is closed and the result is -1.  Moreover the
    [socket] calls are those of an initial part of the list, in order,
    each made when the call holds no descriptor; the call fails only
    when the whole list has been tried; and when a [connect] succeeds it
    is the first to succeed, it is the last event, it belongs to the last
    candidate tried, and its descriptor, the only one still held, is the
    result. *)
Theorem network_connect_in_order (ai : list addrinfo)
  (source : option string) (w : world) :
  let r := (network_connect ai source w).1.1 in
  let evs := (network_connect ai source w).2 in
  connect_course source (-1) ai evs r
  /\ exists tried rest,
      ai = tried ++ rest
      /\ socket_calls evs = map candidate tried
      /\ sockets_start_clean ∅ evs
      /\ (connected evs = false -> rest = [])
      /\ (connected evs = true ->
          exists a pre,
            last tried = Some a
            /\ evs = pre ++ [EvConnect r (ai_addr a) (Ret 0)]
            /\ connected pre = false
            /\ 0 <= r
            /\ held ∅ evs = {[r]}).
Proof.
  cbv zeta. split; [apply network_connect_course|].
  destruct (connect_loop ai source (-1) w) as [[[fd ok] w1] e1] eqn:Hloop.
  rewrite (network_connect_run _ _ _ _ _ _ _ Hloop).
  destruct (connect_loop_spec ai source (-1) w (open_fds w) fd ok w1 e1 Hloop)
    as (Hopen & Hfresh & (tried & rest & Hai & Hs & Hrest & Hok)
        & Hh & Hc & Hn & Hl & Hnil & Herr).
  { rewrite holding_minus_one. set_solver. }
  { intros; lia. }
  rewrite holding_minus_one in Hh, Hc.
  exists tried, rest.
  destruct ok.
  - cbn [fst snd]. repeat split; auto.
    + rewrite Hn. discriminate.
    + intros _. destruct (Hok eq_refl) as (a & pre & Hlast & Hevs & Hnpre & H0).
      exists a, pre. repeat split; auto.
      rewrite Hh. now apply holding_nonneg.
  - destruct (Z.geb_spec fd 0) as [Hge | Hlt]; cbn [fst snd].
    + repeat split; auto.
      * rewrite socket_calls_app, Hs. cbn. now rewrite app_nil_r.
      * apply sockets_start_clean_app. split; [assumption|]. cbn. auto.
      * rewrite connected_app, Hn. cbn. discriminate.
    + repeat split; auto. rewrite Hn. discriminate.
Qed.

Lemma network_connect_in_order_witness :
  connect_course (Some "192.0.2.7") (-1)
    [mk_addrinfo AF_INET6 SOCK_STREAM 6 (sockaddr_in6 (htons 80) (repeat 0 16));
     mk_addrinfo AF_INET SOCK_STREAM 6 (sockaddr_in (htons 80) 16777226);
     mk_addrinfo AF_INET SOCK_STREAM 6 (sockaddr_in (htons 80) 33554442)]
    (network_connect
       [mk_addrinfo AF_INET6 SOCK_STREAM 6
          (sockaddr_in6 (htons 80) (repeat 0 16));
        mk_addrinfo AF_INET SOCK_STREAM 6 (sockaddr_in (htons 80) 16777226);
        mk_addrinfo AF_INET SOCK_STREAM 6 (sockaddr_in (htons 80) 33554442)]
       (Some "192.0.2.7") (std_world [No 97; Yes 0; No 99; Yes 0])).2
    (network_connect
       [mk_addrinfo AF_INET6 SOCK_STREAM 6
          (sockaddr_in6 (htons 80) (repeat 0 16));
        mk_addrinfo AF_INET SOCK_STREAM 6 (sockaddr_in (htons 80) 16777226);
        mk_addrinfo AF_INET SOCK_STREAM 6 (sockaddr_in (htons 80) 33554442)]
       (Some "192.0.2.7") (std_world [No 97; Yes 0; No 99; Yes 0])).1.1
  /\ (network_connect
        [mk_addrinfo AF_INET6 SOCK_STREAM 6
           (sockaddr_in6 (htons 80) (repeat 0 16));
         mk_addrinfo AF_INET SOCK_STREAM 6 (sockaddr_in (htons 80) 16777226);
         mk_addrinfo AF_INET SOCK_STREAM 6 (sockaddr_in (htons 80) 33554442)]
        (Some "192.0.2.7") (std_world [No 97; Yes 0; No 99; Yes 0])).2
     = [EvSocket AF_INET6 SOCK_STREAM 6 (Fail 97);
        EvSocket AF_INET SOCK_STREAM 6 (Ret 3);
        EvBind 3 (mk_sockaddr AF_INET 0 117571776 []) (Fail 99);
        EvClose 3 (Ret 0);
        EvSocket AF_INET SOCK_STREAM 6 (Ret 3);
        EvBind 3 (mk_sockaddr AF_INET 0 117571776 []) (Ret 0);
        EvConnect 3 (sockaddr_in (htons 80) 33554442) (Ret 0)].
Proof.
  split.
  - exact (proj1 (network_connect_in_order
                    [mk_addrinfo AF_INET6 SOCK_STREAM 6
                       (sockaddr_in6 (htons 80) (repeat 0 16));
                     mk_addrinfo AF_INET SOCK_STREAM 6
                       (sockaddr_in (htons 80) 16777226);
                     mk_addrinfo AF_INET SOCK_STREAM 6
                       (sockaddr_in (htons 80) 33554442)]
                    (Some "192.0.2.7")
                    (std_world [No 97; Yes 0; No 99; Yes 0]))).
  - vm_compute. reflexivity.
Defined.

(** C7: when no [connect] succeeds the call returns -1, every descriptor
    it created is closed again (the process holds exactly the descriptors
    it held before), and [errno] is the code of the most recent failed
    call of the attempts, whatever the closing of the last socket did to
    it. *)
Theorem network_connect_all_fail (ai : list addrinfo)
  (source : option string) (w : world) :
  connected (network_connect ai source w).2 = false ->
  (network_connect ai source w).1.1 = -1
  /\ open_fds (network_connect ai source w).1.2 = open_fds w
  /\ held ∅ (network_connect ai source w).2 = ∅
  /\ errno (network_connect ai source w).1.2
     = last_failure (errno w) (strip_cleanup (network_connect ai source w).2).
Proof.
  destruct (connect_loop ai source (-1) w) as [[[fd ok] w1] e1] eqn:Hloop.
  rewrite (network_connect_run _ _ _ _ _ _ _ Hloop).
  destruct (connect_loop_spec ai source (-1) w (open_fds w) fd ok w1 e1 Hloop)
    as (Hopen & Hfresh & _ & Hh & Hc & Hn & Hl & Hnil & Herr).
  { rewrite holding_minus_one. set_solver. }
  { intros; lia. }
  rewrite holding_minus_one in Hh.
  destruct ok.
  - cbn [fst snd]. rewrite Hn. discriminate.
  - intros _. destruct (Z.geb_spec fd 0) as [Hge | Hlt]; cbn [fst snd].
    + rewrite holding_nonneg in * by lia. specialize (Hfresh ltac:(lia)).
      repeat split.
      * cbn. rewrite Hopen. set_solver.
      * rewrite held_app, Hh. cbn. set_solver.
      * unfold strip_cleanup. rewrite last_snoc. cbn [is_close].
        rewrite removelast_last. cbn. exact Herr.
    + rewrite holding_neg in * by lia.
      repeat split.
      * rewrite Hopen. set_solver.
      * assumption.
      * unfold strip_cleanup.
        destruct (last e1) as [e|] eqn:Hlast; [|exact Herr].
        now rewrite (Hl Hlt e Hlast).
Qed.

Lemma network_connect_all_fail_witness :
  (network_connect
     [mk_addrinfo AF_INET SOCK_STREAM 6 (sockaddr_in (htons 80) 16777226);
      mk_addrinfo AF_INET6 SOCK_STREAM 6 (sockaddr_in6 (htons 80) (repeat 0 16))]
     None (std_world [Yes 0; No 111; No 4; Yes 0; No 101; No 5])).1.1 = -1
  /\ errno (network_connect
      [mk_addrinfo AF_INET SOCK_STREAM 6 (sockaddr_in (htons 80) 16777226);
       mk_addrinfo AF_INET6 SOCK_STREAM 6
         (sockaddr_in6 (htons 80) (repeat 0 16))]
      None (std_world [Yes 0; No 111; No 4; Yes 0; No 101; No 5])).1.2 = 101.
Proof.
  destruct (network_connect_all_fail
     [mk_addrinfo AF_INET SOCK_STREAM 6 (sockaddr_in (htons 80) 16777226);
      mk_addrinfo AF_INET6 SOCK_STREAM 6 (sockaddr_in6 (htons 80) (repeat 0 16))]
     None (std_world [Yes 0; No 111; No 4; Yes 0; No 101; No 5]))
    as (Hr & _ & _ & He); [vm_compute; reflexivity|].
  split; [exact Hr|]. rewrite He. vm_compute. reflexivity.
Defined.

(** ** [network_bind_ipv4] and [network_bind_ipv6] *)

Ltac run_call :=
  first [ rewrite fd_call_run | rewrite plain_call_run | rewrite sys_close_run ];
  let r := fresh "reply" in
  match goal with
  | |- context [oracle ?w ?n] => destruct (oracle w n) as [r | r]
  end;
  cbv beta iota zeta;
  repeat match goal with
    | |- context [lowest_free ?s <? 0] =>
        replace (lowest_free s <? 0) with false
          by (symmetry; apply Z.ltb_ge, lowest_free_nonneg)
    end;
  change (-1 <? 0) with true; change (0 <? 0) with false;
  cbv beta iota zeta.

(** The IPv6 binder gives its socket up on every failure. *)
Lemma network_bind_ipv6_closes (address : string) (port : Z) (w : world) :
  (network_bind_ipv6 address port w).1.1 = -1 ->
  open_fds (network_bind_ipv6 address port w).1.2 = open_fds w
  /\ held ∅ (network_bind_ipv6 address port w).2 = ∅.
Proof.
  pose proof (lowest_free_fresh (open_fds w)) as Hfresh.
  pose proof (lowest_free_nonneg (open_fds w)) as Hnn.
  unfold network_bind_ipv6, network_set_reuseaddr, sys_socket, sys_setsockopt,
    sys_bind, syswarn, warn, get_errno, emit, bind, ret.
  run_call.
  - run_call.
    all: destruct (inet_pton6 _); cbv beta iota zeta.
    all: repeat run_call.
    all: cbn [fst snd open_fds after app].
    all: try (intros Hr; exfalso; lia).
    all: intros _; split; [set_solver | cbn; set_solver].
  - intros _.
    match goal with |- context [if ?b then _ else _] => destruct b end;
      cbn; split; reflexivity.
Qed.

(** The IPv4 binder keeps its socket open on every failure that comes
    after the socket was created. *)
Lemma network_bind_ipv4_keeps_socket (address : string) (port : Z)
  (w : world) (v : Z) :
  oracle w (clock w) = Yes v ->
  (network_bind_ipv4 address port w).1.1 = -1 ->
  open_fds (network_bind_ipv4 address port w).1.2
  = {[lowest_free (open_fds w)]} ∪ open_fds w
  /\ lowest_free (open_fds w) ∉ open_fds w.
Proof.
  intros Hsock.
  pose proof (lowest_free_fresh (open_fds w)) as Hfresh.
  pose proof (lowest_free_nonneg (open_fds w)) as Hnn.
  unfold network_bind_ipv4, network_set_reuseaddr, sys_socket, sys_setsockopt,
    sys_bind, syswarn, warn, get_errno, emit, bind, ret.
  rewrite fd_call_run, Hsock. cbv beta iota zeta.
  replace (lowest_free (open_fds w) <? 0) with false
    by (symmetry; apply Z.ltb_ge, lowest_free_nonneg).
  run_call.
  all: destruct (inet_aton _); cbv beta iota zeta.
  all: repeat run_call.
  all: cbn [fst snd open_fds after app].
  all: try (intros Hr; exfalso; lia).
  all: intros _; split; [reflexivity | assumption].
Qed.

(** C1: a binder that returns -1 should have closed every descriptor it
    created.  The IPv4 binder does not: it returns -1 with the socket it
    created (descriptor 3) still open, both when the address text is
    invalid and when [bind] fails (port 4444 in use, error 98); the IPv6
    binder closes it on both paths. *)
Theorem network_bind_ipv4_leaks :
  (network_bind_ipv4 "bogus" 4444 (std_world [])).1.1 = -1
  /\ open_fds (network_bind_ipv4 "bogus" 4444 (std_world [])).1.2
     = {[3]} ∪ open_fds (std_world [])
  /\ held ∅ (network_bind_ipv4 "bogus" 4444 (std_world [])).2 = {[3]}
  /\ (network_bind_ipv4 "any" 4444 (std_world [Yes 0; Yes 0; No 98])).1.1 = -1
  /\ open_fds
       (network_bind_ipv4 "any" 4444 (std_world [Yes 0; Yes 0; No 98])).1.2
     = {[3]} ∪ open_fds (std_world [])
  /\ held ∅ (network_bind_ipv4 "any" 4444
               (std_world [Yes 0; Yes 0; No 98])).2 = {[3]}
  /\ open_fds (network_bind_ipv6 "bogus" 4444 (std_world [])).1.2
     = open_fds (std_world [])
  /\ open_fds
       (network_bind_ipv6 "any" 4444 (std_world [Yes 0; Yes 0; No 98])).1.2
     = open_fds (std_world []).
Proof. repeat split; vm_compute; reflexivity. Qed.

(** * The daemon *)

(** ** The accept loop *)

Lemma accept_calls_app (e1 e2 : list event) :
  accept_calls (e1 ++ e2) = (accept_calls e1 + accept_calls e2)%nat.
Proof. unfold accept_calls. now rewrite filter_app, length_app. Qed.

Lemma server_handle_connection_events (s : Z) (w : world) :
  handler_events s (server_handle_connection s w).2.
Proof.
  unfold server_handle_connection, external_call, server_free_client, debug,
    release_fd, emit, bind, ask, ret.
  destruct (oracle w (clock w)) as [protocol | e]; cbv beta iota zeta.
  - destruct (protocol =? 1); cbn; constructor.
  - rewrite sys_close_run. cbn [oracle clock].
    destruct (oracle w (S (clock w))); cbn; constructor.
Qed.

Lemma handler_events_no_accept (s : Z) (body : list event) :
  handler_events s body -> accept_calls body = 0%nat.
Proof. intros []; reflexivity. Qed.

Lemma accept_loop_serves (fuel : nat) :
  forall (stmp : Z) (w : world),
    (accept_loop fuel stmp w).1.1 = Serving
    /\ accept_calls (accept_loop fuel stmp w).2 = fuel
    /\ serial_blocks stmp (accept_loop fuel stmp w).2.
Proof.
  induction fuel as [|fuel IH]; intros stmp w.
  - cbn. repeat split. constructor.
  - cbn [accept_loop]. unfold ebind, lift, sys_accept.
    rewrite fd_call_run.
    destruct (oracle w (clock w)) as [v | e]; cbv beta iota zeta.
    + replace (lowest_free (open_fds w) <? 0) with false
        by (symmetry; apply Z.ltb_ge, lowest_free_nonneg).
      set (s := lowest_free (open_fds w)).
      set (w1 := after w ({[s]} ∪ open_fds w) (errno w)).
      pose proof (server_handle_connection_events s w1) as Hbody.
      destruct (server_handle_connection s w1) as [[[] w2] body].
      cbn [fst snd] in Hbody.
      destruct (IH stmp w2) as (Hout & Hcount & Hserial).
      destruct (accept_loop fuel stmp w2) as [[out w3] rest].
      cbn [fst snd] in *. subst out.
      repeat split.
      * rewrite accept_calls_app, accept_calls_app,
          (handler_events_no_accept _ _ Hbody), Hcount. reflexivity.
      * cbn [app]. now constructor.
    + change (-1 <? 0) with true. unfold syswarn, get_errno, emit, bind.
      cbv beta iota zeta. cbn [errno after app].
      destruct (IH stmp (after w (open_fds w) e)) as (Hout & Hcount & Hserial).
      destruct (accept_loop fuel stmp (after w (open_fds w) e))
        as [[out w3] rest].
      cbn [fst snd] in *. subst out.
      repeat split.
      * change (S (accept_calls rest) = S fuel). now rewrite Hcount.
      * cbn [app]. now constructor.
Qed.

(** ** The start of the daemon *)

Section Daemon.

Variable CONFIG_FILE : string.
Variable PACKAGE_VERSION : string.

Local Open Scope daemon_scope.

Lemma parse_options_events (argv : list getopt_result) :
  forall (o : options) (w : world),
    (parse_options CONFIG_FILE PACKAGE_VERSION argv o w).1.1 <> Serving
    /\ creds_failed (parse_options CONFIG_FILE PACKAGE_VERSION argv o w).2
       = false
    /\ existsb is_network_event
         (parse_options CONFIG_FILE PACKAGE_VERSION argv o w).2 = false.
Proof.
  induction argv as [|option argv IH]; intros o w.
  - cbn. repeat split. discriminate.
  - destruct option; cbn [parse_options]; try apply IH.
    all: cbn; repeat split; discriminate.
Qed.

Lemma serial_blocks_no_creds_failure (stmp : Z) (evs : list event) :
  serial_blocks stmp evs -> creds_failed evs = false.
Proof.
  induction 1 as [| e message rest _ IH | s body rest Hbody _ IH].
  - reflexivity.
  - exact IH.
  - unfold creds_failed in *. cbn [existsb is_creds_failure orb].
    rewrite existsb_app, IH. now destruct Hbody.
Qed.

Lemma handler_events_readings (s : Z) (body : list event) :
  handler_events s body ->
  creds_failed body = false /\ existsb is_accept body = false.
Proof. intros []; split; reflexivity. Qed.

Lemma create_socket_events (port : Z) (w : world) :
  creds_failed (create_socket port w).2 = false
  /\ existsb is_accept (create_socket port w).2 = false.
Proof.
  unfold create_socket, sys_socket, sys_setsockopt, sys_bind, sys_listen,
    syswarn, get_errno, emit, bind, ret.
  run_call; [|split; reflexivity].
  repeat run_call; split; reflexivity.
Qed.

(** The serving part of [main]: one connection on descriptor 0, or the
    listening socket and the accept loop. *)
Lemma serve_run (fuel : nat) (o : options) (w : world) :
  let res :=
    (if negb (do_standalone o) then lift (server_handle_connection 0)
     else
       (lift (emit (EvAlarm 0)) ;;
        stmp <- lift (create_socket (port o)) ;;
        (if stmp <? 0 then sysdie "cannot create socket" else eret tt) ;;
        (match pid_path o with
         | Some pid_path =>
             pid_file <- lift (external_call (EvPidFile pid_path)) ;;
             match pid_file with
             | Fail _ => sysdie "cannot create PID file %s"
             | Ret _ => eret tt
             end
         | None => eret tt
         end) ;;
        accept_loop fuel stmp)%daemon) w in
  creds_failed res.2 = false
  /\ ((existsb is_accept res.2 = false /\ res.1.1 <> Serving)
      \/ (res.1.1 = Serving
          /\ exists startup loop stmp,
              res.2 = startup ++ loop
              /\ existsb is_accept startup = false
              /\ serial_blocks stmp loop
              /\ accept_calls loop = fuel)).
Proof.
  cbv zeta.
  match goal with
  | |- creds_failed (snd ?t) = false /\ _ => remember t as res eqn:Hrun
  end.
  destruct res as [[out w'] evs]. symmetry in Hrun. cbn [fst snd].
  destruct (do_standalone o); cbn [negb] in Hrun.
  - unfold ebind at 1 in Hrun. unfold lift at 1, emit in Hrun.
    cbv beta iota zeta in Hrun.
    unfold ebind at 1 in Hrun. unfold lift at 1 in Hrun.
    pose proof (create_socket_events (port o) w) as (Hc1 & Ha1).
    destruct (create_socket (port o) w) as [[stmp w1] e1].
    cbn [fst snd] in Hc1, Ha1. cbv beta iota zeta in Hrun.
    unfold ebind at 1 in Hrun.
    destruct (stmp <? 0).
    { unfold sysdie in Hrun. inversion Hrun; subst out w' evs.
      unfold creds_failed in *. cbn [existsb is_creds_failure is_accept orb app].
      rewrite !existsb_app, Hc1, Ha1. cbn.
      split; [reflexivity|]. left. split; [reflexivity | discriminate]. }
    unfold eret at 1 in Hrun. cbv beta iota zeta in Hrun.
    unfold ebind at 1 in Hrun.
    assert (Hpid :
      exists out w2 e2,
        (match pid_path o with
         | Some pid_path =>
             ebind (lift (external_call (EvPidFile pid_path)))
               (fun pid_file =>
                  match pid_file with
                  | Fail _ => sysdie "cannot create PID file %s"
                  | Ret _ => eret tt
                  end)
         | None => eret tt
         end) w1 = (out, w2, e2)
        /\ creds_failed e2 = false /\ existsb is_accept e2 = false
        /\ out <> Serving).
    { destruct (pid_path o) as [path|].
      - unfold ebind, lift, external_call, bind, ask, emit, ret, sysdie, eret.
        destruct (oracle w1 (clock w1)); cbv beta iota zeta;
          eexists _, _, _; (split; [reflexivity|]);
          repeat split; discriminate.
      - eexists _, _, _. split; [reflexivity|]. repeat split. discriminate. }
    destruct Hpid as (out2 & w2 & e2 & Hpid & Hc2 & Ha2 & Hout).
    rewrite Hpid in Hrun.
    destruct out2 as [[] | status |]; [| | contradiction].
    + destruct (accept_loop_serves fuel stmp w2) as (Hserving & Hcount & Hserial).
      destruct (accept_loop fuel stmp w2) as [[out3 w3] e3].
      cbn [fst snd] in *. subst out3. inversion Hrun; subst out w' evs.
      split.
      * unfold creds_failed in *. cbn [app].
        cbn [existsb is_creds_failure orb].
        rewrite !existsb_app, Hc1, Hc2.
        pose proof (serial_blocks_no_creds_failure _ _ Hserial) as Hc3.
        unfold creds_failed in Hc3. now rewrite Hc3.
      * right. split; [reflexivity|].
        exists ([EvAlarm 0] ++ e1 ++ [] ++ e2), e3, stmp.
        repeat split; auto.
        -- now rewrite <- !app_assoc.
        -- cbn [app existsb is_accept orb]. rewrite !existsb_app, Ha1, Ha2.
           reflexivity.
    + inversion Hrun; subst out w' evs. split.
      * unfold creds_failed in *. cbn [app existsb is_creds_failure orb].
        rewrite !existsb_app, Hc1, Hc2. reflexivity.
      * left. split; [|discriminate]. cbn [app existsb is_accept orb].
        rewrite !existsb_app, Ha1, Ha2. reflexivity.
  - unfold lift in Hrun.
    pose proof (server_handle_connection_events 0 w) as Hbody.
    destruct (server_handle_connection 0 w) as [[[] w1] body].
    cbn [fst snd] in *. inversion Hrun; subst out w' evs.
    destruct (handler_events_readings _ _ Hbody) as [Hc Ha].
    split; [assumption|]. left. split; [assumption | discriminate].
Qed.

Lemma external_call_run (ev : sysret -> event) (w : world) :
  external_call ev w
  = match oracle w (clock w) with
    | Yes v => (Ret v, after w (open_fds w) (errno w), [ev (Ret v)])
    | No e => (Fail e, after w (open_fds w) (errno w), [ev (Fail e)])
    end.
Proof.
  unfold external_call, bind, ask. destruct (oracle w (clock w)); reflexivity.
Qed.

Lemma no_network_no_accept (evs : list event) :
  existsb is_network_event evs = false -> existsb is_accept evs = false.
Proof.
  induction evs as [|e evs IH]; [reflexivity|].
  cbn [existsb]. intros H. apply orb_false_iff in H as [He H].
  rewrite (IH H). now destruct e.
Qed.

Lemma acquire_creds_run (service : string) (w : world) :
  existsb is_network_event (acquire_creds service w).2 = false
  /\ creds_failed (acquire_creds service w).2
     = negb (acquire_creds service w).1.1.
Proof.
  unfold acquire_creds, warn_gssapi, warn, emit, bind, ret.
  rewrite external_call_run.
  destruct (oracle w (clock w)); cbv beta iota zeta; [|split; reflexivity].
  rewrite external_call_run.
  match goal with
  | |- context [oracle ?w' ?n] => destruct (oracle w' n)
  end; split; reflexivity.
Qed.

(** The three ways a run of [main] can go: the requested credentials are
    not acquired and the process dies before any socket exists; or it
    ends without ever calling [accept]; or it is in the accept loop. *)
Ltac ex_simpl :=
  repeat first
    [ rewrite existsb_app
    | progress cbn [existsb app is_creds_failure is_accept is_network_event
                    orb] ].

Lemma main_run (fuel : nat) (argv : list getopt_result) (w : world) :
  let res := main CONFIG_FILE PACKAGE_VERSION fuel argv w in
  (creds_failed res.2 = true
   /\ res.1.1 = Exited 1
   /\ last res.2 = Some (EvDie "unable to acquire creds, aborting")
   /\ existsb is_network_event res.2 = false)
  \/ (creds_failed res.2 = false
      /\ ((existsb is_accept res.2 = false /\ res.1.1 <> Serving)
          \/ (res.1.1 = Serving
              /\ exists startup loop stmp,
                  res.2 = startup ++ loop
                  /\ existsb is_accept startup = false
                  /\ serial_blocks stmp loop
                  /\ accept_calls loop = fuel))).
Proof.
  cbv zeta.
  remember (main CONFIG_FILE PACKAGE_VERSION fuel argv w) as res eqn:Hrun.
  destruct res as [[out w'] evs]. symmetry in Hrun. cbn [fst snd].
  unfold main in Hrun.
  unfold ebind at 1 in Hrun. unfold lift at 1, emit at 1 in Hrun.
  cbv beta iota zeta in Hrun.
  unfold ebind at 1 in Hrun.
  pose proof (parse_options_events argv
                (mk_options None None 4444 false CONFIG_FILE) w)
    as (Ho1 & Hc1 & Hn1).
  destruct (parse_options CONFIG_FILE PACKAGE_VERSION argv
              (mk_options None None 4444 false CONFIG_FILE) w)
    as [[out1 w1] e1].
  cbn [fst snd] in Ho1, Hc1, Hn1.
  pose proof (no_network_no_accept _ Hn1) as Ha1.
  unfold creds_failed in *.
  destruct out1 as [o | status |]; [| | contradiction].
  2: { inversion Hrun; subst out w' evs. right.
       ex_simpl.
       rewrite Hc1, Ha1. split; [reflexivity|]. left.
       split; [reflexivity | discriminate]. }
  cbv beta iota zeta in Hrun.
  unfold ebind at 1 in Hrun. unfold lift at 1 in Hrun.
  rewrite external_call_run in Hrun.
  destruct (oracle w1 (clock w1)) as [v | e]; cbv beta iota zeta in Hrun.
  2: { unfold ebind at 1, die at 1 in Hrun.
       inversion Hrun; subst out w' evs. right.
       ex_simpl.
       rewrite Hc1, Ha1. split; [reflexivity|]. left.
       split; [reflexivity | discriminate]. }
  set (w2 := after w1 (open_fds w1) (errno w1)) in *.
  unfold ebind at 1, eret at 1 in Hrun. cbv beta iota zeta in Hrun.
  unfold ebind at 1 in Hrun.
  assert (Hcreds :
    exists outc w3 e3,
      (match service o with
       | Some service =>
           ebind (lift (acquire_creds service))
             (fun ok =>
                if negb ok then die "unable to acquire creds, aborting"
                else eret true)
       | None => eret false
       end) w2 = (outc, w3, e3)
      /\ existsb is_network_event e3 = false
      /\ ((outc = Exited 1 /\ existsb is_creds_failure e3 = true
           /\ last e3 = Some (EvDie "unable to acquire creds, aborting"))
          \/ (exists creds, outc = Value creds
              /\ existsb is_creds_failure e3 = false))).
  { destruct (service o) as [svc|].
    - unfold ebind, lift.
      pose proof (acquire_creds_run svc w2) as (Hn & Hc).
      destruct (acquire_creds svc w2) as [[ok w3] e3].
      cbn [fst snd] in Hn, Hc. unfold creds_failed in Hc.
      destruct ok; cbn [negb] in *; unfold die, eret; eexists _, _, _;
        (split; [reflexivity|]).
      + rewrite app_nil_r. split; [assumption|]. right. eauto.
      + rewrite existsb_app, Hn. split; [reflexivity|]. left.
        rewrite existsb_app, Hc, last_snoc. auto.
    - eexists _, _, _. split; [reflexivity|]. split; [reflexivity|].
      right. eauto. }
  destruct Hcreds as (outc & w3 & e3 & Hcreds & Hn3 & Hcases).
  rewrite Hcreds in Hrun. clear Hcreds.
  pose proof (no_network_no_accept _ Hn3) as Ha3.
  destruct Hcases as [(-> & Hc3 & Hlast) | (creds & -> & Hc3)].
  { inversion Hrun; subst out w' evs. left.
    ex_simpl. rewrite Hc3, Hn1, Hn3, !orb_true_r.
    repeat split; try reflexivity.
    match goal with
    | |- last ?l = _ =>
        replace l
          with ((EvAlarm (60 * 60) :: e1
                 ++ [EvConfigLoad (conffile o) (Ret v)]) ++ e3)
          by (cbn [app]; now rewrite <- app_assoc)
    end.
    now rewrite last_app, Hlast. }
  unfold ebind at 1 in Hrun.
  match type of Hrun with
  | context [match ?block w3 with _ => _ end] =>
      pose proof (serve_run fuel o w3) as Hserve; cbv zeta in Hserve;
      destruct (block w3) as [[out4 w4] e4]
  end.
  cbn [fst snd] in Hserve. destruct Hserve as (Hc4 & Hserve).
  unfold creds_failed in Hc4.
  right.
  destruct out4 as [[] | status |].
  - (* the one connection was served: release and return *)
    destruct Hserve as [(Ha4 & _) | (Habs & _)]; [|discriminate].
    unfold ebind at 1 in Hrun.
    assert (Hrel :
      exists w5 e5,
        (if creds then lift (emit EvGssReleaseCred) else eret tt) w4
        = (Value tt, w5, e5)
        /\ existsb is_creds_failure e5 = false
        /\ existsb is_accept e5 = false).
    { destruct creds; eexists _, _; repeat split. }
    destruct Hrel as (w5 & e5 & Hrel & Hc5 & Ha5).
    rewrite Hrel in Hrun. unfold eret in Hrun.
    inversion Hrun; subst out w' evs.
    ex_simpl.
    rewrite Hc1, Hc3, Hc4, Hc5, Ha1, Ha3, Ha4, Ha5.
    split; [reflexivity|]. left. split; [reflexivity | discriminate].
  - destruct Hserve as [(Ha4 & _) | (Habs & _)]; [|discriminate].
    inversion Hrun; subst out w' evs.
    ex_simpl.
    rewrite Hc1, Hc3, Hc4, Ha1, Ha3, Ha4.
    split; [reflexivity|]. left. split; [reflexivity | discriminate].
  - destruct Hserve as [(_ & Habs) | (_ & startup & loop & stmp & He4 & Has
                                       & Hserial & Hcount)];
      [contradiction|].
    inversion Hrun; subst out w' evs.
    ex_simpl.
    rewrite Hc1, Hc3, Hc4.
    split; [reflexivity|]. right. split; [reflexivity|].
    exists (EvAlarm (60 * 60) :: e1
            ++ [EvConfigLoad (conffile o) (Ret v)] ++ e3 ++ startup),
      loop, stmp.
    repeat split; auto.
    + rewrite He4. repeat first [rewrite <- app_assoc | progress cbn [app]].
      reflexivity.
    + ex_simpl. rewrite Ha1, Ha3, Has. reflexivity.
Qed.

End Daemon.

(** C8: when the credentials of a requested service identity are not
    acquired, the process exits with status 1, its last act being the
    fatal report, and no socket was created, bound, listened or accepted
    on and no session was started anywhere in the run. *)
Theorem main_creds_failure_is_fatal (CONFIG_FILE PACKAGE_VERSION : string)
  (fuel : nat) (argv : list getopt_result) (w : world) :
  creds_failed (main CONFIG_FILE PACKAGE_VERSION fuel argv w).2 = true ->
  (main CONFIG_FILE PACKAGE_VERSION fuel argv w).1.1 = Exited 1
  /\ last (main CONFIG_FILE PACKAGE_VERSION fuel argv w).2
     = Some (EvDie "unable to acquire creds, aborting")
  /\ existsb is_network_event (main CONFIG_FILE PACKAGE_VERSION fuel argv w).2
     = false.
Proof.
  intros Hfailed.
  destruct (main_run CONFIG_FILE PACKAGE_VERSION fuel argv w)
    as [(_ & Hout & Hlast & Hnet) | (Hnone & _)].
  - auto.
  - rewrite Hnone in Hfailed. discriminate.
Qed.

Lemma main_creds_failure_is_fatal_witness :
  (main "/etc/remctl.conf" "2.11" 4 [opt_m; opt_s "host/www.example.org"]
     (std_world [Yes 0; Yes 0; No 851968])).1.1 = Exited 1.
Proof.
  apply (main_creds_failure_is_fatal "/etc/remctl.conf" "2.11" 4
           [opt_m; opt_s "host/www.example.org"]
           (std_world [Yes 0; Yes 0; No 851968])).
  vm_compute. reflexivity.
Defined.

(** C9: however many turns of the accept loop are observed, and whatever
    the environment decides on each call, the loop is still running after
    them: every turn called [accept] once, a failed [accept] was reported
    and followed by the next turn, and the handler of an accepted
    connection ran to its end, refused or served, before the next
    [accept].  In a run of [main] that reaches [accept] the same holds of
    the events from the first [accept] on. *)
Theorem accept_loop_continues (fuel : nat) (stmp : Z) (w : world)
  (CONFIG_FILE PACKAGE_VERSION : string) (argv : list getopt_result)
  (w0 : world) :
  ((accept_loop fuel stmp w).1.1 = Serving
   /\ accept_calls (accept_loop fuel stmp w).2 = fuel
   /\ serial_blocks stmp (accept_loop fuel stmp w).2)
  /\ (existsb is_accept (main CONFIG_FILE PACKAGE_VERSION fuel argv w0).2
      = true ->
      (main CONFIG_FILE PACKAGE_VERSION fuel argv w0).1.1 = Serving
      /\ exists startup loop listener,
          (main CONFIG_FILE PACKAGE_VERSION fuel argv w0).2 = startup ++ loop
          /\ existsb is_accept startup = false
          /\ serial_blocks listener loop
          /\ accept_calls loop = fuel).
Proof.
  split; [apply accept_loop_serves|].
  intros Haccept.
  destruct (main_run CONFIG_FILE PACKAGE_VERSION fuel argv w0)
    as [(_ & _ & _ & Hnet) | (_ & [(Hnone & _) | Hserving])].
  - apply no_network_no_accept in Hnet. rewrite Hnet in Haccept. discriminate.
  - rewrite Hnone in Haccept. discriminate.
  - exact Hserving.
Qed.

Lemma accept_loop_continues_witness :
  (main "/etc/remctl.conf" "2.11" 3 [opt_m; opt_p "4373"]
     (std_world [Yes 0; Yes 0; Yes 0; Yes 0; Yes 0;
                 Yes 0; No 104; No 4; No 24; Yes 0; Yes 2])).1.1 = Serving
  /\ accept_calls
       (main "/etc/remctl.conf" "2.11" 3 [opt_m; opt_p "4373"]
          (std_world [Yes 0; Yes 0; Yes 0; Yes 0; Yes 0;
                      Yes 0; No 104; No 4; No 24; Yes 0; Yes 2])).2 = 3%nat.
Proof.
  destruct (accept_loop_continues 3 3 (std_world [])
              "/etc/remctl.conf" "2.11" [opt_m; opt_p "4373"]
              (std_world [Yes 0; Yes 0; Yes 0; Yes 0; Yes 0;
                          Yes 0; No 104; No 4; No 24; Yes 0; Yes 2]))
    as [_ Hmain].
  destruct Hmain as (Hout & startup & loop & listener & Hevs & Hstart & _
                     & Hcount); [vm_compute; reflexivity|].
  split; [exact Hout|]. vm_compute. reflexivity.
Defined.

(** * Further properties of [util/network.c] *)

(** ** [network_sockaddr_equal] as an equivalence *)

Ltac byte_bits :=
  repeat first
    [ rewrite Z.lor_spec | rewrite Z.land_spec | rewrite testbit_255
    | rewrite Z.shiftr_spec by lia | rewrite Z.shiftl_spec by lia
    | rewrite Z.testbit_0_l ].

Lemma shiftl8_testbit (x j : Z) :
  0 <= j ->
  Z.testbit (Z.shiftl x 8) j = if j <? 8 then false else Z.testbit x (j - 8).
Proof.
  intros Hj. rewrite Z.shiftl_spec by lia.
  destruct (Z.ltb_spec j 8); [|reflexivity].
  apply Z.testbit_neg_r. lia.
Qed.

Lemma le_word4_testbit (b0 b1 b2 b3 j : Z) :
  is_byte b0 -> is_byte b1 -> is_byte b2 -> is_byte b3 -> 0 <= j ->
  Z.testbit (le_word [b0; b1; b2; b3]) j
  = if j <? 8 then Z.testbit b0 j
    else if j <? 16 then Z.testbit b1 (j - 8)
    else if j <? 24 then Z.testbit b2 (j - 16)
    else Z.testbit b3 (j - 24).
Proof.
  intros H0 H1 H2 H3 Hj. cbn [le_word].
  destruct (Z.ltb_spec j 8); [|destruct (Z.ltb_spec j 16);
    [|destruct (Z.ltb_spec j 24)]].
  all: repeat (rewrite Z.lor_spec, shiftl8_testbit by lia).
  all: rewrite ?Z.testbit_0_l.
  all: repeat match goal with
         | |- context [?a <? ?b] =>
             first [ replace (a <? b) with true
                       by (symmetry; apply Z.ltb_lt; lia)
                   | replace (a <? b) with false
                       by (symmetry; apply Z.ltb_ge; lia) ]
         end.
  all: rewrite ?orb_false_r.
  - reflexivity.
  - now rewrite (byte_testbit_high b0) by (auto; lia).
  - rewrite (byte_testbit_high b0), (byte_testbit_high b1) by (auto; lia).
    cbn [orb]. f_equal. lia.
  - rewrite (byte_testbit_high b0), (byte_testbit_high b1),
      (byte_testbit_high b2) by (auto; lia).
    cbn [orb]. destruct (j - 8 - 8 - 8 <? 8); rewrite orb_false_r;
      f_equal; lia.
Qed.

Lemma byte_of_bits (b x : Z) :
  is_byte b ->
  (forall t, 0 <= t < 8 -> Z.testbit x t = Z.testbit b t) ->
  Z.land x 255 = b.
Proof.
  intros Hb Hbits. apply Z.bits_inj'. intros j Hj.
  rewrite Z.land_spec, testbit_255.
  destruct (Z.ltb_spec j 8).
  - replace (0 <=? j) with true by (symmetry; apply Z.leb_le; lia).
    rewrite andb_true_r. apply Hbits. lia.
  - rewrite !andb_false_r. symmetry. now apply byte_testbit_high.
Qed.

(** The bytes of the word loaded from four bytes are those bytes. *)
Lemma le_bytes_le_word (b0 b1 b2 b3 : Z) :
  is_byte b0 -> is_byte b1 -> is_byte b2 -> is_byte b3 ->
  le_bytes (le_word [b0; b1; b2; b3]) = [b0; b1; b2; b3].
Proof.
  intros H0 H1 H2 H3. unfold le_bytes.
  repeat f_equal; apply byte_of_bits; try assumption; intros t Ht;
    rewrite ?Z.shiftr_spec by lia;
    rewrite le_word4_testbit by (auto; lia).
  - now replace (t <? 8) with true by (symmetry; apply Z.ltb_lt; lia).
  - replace (t + 8 <? 8) with false by (symmetry; apply Z.ltb_ge; lia).
    replace (t + 8 <? 16) with true by (symmetry; apply Z.ltb_lt; lia).
    f_equal. lia.
  - replace (t + 16 <? 8) with false by (symmetry; apply Z.ltb_ge; lia).
    replace (t + 16 <? 16) with false by (symmetry; apply Z.ltb_ge; lia).
    replace (t + 16 <? 24) with true by (symmetry; apply Z.ltb_lt; lia).
    f_equal. lia.
  - replace (t + 24 <? 8) with false by (symmetry; apply Z.ltb_ge; lia).
    replace (t + 24 <? 16) with false by (symmetry; apply Z.ltb_ge; lia).
    replace (t + 24 <? 24) with false by (symmetry; apply Z.ltb_ge; lia).
    f_equal. lia.
Qed.

Lemma le_bytes_inj (v v' : Z) :
  0 <= v < 2 ^ 32 -> 0 <= v' < 2 ^ 32 -> le_bytes v = le_bytes v' -> v = v'.
Proof.
  intros Hv Hv' E.
  rewrite <- (le_word_le_bytes v Hv), <- (le_word_le_bytes v' Hv').
  now rewrite E.
Qed.

Lemma IN6_ARE_ADDR_EQUAL_eq (a b : list Z) :
  length a = 16%nat -> length b = 16%nat ->
  IN6_ARE_ADDR_EQUAL a b = true <-> a = b.
Proof.
  intros Ha Hb.
  do 16 (destruct a as [|? a]; [discriminate Ha|]).
  destruct a; [|discriminate Ha].
  do 16 (destruct b as [|? b]; [discriminate Hb|]).
  destruct b; [|discriminate Hb].
  unfold IN6_ARE_ADDR_EQUAL. cbn [seq forallb s6 nth].
  rewrite !andb_true_iff, !Z.eqb_eq. split.
  - intros H. decompose [and] H. congruence.
  - intros H. inversion H. repeat split.
Qed.

Lemma mapped_compare (l : list Z) (v : Z) :
  length l = 16%nat -> Forall is_byte l -> 0 <= v < 2 ^ 32 ->
  IN6_IS_ADDR_V4MAPPED l
  && (le_word [s6 l 12; s6 l 13; s6 l 14; s6 l 15] =? v) = true
  <-> l = v4mapped v.
Proof.
  intros Hlen Hbytes Hv. split.
  - intros H. apply andb_true_iff in H as [Hm Hw]. apply Z.eqb_eq in Hw.
    do 16 (destruct l as [|? l]; [discriminate Hlen|]).
    destruct l; [|discriminate Hlen].
    unfold IN6_IS_ADDR_V4MAPPED in Hm. cbn [seq forallb s6 nth] in Hm, Hw.
    repeat match goal with
           | H : _ && _ = true |- _ => apply andb_true_iff in H as [? ?]
           end.
    repeat match goal with
           | H : (_ =? _) = true |- _ => apply Z.eqb_eq in H; subst
           end.
    repeat match goal with
           | H : Forall _ (_ :: _) |- _ => inversion H; clear H; subst
           end.
    unfold v4mapped, v4mapped_prefix. cbn [repeat app].
    now rewrite le_bytes_le_word.
  - intros ->. rewrite v4mapped_is_mapped, v4mapped_embedded by assumption.
    now rewrite Z.eqb_refl.
Qed.

Lemma sockaddr_equal_host_bytes (a b : sockaddr) :
  supported a -> supported b -> sockaddr_wf a -> sockaddr_wf b ->
  network_sockaddr_equal a b = true <-> host_bytes a = host_bytes b.
Proof.
  intros Sa Sb [Wa4 Wa6] [Wb4 Wb6].
  assert (Hmixed : forall x y,
            sa_family x = AF_INET -> sa_family y = AF_INET6 ->
            0 <= sin_addr x < 2 ^ 32 ->
            length (sin6_addr y) = 16%nat -> Forall is_byte (sin6_addr y) ->
            network_sockaddr_equal y x = true
            <-> sin6_addr y = v4mapped (sin_addr x)).
  { intros x y Fx Fy Rx Ly By.
    rewrite <- (mapped_compare _ _ Ly By Rx).
    unfold network_sockaddr_equal. rewrite Fx, Fy.
    cbn [Z.eqb Pos.eqb AF_INET AF_INET6 andb negb orb].
    rewrite Fx, Fy. cbn [Z.eqb Pos.eqb AF_INET AF_INET6 andb negb orb].
    now destruct (IN6_IS_ADDR_V4MAPPED (sin6_addr y)). }
  unfold host_bytes.
  destruct Sa as [Fa | Fa], Sb as [Fb | Fb]; rewrite Fa, Fb;
    cbn [Z.eqb Pos.eqb AF_INET AF_INET6].
  - specialize (Wa4 Fa). specialize (Wb4 Fb).
    unfold network_sockaddr_equal. rewrite Fa, Fb.
    cbn [Z.eqb Pos.eqb AF_INET AF_INET6 andb negb orb].
    rewrite Fa, Fb. cbn [Z.eqb Pos.eqb AF_INET AF_INET6 andb negb orb].
    rewrite Z.eqb_eq. split; [now intros -> |].
    unfold v4mapped. intros E. apply app_inv_head in E.
    now apply le_bytes_inj.
  - destruct (Wb6 Fb) as [Lb Bb]. rewrite sockaddr_equal_swap.
    rewrite (Hmixed a b Fa Fb (Wa4 Fa) Lb Bb). split; congruence.
  - destruct (Wa6 Fa) as [La Ba].
    apply (Hmixed b a Fb Fa (Wb4 Fb) La Ba).
  - destruct (Wa6 Fa) as [La _]. destruct (Wb6 Fb) as [Lb _].
    unfold network_sockaddr_equal. rewrite Fa, Fb.
    cbn [Z.eqb Pos.eqb AF_INET AF_INET6 andb negb orb].
    rewrite Fa, Fb. cbn [Z.eqb Pos.eqb AF_INET AF_INET6 andb negb orb].
    now apply IN6_ARE_ADDR_EQUAL_eq.
Qed.

(** X1: on well-formed addresses of the two supported families the
    comparison is true exactly when the two addresses name the same host,
    an IPv4 address standing for its IPv4-mapped form.  It is therefore
    reflexive, symmetric and transitive on them. *)
Theorem network_sockaddr_equal_same_host (a b : sockaddr) :
  supported a -> supported b -> sockaddr_wf a -> sockaddr_wf b ->
  network_sockaddr_equal a b = true <-> host_bytes a = host_bytes b.
Proof. apply sockaddr_equal_host_bytes. Qed.

Lemma network_sockaddr_equal_same_host_witness :
  network_sockaddr_equal (sockaddr_in6 80 (v4mapped 91291851))
    (sockaddr_in 443 91291851) = true.
Proof.
  apply (network_sockaddr_equal_same_host
           (sockaddr_in6 80 (v4mapped 91291851)) (sockaddr_in 443 91291851)).
  - right. reflexivity.
  - left. reflexivity.
  - split; [discriminate|]. intros _. split; [reflexivity|].
    cbv [sin6_addr sockaddr_in6 v4mapped v4mapped_prefix le_bytes repeat app].
    repeat (constructor;
            [unfold is_byte; vm_compute; split; [discriminate | reflexivity]|]).
    constructor.
  - split; [intros _; cbn; lia | discriminate].
  - reflexivity.
Defined.

(** X2: an address of a family that is neither IPv4 nor IPv6 compares
    unequal to every address, itself included. *)
Theorem network_sockaddr_equal_unsupported (a b : sockaddr) :
  ~ supported a \/ ~ supported b ->
  network_sockaddr_equal a b = false /\ network_sockaddr_equal b a = false.
Proof.
  assert (H : forall x y, ~ supported x -> network_sockaddr_equal x y = false).
  { intros x y Hx. unfold supported in Hx.
    unfold network_sockaddr_equal.
    destruct (Z.eqb_spec (sa_family x) AF_INET) as [E | _]; [tauto|].
    destruct (Z.eqb_spec (sa_family x) AF_INET6) as [E | _]; [tauto|].
    cbn [andb negb orb].
    destruct (Z.eqb_spec (sa_family x) AF_INET6); [tauto|].
    destruct (Z.eqb_spec (sa_family x) AF_INET); [tauto | reflexivity]. }
  intros [Ha | Hb]; split; auto; rewrite sockaddr_equal_swap; auto.
Qed.

Lemma network_sockaddr_equal_unsupported_witness :
  network_sockaddr_equal (mk_sockaddr 1 0 0 []) (mk_sockaddr 1 0 0 []) = false.
Proof.
  apply (network_sockaddr_equal_unsupported
           (mk_sockaddr 1 0 0 []) (mk_sockaddr 1 0 0 [])).
  left. intros [H | H]; discriminate H.
Defined.

(** ** [network_addr_match]: symmetry and nesting of prefixes *)

Lemma addr6_loop_sym (fuel : nat) :
  forall i cidr a6 b6,
    addr6_loop fuel i cidr a6 b6 = addr6_loop fuel i cidr b6 a6.
Proof.
  induction fuel as [|fuel IH]; intros i cidr a6 b6; [reflexivity|].
  cbn [addr6_loop].
  rewrite (Z.eqb_sym (s6 a6 (Z.to_nat i))), IH.
  now rewrite (Z.eqb_sym (Z.land (s6 a6 (Z.to_nat i)) _)).
Qed.

(** X3: the comparison of two address texts under a mask does not depend
    on the order of the two texts. *)
Theorem network_addr_match_sym (a b : string) (mask : option string) :
  network_addr_match a b mask = network_addr_match b a mask.
Proof.
  unfold network_addr_match.
  assert (Hv6 :
    match inet_pton6 a, inet_pton6 b with
    | Some a6, Some b6 =>
        match
          match mask with
          | Some mask =>
              let '(cidr, rest) := strtoul mask 10 in
              if (cidr >? 128) || negb (String.eqb rest "") then None
              else Some cidr
          | None => Some 128
          end
        with
        | Some cidr => addr6_loop 17 0 cidr a6 b6
        | None => false
        end
    | _, _ => false
    end
    = match inet_pton6 b, inet_pton6 a with
      | Some b6, Some a6 =>
          match
            match mask with
            | Some mask =>
                let '(cidr, rest) := strtoul mask 10 in
                if (cidr >? 128) || negb (String.eqb rest "") then None
                else Some cidr
            | None => Some 128
            end
          with
          | Some cidr => addr6_loop 17 0 cidr b6 a6
          | None => false
          end
      | _, _ => false
      end).
  { destruct (inet_pton6 a) as [a6|], (inet_pton6 b) as [b6|].
    - destruct (match mask with Some _ => _ | None => _ end);
        [apply addr6_loop_sym | exact eq_refl].
    - exact eq_refl.
    - exact eq_refl.
    - exact eq_refl. }
  destruct (inet_aton a) as [a4|], (inet_aton b) as [b4|].
  - clear Hv6.
    destruct (match mask with Some _ => _ | None => _ end);
      [apply Z.eqb_sym | exact eq_refl].
  - exact Hv6.
  - exact Hv6.
  - exact Hv6.
Qed.

(** The comparison of two IPv4 literals through the numeric values of
    the addresses and of the mask. *)
Lemma addr_match_ipv4_value (a b : string) (mask : option string)
  (a4 b4 M : Z) :
  inet_aton a = Some a4 ->
  inet_aton b = Some b4 ->
  ipv4_mask_spec mask = Some M ->
  network_addr_match a b mask
  = (Z.land (ipv4_value a4) M =? Z.land (ipv4_value b4) M).
Proof.
  intros Ha Hb HM.
  pose proof (inet_aton_range _ _ Ha) as Ra.
  pose proof (inet_aton_range _ _ Hb) as Rb.
  unfold network_addr_match. rewrite Ha, Hb.
  destruct mask as [m|]; cbn [ipv4_mask_spec] in HM.
  - destruct (has_dot m) eqn:Hdot; cbn [negb].
    + destruct (inet_aton m) as [tmp|] eqn:Hm; [|discriminate].
      inversion HM; subst M. now apply masked_compare_value.
    + destruct (decimal m) as [n|] eqn:Hdec; [|discriminate].
      destruct (Z.leb_spec n 32) as [Hn|]; [|discriminate].
      inversion HM; subst M.
      pose proof (decimal_nonneg _ _ Hdec) as Hn0.
      rewrite (strtoul_decimal m n Hdec) by (unfold ULONG_MAX; lia).
      replace (n >? 32) with false
        by (symmetry; rewrite Z.gtb_ltb; apply Z.ltb_ge; lia).
      cbn [String.eqb negb orb].
      rewrite masked_compare_value by assumption.
      unfold ntohl.
      now rewrite htonl_involutive, cidr4_bits_left_mask by lia.
  - inversion HM; subst M.
    rewrite masked_compare_value by assumption.
    unfold ntohl. rewrite htonl_involutive. reflexivity.
Qed.

Lemma left_mask_nested (m n : Z) :
  0 <= m <= n -> n <= 32 ->
  Z.land (left_mask 32 n) (left_mask 32 m) = left_mask 32 m.
Proof.
  intros Hm Hn. apply Z.bits_inj'. intros j Hj.
  rewrite Z.land_spec, !left_mask_testbit by lia.
  destruct (Z.leb_spec (32 - m) j); destruct (Z.leb_spec (32 - n) j);
    destruct (Z.ltb_spec j 32); try lia; reflexivity.
Qed.

Lemma decimal_prefix_mask (t : string) (n : Z) :
  decimal t = Some n -> n <= 32 ->
  ipv4_mask_spec (Some t) = Some (left_mask 32 n).
Proof.
  intros Hdec Hn. cbn [ipv4_mask_spec].
  rewrite (decimal_no_dot _ _ Hdec), Hdec.
  now replace (n <=? 32) with true by (symmetry; apply Z.leb_le; lia).
Qed.

(** X4: for two IPv4 literals, a match under a prefix length is a match
    under every shorter one; prefix length 0 matches any two IPv4
    literals; and prefix length 32 is the comparison without a mask. *)
Theorem addr_match_ipv4_nested (a b tm tn : string) (a4 b4 m n : Z) :
  inet_aton a = Some a4 ->
  inet_aton b = Some b4 ->
  decimal tm = Some m ->
  decimal tn = Some n ->
  m <= n ->
  n <= 32 ->
  (network_addr_match a b (Some tn) = true ->
   network_addr_match a b (Some tm) = true)
  /\ (m = 0 -> network_addr_match a b (Some tm) = true)
  /\ (n = 32 ->
      network_addr_match a b (Some tn) = network_addr_match a b None).
Proof.
  intros Ha Hb Hm Hn Hmn Hn32.
  pose proof (decimal_nonneg _ _ Hm) as Hm0.
  rewrite (addr_match_ipv4_value a b (Some tn) a4 b4 (left_mask 32 n) Ha Hb)
    by (apply decimal_prefix_mask; [assumption | lia]).
  rewrite (addr_match_ipv4_value a b (Some tm) a4 b4 (left_mask 32 m) Ha Hb)
    by (apply decimal_prefix_mask; [assumption | lia]).
  rewrite (addr_match_ipv4_value a b None a4 b4 (left_mask 32 32) Ha Hb)
    by reflexivity.
  repeat split.
  - rewrite !Z.eqb_eq. intros E.
    rewrite <- (left_mask_nested m n) by lia.
    now rewrite !Z.land_assoc, E.
  - intros ->. change (left_mask 32 0) with 0. now rewrite !Z.land_0_r.
  - now intros ->.
Qed.

Lemma addr_match_ipv4_nested_witness :
  network_addr_match "10.1.2.3" "10.1.77.9" (Some "16") = true.
Proof.
  refine (proj1 (addr_match_ipv4_nested "10.1.2.3" "10.1.77.9" "16" "17"
                   50462986 156041482 16 17 _ _ _ _ _ _) _);
    first [vm_compute; reflexivity | lia].
Defined.

(** X5: when one of the texts is no IPv4 literal, both are IPv6 literals
    and the mask is absent (128) or a decimal prefix length up to 128,
    the result is true exactly when the first bits of the two addresses,
    as many as the prefix length, agree. *)
Theorem addr_match_ipv6_first_bits (a b : string) (mask : option string)
  (a6 b6 : list Z) (n : Z) :
  inet_aton a = None \/ inet_aton b = None ->
  inet_pton6 a = Some a6 ->
  inet_pton6 b = Some b6 ->
  ipv6_prefix_spec mask = Some n ->
  network_addr_match a b mask = true <-> prefix_agree n a6 b6.
Proof. apply addr_match_ipv6_prefix. Qed.

Lemma addr_match_ipv6_first_bits_witness :
  prefix_agree 64
    [254; 128; 0; 0; 0; 0; 0; 0; 0; 0; 0; 0; 0; 0; 0; 1]
    [254; 128; 0; 0; 0; 0; 0; 0; 0; 0; 0; 0; 0; 0; 171; 205].
Proof.
  apply (addr_match_ipv6_first_bits "fe80::1" "fe80::abcd" (Some "64")
           [254; 128; 0; 0; 0; 0; 0; 0; 0; 0; 0; 0; 0; 0; 0; 1]
           [254; 128; 0; 0; 0; 0; 0; 0; 0; 0; 0; 0; 0; 0; 171; 205] 64);
    try reflexivity.
  left. reflexivity.
Defined.

Lemma has_dot_cons (c : ascii) (s : string) :
  has_dot (String c s) = (char_code c =? 46) || has_dot s.
Proof. reflexivity. Qed.

Lemma has_dot_skip_spaces (s : string) :
  has_dot (skip_spaces s) = has_dot s.
Proof.
  induction s as [|c s IH]; [reflexivity|].
  cbn [skip_spaces]. destruct (isspace c) eqn:Hc; [|reflexivity].
  rewrite IH, has_dot_cons.
  replace (char_code c =? 46) with false; [reflexivity|].
  symmetry. apply Z.eqb_neq. unfold isspace in Hc. cbv zeta in Hc.
  apply orb_true_iff in Hc as [Hc | Hc].
  - apply Z.eqb_eq in Hc. lia.
  - apply andb_true_iff in Hc as [_ Hc]. apply Z.leb_le in Hc. lia.
Qed.

Lemma digit_value_not_dot (c : ascii) (d : Z) :
  digit_value c = Some d -> (char_code c =? 46) = false.
Proof.
  unfold digit_value. cbv zeta. intros H. apply Z.eqb_neq. intros E.
  rewrite E in H. discriminate H.
Qed.

Lemma has_dot_scan_digits (base : Z) (s : string) :
  forall acc seen, has_dot (scan_digits base acc seen s).2 = has_dot s.
Proof.
  induction s as [|c s IH]; intros acc seen; [reflexivity|].
  cbn [scan_digits].
  destruct (digit_value c) as [d|] eqn:Hd; [|reflexivity].
  destruct (d <? base); [|reflexivity].
  now rewrite IH, has_dot_cons, (digit_value_not_dot c d Hd).
Qed.

(** [strtoul] in base ten never reads past a dot: the text it leaves
    behind holds every dot of the text it was given. *)
Lemma strtoul_keeps_dot (s : string) :
  has_dot s = true -> String.eqb (strtoul s 10).2 "" = false.
Proof.
  intros Hdot.
  assert (Hrest : has_dot (strtoul s 10).2 = true).
  { unfold strtoul.
    pose proof (has_dot_skip_spaces s) as Hsp.
    destruct (skip_spaces s) as [|c s1].
    { cbn. exact Hdot. }
    set (signed := if char_code c =? 45 then (true, s1)
                   else if char_code c =? 43 then (false, s1)
                   else (false, String c s1)).
    assert (Hsigned : has_dot signed.2 = true).
    { subst signed. rewrite Hdot, has_dot_cons in Hsp.
      destruct (Z.eqb_spec (char_code c) 45) as [E | _].
      - rewrite E in Hsp. exact Hsp.
      - destruct (Z.eqb_spec (char_code c) 43) as [E | _].
        + rewrite E in Hsp. exact Hsp.
        + cbn [snd]. now rewrite has_dot_cons. }
    destruct signed as [neg s2]. cbn [snd] in Hsigned.
    change (10 =? 0) with false. change (10 =? 16) with false.
    cbn [orb].
    assert (Hbase :
      match s2 with
      | String z (String x s') =>
          if (char_code z =? 48) && is_x x && false
          then (16, s', Some (String x s'))
          else if (char_code z =? 48) && false then (8, s2, None)
               else (10, s2, None)
      | String z EmptyString =>
          if (char_code z =? 48) && false then (8, s2, None)
          else (10, s2, None)
      | EmptyString => (10, s2, None)
      end = (10, s2, @None string)).
    { destruct s2 as [|z [|x s']]; rewrite ?andb_false_r; reflexivity. }
    rewrite Hbase.
    pose proof (has_dot_scan_digits 10 s2 0 false) as Hscan.
    destruct (scan_digits 10 0 false s2) as [[v seen] rest].
    cbn [snd] in Hscan.
    destruct seen; cbn [snd]; [now rewrite Hscan | exact Hdot]. }
  destruct ((strtoul s 10).2); [discriminate Hrest | reflexivity].
Qed.

(** X6: a mask that starts with a digit or holds a dot, and is neither a
    decimal prefix length of the family of the two texts (0..32 for two
    IPv4 literals, 0..128 otherwise) nor, for two IPv4 literals, a dotted
    quad, makes the result false. *)
Theorem addr_match_rejects_bad_mask (a b : string) (c : ascii) (s : string) :
  isdigit c = true \/ has_dot (String c s) = true ->
  match inet_aton a, inet_aton b with
  | Some _, Some _ => ipv4_mask_spec (Some (String c s)) = None
  | _, _ => ipv6_prefix_spec (Some (String c s)) = None
  end ->
  network_addr_match a b (Some (String c s)) = false.
Proof.
  intros Hshape Hbad.
  destruct (isdigit c) eqn:Hc.
  { apply addr_match_bad_mask; [now left|].
    destruct (inet_aton a), (inet_aton b); auto. }
  destruct Hshape as [Habs | Hdot]; [discriminate Habs|].
  assert (Hv6 :
    match inet_pton6 a, inet_pton6 b with
    | Some a6, Some b6 =>
        match
          (let '(cidr, rest) := strtoul (String c s) 10 in
           if (cidr >? 128) || negb (String.eqb rest "") then None
           else Some cidr)
        with
        | Some cidr => addr6_loop 17 0 cidr a6 b6
        | None => false
        end
    | _, _ => false
    end = false).
  { destruct (inet_pton6 a), (inet_pton6 b); try reflexivity.
    pose proof (strtoul_keeps_dot _ Hdot) as Hrest.
    destruct (strtoul (String c s) 10) as [cidr rest]. cbn [snd] in Hrest.
    now rewrite Hrest, orb_true_r. }
  destruct (inet_aton a) as [a4|] eqn:Ha; [|unfold network_addr_match;
    rewrite Ha; exact Hv6].
  destruct (inet_aton b) as [b4|] eqn:Hb; [|unfold network_addr_match;
    rewrite Ha, Hb; exact Hv6].
  apply addr_match_bad_mask; [now right|]. now rewrite Ha, Hb.
Qed.

Lemma addr_match_rejects_bad_mask_witness :
  network_addr_match "10.0.0.1" "10.0.0.1" (Some "33") = false
  /\ network_addr_match "::1" "::1" (Some "12x") = false
  /\ network_addr_match "::1" "::1" (Some " 1.5") = false.
Proof.
  split; [|split].
  - apply (addr_match_rejects_bad_mask "10.0.0.1" "10.0.0.1" "3" "3").
    + left. reflexivity.
    + reflexivity.
  - apply (addr_match_rejects_bad_mask "::1" "::1" "1" "2x").
    + left. reflexivity.
    + reflexivity.
  - apply (addr_match_rejects_bad_mask "::1" "::1" " " "1.5").
    + right. reflexivity.
    + reflexivity.
Defined.

(** X7: two texts that are not both IPv4 literals and not both IPv6
    literals never match, whatever the mask; so an IPv4 literal never
    matches an IPv6 literal. *)
Theorem addr_match_mixed_families (a b : string) (mask : option string) :
  inet_aton a = None \/ inet_aton b = None ->
  inet_pton6 a = None \/ inet_pton6 b = None ->
  network_addr_match a b mask = false.
Proof. apply addr_match_no_family. Qed.

Lemma addr_match_mixed_families_witness :
  network_addr_match "0.0.0.1" "::1" (Some "0") = false.
Proof.
  apply (addr_match_mixed_families "0.0.0.1" "::1" (Some "0")).
  - right. reflexivity.
  - left. reflexivity.
Defined.

(** ** The binders and the client socket *)

(** X8: the IPv6 binder either returns -1 having closed what it opened
    (the process holds the descriptors it held before), or returns a
    descriptor that was not open before, now open and bound, as the last
    act of the call, to the parsed address and the port in network byte
    order; the texts [any] and [all] stand for the address [::]. *)
Theorem network_bind_ipv6_outcome (address : string) (port : Z) (w : world) :
  ((network_bind_ipv6 address port w).1.1 = -1
   /\ open_fds (network_bind_ipv6 address port w).1.2 = open_fds w
   /\ held ∅ (network_bind_ipv6 address port w).2 = ∅)
  \/ (exists addr,
        inet_pton6 (if String.eqb address "any" || String.eqb address "all"
                    then "::" else address) = Some addr
        /\ (network_bind_ipv6 address port w).1.1 = lowest_free (open_fds w)
        /\ lowest_free (open_fds w) ∉ open_fds w
        /\ open_fds (network_bind_ipv6 address port w).1.2
           = {[lowest_free (open_fds w)]} ∪ open_fds w
        /\ last (network_bind_ipv6 address port w).2
           = Some (EvBind (lowest_free (open_fds w))
                     (mk_sockaddr AF_INET6 (htons port) 0 addr) (Ret 0))).
Proof.
  pose proof (lowest_free_fresh (open_fds w)) as Hfresh.
  unfold network_bind_ipv6, network_set_reuseaddr, sys_socket, sys_setsockopt,
    sys_bind, syswarn, warn, get_errno, emit, bind, ret.
  run_call.
  - run_call.
    all: destruct (inet_pton6 _) as [addr|]; cbv beta iota zeta.
    all: repeat run_call.
    all: cbn [fst snd open_fds after app].
    all: try (left; repeat split; [set_solver | cbn; set_solver]).
    all: right; exists addr; repeat split; assumption.
  - left.
    match goal with |- context [if ?b then _ else _] => destruct b end;
      cbn; repeat split.
Qed.

(** X9: the IPv4 binder succeeds whenever [socket] and [bind] succeed and
    the address parses, whether or not the socket could be marked
    reusable: it returns a descriptor that was not open before, now open
    and bound, as the last act of the call, to the parsed address and the
    port in network byte order. *)
Theorem network_bind_ipv4_binds (address : string) (port : Z) (w : world)
  (v1 v3 a4 : Z) :
  oracle w (clock w) = Yes v1 ->
  inet_aton (if String.eqb address "any" || String.eqb address "all"
             then "0.0.0.0" else address) = Some a4 ->
  oracle w (S (S (clock w))) = Yes v3 ->
  (network_bind_ipv4 address port w).1.1 = lowest_free (open_fds w)
  /\ lowest_free (open_fds w) ∉ open_fds w
  /\ open_fds (network_bind_ipv4 address port w).1.2
     = {[lowest_free (open_fds w)]} ∪ open_fds w
  /\ last (network_bind_ipv4 address port w).2
     = Some (EvBind (lowest_free (open_fds w))
               (mk_sockaddr AF_INET (htons port) a4 []) (Ret 0)).
Proof.
  intros Hsock Haddr Hbind.
  pose proof (lowest_free_fresh (open_fds w)) as Hfresh.
  unfold network_bind_ipv4, network_set_reuseaddr, sys_socket, sys_setsockopt,
    sys_bind, syswarn, warn, get_errno, emit, bind, ret.
  rewrite fd_call_run, Hsock. cbv beta iota zeta.
  replace (lowest_free (open_fds w) <? 0) with false
    by (symmetry; apply Z.ltb_ge, lowest_free_nonneg).
  rewrite plain_call_run. cbn [oracle clock after].
  destruct (oracle w (S (clock w))); cbv beta iota zeta;
    change (0 <? 0) with false; change (-1 <? 0) with true;
    cbv beta iota zeta; rewrite Haddr; rewrite plain_call_run;
    cbn [oracle clock after]; rewrite Hbind; cbv beta iota zeta;
    change (0 <? 0) with false; cbn; repeat split; assumption.
Qed.

Lemma network_bind_ipv4_binds_witness :
  (network_bind_ipv4 "all" 4373 (std_world [Yes 0; No 92; Yes 0])).1.1 = 3.
Proof.
  destruct (network_bind_ipv4_binds "all" 4373
              (std_world [Yes 0; No 92; Yes 0]) 0 0 0
              eq_refl eq_refl eq_refl) as (Hfd & _).
  rewrite Hfd. vm_compute. reflexivity.
Defined.


(** ** [network_connect]: descriptors and the source address *)

(** X11: [network_connect] returns a descriptor exactly when a [connect]
    succeeded; that descriptor was not open before the call and is the
    one more that is open after it. *)
Theorem network_connect_descriptor (ai : list addrinfo)
  (source : option string) (w : world) :
  (connected (network_connect ai source w).2 = true
   <-> 0 <= (network_connect ai source w).1.1)
  /\ (0 <= (network_connect ai source w).1.1 ->
      (network_connect ai source w).1.1 ∉ open_fds w
      /\ open_fds (network_connect ai source w).1.2
         = {[(network_connect ai source w).1.1]} ∪ open_fds w).
Proof.
  destruct (connect_loop ai source (-1) w) as [[[fd ok] w1] e1] eqn:Hloop.
  rewrite (network_connect_run _ _ _ _ _ _ _ Hloop).
  destruct (connect_loop_spec ai source (-1) w (open_fds w) fd ok w1 e1 Hloop)
    as (Hopen & Hfresh & (tried & rest & _ & _ & _ & Hok) & _ & _ & Hn & _).
  { rewrite holding_minus_one. set_solver. }
  { intros; lia. }
  destruct ok.
  - destruct (Hok eq_refl) as (a & pre & _ & _ & _ & H0).
    cbn [fst snd]. rewrite Hn. split; [tauto|]. intros _.
    split; [auto|]. now rewrite Hopen, holding_nonneg.
  - destruct (fd >=? 0); cbn [fst snd].
    + rewrite connected_app, Hn. cbn.
      split; [split|]; intros; first [lia | discriminate].
    + rewrite Hn. split; [split|]; intros; first [lia | discriminate].
Qed.

Lemma connect_attempt_silent_source (a : addrinfo)
  (source : option string) (fd : Z) (w : world) (b : bool) :
  (forall s w', network_source s (ai_family a) source w' = (b, w', [])) ->
  existsb is_bind (connect_attempt a source fd w).2 = false
  /\ (b = false ->
      (connect_attempt a source fd w).1.1.2 = false
      /\ existsb is_connect (connect_attempt a source fd w).2 = false).
Proof.
  intros Hsrc. unfold connect_attempt, bind.
  assert (Hclose : exists w1 e1,
      (if fd >=? 0 then bind (sys_close fd) (fun _ => ret tt) else ret tt) w
      = (tt, w1, e1)
      /\ existsb is_bind e1 = false /\ existsb is_connect e1 = false).
  { destruct (fd >=? 0).
    - unfold bind. rewrite sys_close_run.
      destruct (oracle w (clock w)); eexists _, _; cbn; repeat split.
    - exists w, []. repeat split. }
  destruct Hclose as (w1 & e1 & Hc & Hb1 & Hc1).
  unfold bind in Hc. rewrite Hc. clear Hc.
  unfold sys_socket. rewrite fd_call_run.
  destruct (oracle w1 (clock w1)) as [v | e]; cbv beta iota zeta.
  - replace (lowest_free (open_fds w1) <? 0) with false
      by (symmetry; apply Z.ltb_ge, lowest_free_nonneg).
    rewrite Hsrc. destruct b; cbn [negb].
    + unfold sys_connect. rewrite plain_call_run.
      destruct (oracle _ _); cbn; rewrite !existsb_app, Hb1; cbn;
        (split; [reflexivity | discriminate]).
    + cbn. rewrite !existsb_app, Hb1, Hc1. cbn. auto.
  - cbn. rewrite !existsb_app, Hb1, Hc1. cbn. auto.
Qed.

Lemma connect_loop_silent_source (ai : list addrinfo)
  (source : option string) (b : bool) :
  Forall (fun a => forall s w',
            network_source s (ai_family a) source w' = (b, w', [])) ai ->
  forall fd w,
    existsb is_bind (connect_loop ai source fd w).2 = false
    /\ (b = false ->
        (connect_loop ai source fd w).1.1.2 = false
        /\ existsb is_connect (connect_loop ai source fd w).2 = false).
Proof.
  induction 1 as [|a ai Ha _ IH]; intros fd w; [cbn; auto|].
  cbn [connect_loop]. unfold bind.
  destruct (connect_attempt_silent_source a source fd w b Ha) as (Hb1 & Hc1).
  destruct (connect_attempt a source fd w) as [[[fd1 ok1] w1] e1].
  cbn [fst snd] in Hb1, Hc1.
  destruct ok1.
  - unfold ret. cbn [fst snd]. rewrite app_nil_r. split; [assumption|].
    intros Hb. destruct (Hc1 Hb). discriminate.
  - destruct (IH fd1 w1) as (Hb2 & Hc2).
    destruct (connect_loop ai source fd1 w1) as [[[fd2 ok2] w2] e2].
    cbn [fst snd] in *. rewrite !existsb_app, Hb1, Hb2.
    split; [reflexivity|]. intros Hb.
    destruct (Hc1 Hb) as [_ Hn1]. destruct (Hc2 Hb) as [Hok2 Hn2].
    now rewrite Hn1, Hn2.
Qed.

Lemma network_connect_silent_source (ai : list addrinfo)
  (source : option string) (b : bool) (w : world) :
  Forall (fun a => forall s w',
            network_source s (ai_family a) source w' = (b, w', [])) ai ->
  existsb is_bind (network_connect ai source w).2 = false
  /\ (b = false ->
      (network_connect ai source w).1.1 = -1
      /\ existsb is_connect (network_connect ai source w).2 = false
      /\ open_fds (network_connect ai source w).1.2 = open_fds w).
Proof.
  intros Hsrc.
  destruct (connect_loop_silent_source ai source b Hsrc (-1) w) as (Hb & Hc).
  destruct (connect_loop ai source (-1) w) as [[[fd ok] w1] e1] eqn:Hloop.
  cbn [fst snd] in Hb, Hc.
  rewrite (network_connect_run _ _ _ _ _ _ _ Hloop).
  destruct (connect_loop_spec ai source (-1) w (open_fds w) fd ok w1 e1 Hloop)
    as (Hopen & Hfresh & _).
  { rewrite holding_minus_one. set_solver. }
  { intros; lia. }
  split.
  - destruct ok; [assumption|].
    destruct (fd >=? 0); cbn [fst snd]; [|assumption].
    rewrite existsb_app, Hb. reflexivity.
  - intros Hfalse. destruct (Hc Hfalse) as [-> Hn].
    destruct (Z.geb_spec fd 0) as [Hge | Hlt]; cbn [fst snd].
    + rewrite existsb_app, Hn. rewrite holding_nonneg in Hopen by lia.
      specialize (Hfresh ltac:(lia)).
      repeat split. cbn. rewrite Hopen. set_solver.
    + rewrite holding_neg in Hopen by lia.
      repeat split; [assumption|]. rewrite Hopen. set_solver.
Qed.

(** X12: without a source address, or with the source [all], no socket
    is bound before it is connected: the call makes no [bind] at all. *)
Theorem network_connect_no_source (ai : list addrinfo)
  (source : option string) (w : world) :
  source = None \/ source = Some "all" ->
  existsb is_bind (network_connect ai source w).2 = false.
Proof.
  intros Hsource.
  apply (network_connect_silent_source ai source true w).
  apply Forall_forall. intros a _ s w'.
  destruct Hsource as [-> | ->]; [reflexivity|].
  unfold network_source.
  destruct (ai_family a =? AF_INET); [reflexivity|].
  destruct (ai_family a =? AF_INET6); reflexivity.
Qed.

Lemma network_connect_no_source_witness :
  existsb is_bind
    (network_connect
       [mk_addrinfo AF_INET SOCK_STREAM 6 (sockaddr_in (htons 80) 16777226)]
       (Some "all") (std_world [])).2 = false.
Proof.
  apply (network_connect_no_source
           [mk_addrinfo AF_INET SOCK_STREAM 6
              (sockaddr_in (htons 80) 16777226)]
           (Some "all") (std_world [])).
  right. reflexivity.
Defined.

(** X13: a source address that is not a literal of a candidate's family
    (and is not [all]) rules the candidate out: when this holds of every
    candidate the call returns -1 without a single [bind] or [connect],
    and with the descriptors of the process as they were. *)
Theorem network_connect_foreign_source (ai : list addrinfo) (source : string)
  (w : world) :
  String.eqb source "all" = false ->
  Forall (fun a =>
            (ai_family a = AF_INET /\ inet_aton source = None)
            \/ (ai_family a = AF_INET6 /\ inet_pton6 source = None)) ai ->
  (network_connect ai (Some source) w).1.1 = -1
  /\ existsb is_connect (network_connect ai (Some source) w).2 = false
  /\ existsb is_bind (network_connect ai (Some source) w).2 = false
  /\ open_fds (network_connect ai (Some source) w).1.2 = open_fds w.
Proof.
  intros Hall Hforeign.
  destruct (network_connect_silent_source ai (Some source) false w)
    as (Hb & Hc).
  { eapply Forall_impl; [exact Hforeign|].
    intros a [[Hf Hp] | [Hf Hp]] s w'; unfold network_source;
      rewrite Hf; cbn [Z.eqb Pos.eqb AF_INET AF_INET6];
      now rewrite Hall, Hp. }
  destruct (Hc eq_refl) as (Hr & Hn & Ho). auto.
Qed.

Lemma network_connect_foreign_source_witness :
  (network_connect
     [mk_addrinfo AF_INET SOCK_STREAM 6 (sockaddr_in (htons 80) 16777226)]
     (Some "::1") (std_world [])).1.1 = -1.
Proof.
  apply (network_connect_foreign_source
           [mk_addrinfo AF_INET SOCK_STREAM 6
              (sockaddr_in (htons 80) 16777226)]
           "::1" (std_world [])).
  - reflexivity.
  - repeat constructor.
Defined.

(** ** [network_sockaddr_port] *)

Lemma u16_testbit (x k : Z) :
  Z.testbit (u16 x) k = (k <? 16) && Z.testbit x k.
Proof. unfold u16. apply Z.testbit_mod_pow2. lia. Qed.

Lemma htons_testbit (x j : Z) :
  0 <= j ->
  Z.testbit (htons x) j
  = (j <? 16) && Z.testbit x (if j <? 8 then j + 8 else j - 8).
Proof.
  intros Hj. unfold htons.
  rewrite Z.lor_spec, Z.shiftl_spec, !Z.land_spec by lia.
  rewrite !testbit_255.
  destruct (Z.ltb_spec j 8); [|destruct (Z.ltb_spec j 16)].
  all: rewrite ?(Z.testbit_neg_r _ (j - 8)) by lia.
  all: rewrite ?Z.shiftr_spec by lia.
  all: rewrite !u16_testbit.
  all: decide_ltb; bool_simpl; simpl.
  all: try reflexivity.
  all: f_equal; lia.
Qed.

Lemma htons_involutive (x : Z) : htons (htons x) = u16 x.
Proof.
  apply Z.bits_inj'; intros j Hj.
  rewrite u16_testbit, htons_testbit by lia.
  destruct (Z.ltb_spec j 16) as [Hlt | Hge]; [|reflexivity].
  destruct (Z.ltb_spec j 8).
  - rewrite htons_testbit by lia. decide_ltb. cbn [andb]. f_equal. lia.
  - rewrite htons_testbit by lia. decide_ltb. cbn [andb]. f_equal. lia.
Qed.

(** X14: the port of an address of one of the two families whose port
    field holds [htons port], as the binders fill it, is [port] as an
    [unsigned short]; an address of any other family has port 0. *)
Theorem network_sockaddr_port_round_trip (a : sockaddr) (port : Z) :
  (supported a -> sin_port a = htons port ->
   network_sockaddr_port a = u16 port)
  /\ (~ supported a -> network_sockaddr_port a = 0).
Proof.
  unfold network_sockaddr_port, supported. split.
  - intros [-> | ->] ->; cbn; apply htons_involutive.
  - intros Hno.
    destruct (Z.eqb_spec (sa_family a) AF_INET6); [tauto|].
    destruct (Z.eqb_spec (sa_family a) AF_INET); [tauto|reflexivity].
Qed.

Lemma network_sockaddr_port_round_trip_witness :
  network_sockaddr_port (sockaddr_in6 (htons 4373) (repeat 0 16)) = 4373.
Proof.
  apply (proj1 (network_sockaddr_port_round_trip
                  (sockaddr_in6 (htons 4373) (repeat 0 16)) 4373)).
  - right. reflexivity.
  - reflexivity.
Defined.

(** ** What [inet_ntop] prints *)

(** A property of bytes that computation settles for each of them. *)
Lemma byte_cases (P : Z -> Prop) :
  List.Forall P (map Z.of_nat (seq 0 256)) -> forall b, is_byte b -> P b.
Proof.
  intros H b Hb. apply (proj1 (List.Forall_forall P _) H).
  apply in_map_iff. exists (Z.to_nat b). unfold is_byte in Hb.
  split; [lia|]. apply in_seq. lia.
Qed.

Ltac each_byte :=
  match goal with
  | |- forall b, is_byte b -> @?P b => apply (byte_cases P)
  end;
  let l := eval vm_compute in (map Z.of_nat (seq 0 256)) in
  change (map Z.of_nat (seq 0 256)) with l;
  repeat (apply List.Forall_cons; [intros; vm_compute; reflexivity|]);
  apply List.Forall_nil.

(** A byte is printed as one to three characters, the first of them a
    digit, and [strtoul] reads the byte back from them, in base 0 as
    [inet_aton] calls it, stopping at a dot or at the end. *)
Lemma print_u_head : forall b, is_byte b ->
  match print_u b with
  | String c _ => isdigit c
  | EmptyString => false
  end = true.
Proof. each_byte. Qed.

Lemma print_u_length : forall b, is_byte b ->
  (strlen (print_u b) <=? 3) = true.
Proof. each_byte. Qed.

Lemma strtoul_print_u_dot : forall b, is_byte b ->
  forall r, strtoul (print_u b ++ String "." r) 0 = (b, String "." r).
Proof. each_byte. Qed.

Lemma strtoul_print_u_end : forall b, is_byte b ->
  strtoul (print_u b) 0 = (b, "").
Proof. each_byte. Qed.

Lemma gtb_le (a b : Z) : a <= b -> (a >? b) = false.
Proof. intros. rewrite Z.gtb_ltb. now apply Z.ltb_ge. Qed.

Lemma geb_lt (a b : Z) : a < b -> (a >=? b) = false.
Proof. intros. rewrite Z.geb_leb. now apply Z.leb_gt. Qed.

Lemma inet_aton_parts_dot (fuel : nat) (b : Z) (r : string) (bytes : list Z) :
  is_byte b -> (length bytes <= 2)%nat ->
  inet_aton_parts (S fuel) (print_u b ++ String "." r) bytes
  = inet_aton_parts fuel r (bytes ++ [b]).
Proof.
  intros Hb Hlen.
  pose proof (print_u_head b Hb) as Hhead.
  pose proof (strtoul_print_u_dot b Hb r) as Hs.
  destruct (print_u b) as [|c s]; [discriminate|].
  change (String c s ++ String "." r)%string
    with (String c (s ++ String "." r)%string) in *.
  cbn [inet_aton_parts]. rewrite Hhead. cbn [negb]. rewrite Hs.
  unfold is_byte in Hb.
  rewrite !gtb_le by lia.
  change (char_code "." =? 46) with true. cbv beta iota.
  replace (2 <? Z.of_nat (length bytes)) with false
    by (symmetry; apply Z.ltb_ge; lia).
  reflexivity.
Qed.

Lemma inet_aton_parts_end (fuel : nat) (b : Z) (bytes : list Z) :
  is_byte b -> length bytes = 3%nat ->
  inet_aton_parts fuel (print_u b) bytes
  = Some (u32 (Z.lor (le_word bytes) (htonl b))).
Proof.
  intros Hb Hlen.
  pose proof (print_u_head b Hb) as Hhead.
  pose proof (strtoul_print_u_end b Hb) as Hs.
  destruct (print_u b) as [|c s]; [discriminate|].
  destruct fuel; cbn [inet_aton_parts]; rewrite Hhead; cbn [negb];
    rewrite Hs; unfold is_byte in Hb; rewrite Hlen;
    cbn [inet_aton_max]; rewrite !gtb_le by lia; reflexivity.
Qed.

Lemma htonl_byte_testbit (b j : Z) :
  is_byte b -> 0 <= j ->
  Z.testbit (htonl b) j = (24 <=? j) && Z.testbit b (j - 24).
Proof.
  intros Hb Hj. rewrite htonl_testbit by lia. unfold swapped_bit.
  destruct (Z.ltb_spec j 8); [|destruct (Z.ltb_spec j 16);
    [|destruct (Z.ltb_spec j 24)]]; decide_ltb; bool_simpl; cbn [andb].
  - apply byte_testbit_high; [assumption | lia].
  - apply byte_testbit_high; [assumption | lia].
  - apply byte_testbit_high; [assumption | lia].
  - destruct (Z.ltb_spec j 32); cbn [andb]; [reflexivity|].
    symmetry. apply byte_testbit_high; [assumption | lia].
Qed.

(** The text [inet_ntop] prints for four bytes is read back by
    [inet_aton] as the word those bytes make. *)
Lemma inet_aton_print (b0 b1 b2 b3 : Z) :
  is_byte b0 -> is_byte b1 -> is_byte b2 -> is_byte b3 ->
  inet_aton (print_u b0 ++ "." ++ print_u b1 ++ "." ++ print_u b2 ++ "."
             ++ print_u b3)
  = Some (le_word [b0; b1; b2; b3]).
Proof.
  intros H0 H1 H2 H3. unfold inet_aton.
  change (inet_aton_parts 4
            (print_u b0 ++ String "." (print_u b1 ++ String "."
               (print_u b2 ++ String "." (print_u b3))))%string []
          = Some (le_word [b0; b1; b2; b3])).
  rewrite !inet_aton_parts_dot by (cbn [length app]; auto; lia).
  rewrite inet_aton_parts_end by auto.
  f_equal. cbn [app].
  apply Z.bits_inj'; intros j Hj.
  rewrite u32_testbit, Z.lor_spec, htonl_byte_testbit by auto.
  rewrite (le_word4_testbit b0 b1 b2 b3) by auto.
  assert (E : le_word [b0; b1; b2] = le_word [b0; b1; b2; 0])
    by (cbn [le_word];
        repeat first [rewrite Z.shiftl_0_l | rewrite Z.lor_0_r];
        reflexivity).
  rewrite E, (le_word4_testbit b0 b1 b2 0) by (unfold is_byte; auto; lia).
  rewrite Z.testbit_0_l.
  destruct (Z.ltb_spec j 8); [|destruct (Z.ltb_spec j 16);
    [|destruct (Z.ltb_spec j 24)]]; decide_ltb; bool_simpl; cbn [andb orb];
    rewrite ?orb_false_r; try reflexivity.
  destruct (Z.ltb_spec j 32); cbn [andb]; [reflexivity|].
  symmetry. apply byte_testbit_high; [assumption | lia].
Qed.

Lemma strlen_append (s t : string) : strlen (s ++ t) = strlen s + strlen t.
Proof.
  unfold strlen. induction s as [|c s IH]; [reflexivity|].
  change (String c s ++ t)%string with (String c (s ++ t)%string).
  cbn [String.length]. lia.
Qed.

Lemma strlen_nonneg (s : string) : 0 <= strlen s.
Proof. unfold strlen. lia. Qed.

Lemma inet_ntop4_fits (src : list Z) (size : Z) :
  Forall is_byte src -> 16 <= size ->
  exists text, inet_ntop4 src size = Some text /\ strlen text < 16.
Proof.
  intros Hsrc Hsize.
  assert (Hbyte : forall i, is_byte (s6 src i)).
  { intros i. unfold s6. destruct (nth_in_or_default i src 0) as [Hin | ->].
    - rewrite Forall_forall in Hsrc. apply Hsrc. now apply list_elem_of_In.
    - unfold is_byte. lia. }
  unfold inet_ntop4.
  set (tmp := (print_u (s6 src 0) ++ _)%string).
  assert (Hlen : strlen tmp < 16).
  { subst tmp. rewrite !strlen_append.
    pose proof (print_u_length _ (Hbyte 0%nat)).
    pose proof (print_u_length _ (Hbyte 1%nat)).
    pose proof (print_u_length _ (Hbyte 2%nat)).
    pose proof (print_u_length _ (Hbyte 3%nat)).
    change (strlen ".") with 1. lia. }
  exists tmp. split; [|assumption].
  rewrite Z.geb_leb.
  now replace (size <=? strlen tmp) with false
    by (symmetry; apply Z.leb_gt; lia).
Qed.

Lemma le_bytes_bytes (v : Z) : Forall is_byte (le_bytes v).
Proof. unfold le_bytes. repeat constructor; apply land_255_byte. Qed.

(** X15: an IPv4 address is printed, when the size handed on to
    [inet_ntop], which is the size given reduced to a [socklen_t], is at
    least [INET_ADDRSTRLEN] (16), as a dotted quad of fewer than 16
    characters that [inet_aton] reads back as the same address; the call
    succeeds and leaves [errno] and everything else as it was. *)
Theorem network_sockaddr_sprint_ipv4 (dst : string) (size : Z) (a : sockaddr)
  (w : world) :
  sa_family a = AF_INET -> 0 <= sin_addr a < 2 ^ 32 ->
  16 <= socklen_t size ->
  exists text,
    network_sockaddr_sprint dst size a w = (true, text, w, [])
    /\ inet_aton text = Some (sin_addr a)
    /\ strlen text < 16.
Proof.
  intros Hfam Hrange Hsize.
  unfold network_sockaddr_sprint, inet_ntop. rewrite Hfam.
  change (AF_INET =? AF_INET6) with false.
  change (AF_INET =? AF_INET) with true. cbv beta iota.
  destruct (inet_ntop4_fits (le_bytes (sin_addr a)) (socklen_t size)
              (le_bytes_bytes _) Hsize) as (text & Htext & Hlen).
  rewrite Htext. exists text. repeat split; [|assumption].
  unfold inet_ntop4 in Htext.
  rewrite geb_lt in Htext.
  - inversion Htext as [Heq]. clear Htext.
    unfold le_bytes. cbn [s6 nth].
    rewrite inet_aton_print by apply land_255_byte.
    f_equal. now apply le_word_le_bytes.
  - destruct (_ >=? _) eqn:E in Htext; [discriminate|].
    inversion Htext as [Heq]. rewrite Heq. lia.
Qed.

Lemma network_sockaddr_sprint_ipv4_witness :
  exists text,
    network_sockaddr_sprint "" 16 (sockaddr_in (htons 80) 16777343)
      (std_world [])
    = (true, text, std_world [], [])
    /\ inet_aton text = Some 16777343
    /\ strlen text < 16.
Proof.
  apply (network_sockaddr_sprint_ipv4 "" 16 (sockaddr_in (htons 80) 16777343)
           (std_world [])).
  - reflexivity.
  - cbn. lia.
  - vm_compute. discriminate.
Defined.

(** X16: two well-formed addresses of the supported families that
    [network_sockaddr_equal] finds equal are printed alike: the same
    text, the same result and the same effect on the process, so an
    IPv4-mapped IPv6 address is printed as the IPv4 address within. *)
Theorem network_sockaddr_sprint_equal (dst : string) (size : Z)
  (a b : sockaddr) (w : world) :
  supported a -> supported b -> sockaddr_wf a -> sockaddr_wf b ->
  network_sockaddr_equal a b = true ->
  network_sockaddr_sprint dst size a w = network_sockaddr_sprint dst size b w.
Proof.
  intros Sa Sb Wa Wb Heq.
  apply (sockaddr_equal_host_bytes a b Sa Sb Wa Wb) in Heq.
  destruct Wa as [Wa4 Wa6], Wb as [Wb4 Wb6].
  assert (Hmixed : forall x y,
            sa_family x = AF_INET -> sa_family y = AF_INET6 ->
            0 <= sin_addr x < 2 ^ 32 ->
            sin6_addr y = v4mapped (sin_addr x) ->
            network_sockaddr_sprint dst size y w
            = network_sockaddr_sprint dst size x w).
  { intros x y Fx Fy Rx E. unfold network_sockaddr_sprint.
    rewrite Fx, Fy, E, v4mapped_is_mapped, v4mapped_embedded by assumption.
    reflexivity. }
  unfold host_bytes in Heq.
  destruct Sa as [Fa | Fa], Sb as [Fb | Fb]; rewrite Fa, Fb in Heq;
    cbn [Z.eqb Pos.eqb AF_INET AF_INET6] in Heq.
  - unfold v4mapped in Heq. apply app_inv_head in Heq.
    unfold network_sockaddr_sprint. now rewrite Fa, Fb, Heq.
  - symmetry. apply Hmixed; auto.
  - apply Hmixed; auto.
  - unfold network_sockaddr_sprint. now rewrite Fa, Fb, Heq.
Qed.

Lemma network_sockaddr_sprint_equal_witness :
  network_sockaddr_sprint "" 46 (sockaddr_in6 80 (v4mapped 91291851))
    (std_world [])
  = network_sockaddr_sprint "" 46 (sockaddr_in 443 91291851) (std_world []).
Proof.
  apply (network_sockaddr_sprint_equal "" 46
           (sockaddr_in6 80 (v4mapped 91291851)) (sockaddr_in 443 91291851)
           (std_world [])).
  - right. reflexivity.
  - left. reflexivity.
  - split; [discriminate|]. intros _. split; [reflexivity|].
    cbv [sin6_addr sockaddr_in6 v4mapped v4mapped_prefix le_bytes repeat app].
    repeat (constructor;
            [unfold is_byte; vm_compute; split; [discriminate | reflexivity]|]).
    constructor.
  - split; [intros _; cbn; lia | discriminate].
  - reflexivity.
Defined.

(** ** The text of an IPv6 address fits [INET6_ADDRSTRLEN] *)

Lemma strlen_String (c : ascii) (s : string) :
  strlen (String c s) = 1 + strlen s.
Proof. unfold strlen. cbn [String.length]. lia. Qed.



Lemma s6_byte (src : list Z) (i : nat) : Forall is_byte src -> is_byte (s6 src i).
Proof.
  intros Hsrc. unfold s6. destruct (nth_in_or_default i src 0) as [Hin | ->].
  - rewrite Forall_forall in Hsrc. apply Hsrc. now apply list_elem_of_In.
  - unfold is_byte. lia.
Qed.







(** ** [network_bind_all] *)

Lemma lowest_free_geb (fds : gset Z) : (lowest_free fds >=? 0) = true.
Proof. apply Z.geb_le. apply lowest_free_nonneg. Qed.

Lemma network_bind_ipv4_run (address : string) (port : Z) (w : world) :
  binder_run (network_bind_ipv4 address port w) w.
Proof.
  pose proof (lowest_free_fresh (open_fds w)) as Hfresh.
  pose proof (lowest_free_geb (open_fds w)) as Hgeb.
  unfold binder_run, network_bind_ipv4, network_set_reuseaddr, sys_socket,
    sys_setsockopt, sys_bind, syswarn, warn, get_errno, emit, bind, ret.
  run_call.
  - run_call.
    all: destruct (inet_aton _); cbv beta iota zeta.
    all: repeat run_call.
    all: cbn [fst snd open_fds after app bound_fds].
    all: rewrite ?Hgeb; change (-1 >=? 0) with false.
    all: repeat split; try set_solver; try (intros; exfalso; lia).
  - cbn [fst snd open_fds after app bound_fds].
    change (-1 >=? 0) with false.
    repeat split; try set_solver; intros; exfalso; lia.
Qed.

Lemma network_bind_ipv6_run (address : string) (port : Z) (w : world) :
  binder_run (network_bind_ipv6 address port w) w.
Proof.
  pose proof (lowest_free_fresh (open_fds w)) as Hfresh.
  pose proof (lowest_free_geb (open_fds w)) as Hgeb.
  unfold binder_run, network_bind_ipv6, network_set_reuseaddr, sys_socket,
    sys_setsockopt, sys_bind, syswarn, warn, get_errno, emit, bind, ret.
  run_call.
  - run_call.
    all: destruct (inet_pton6 _); cbv beta iota zeta.
    all: repeat run_call.
    all: cbn [fst snd open_fds after app bound_fds].
    all: rewrite ?Hgeb; change (-1 >=? 0) with false.
    all: repeat split; try set_solver; try (intros; exfalso; lia).
  - match goal with |- context [if ?b then _ else _] => destruct b end.
    all: cbn [fst snd open_fds after app bound_fds].
    all: change (-1 >=? 0) with false.
    all: repeat split; try set_solver; intros; exfalso; lia.
Qed.

Lemma network_sockaddr_sprint_run (dst : string) (size : Z) (a : sockaddr)
  (w : world) :
  open_fds (network_sockaddr_sprint dst size a w).1.2 = open_fds w
  /\ (network_sockaddr_sprint dst size a w).2 = [].
Proof.
  unfold network_sockaddr_sprint, inet_ntop.
  change (AF_INET =? AF_INET) with true. cbv beta iota.
  change (AF_INET6 =? AF_INET) with false.
  change (AF_INET6 =? AF_INET6) with true. cbv beta iota.
  destruct (sa_family a =? AF_INET6).
  - destruct (IN6_IS_ADDR_V4MAPPED _).
    + destruct (inet_ntop4 _ _); split; reflexivity.
    + destruct (inet_ntop6 _ _); split; reflexivity.
  - destruct (sa_family a =? AF_INET); [|split; reflexivity].
    destruct (inet_ntop4 _ _); split; reflexivity.
Qed.

Lemma bound_fds_app (e1 e2 : list event) :
  bound_fds (e1 ++ e2) = bound_fds e1 ++ bound_fds e2.
Proof.
  induction e1 as [|e e1 IH]; [reflexivity|].
  destruct e; cbn [app bound_fds]; try exact IH.
  destruct r; cbn [app]; now rewrite IH.
Qed.

Lemma firstn_insert_snoc {A} (l : list A) (n : nat) (x : A) :
  (n < length l)%nat -> firstn (S n) (<[n := x]> l) = firstn n l ++ [x].
Proof.
  revert n. induction l as [|y l IH]; intros n Hn; [cbn in Hn; lia|].
  destruct n as [|n]; [reflexivity|].
  cbn [length] in Hn.
  change (<[S n := x]> (y :: l)) with (y :: <[n := x]> l).
  cbn [firstn app]. f_equal. apply IH. lia.
Qed.

Section BindAllFacts.

Variable stack_text : string.
Variable heap_cell : Z.

(** A descriptor is stored in a cell of the array, which is as long as
    [size] says and holds the descriptors stored before in its first
    [count] cells. *)
Lemma bind_all_store_run (fd size : Z) (fds : list Z) (count : Z) :
  size = Z.of_nat (length fds) -> 0 <= count <= size ->
  let '(size', fds', count') := bind_all_store heap_cell fd size fds count in
  size' = Z.of_nat (length fds')
  /\ 0 <= count' <= size'
  /\ count' = count + (if fd >=? 0 then 1 else 0)
  /\ firstn (Z.to_nat count') fds'
     = firstn (Z.to_nat count) fds ++ (if fd >=? 0 then [fd] else []).
Proof.
  intros Hsize Hcount. unfold bind_all_store.
  destruct (fd >=? 0).
  2: { repeat split; try lia. now rewrite app_nil_r. }
  destruct (Z.geb_spec count size) as [Hfull | Hroom].
  - assert (Hc : count = size) by lia. subst count.
    unfold xrealloc_ints.
    rewrite firstn_all2 by lia.
    replace (Z.to_nat (size + 2) - length fds)%nat with 2%nat by lia.
    cbn [repeat].
    assert (Hlen : length (<[Z.to_nat size := fd]> (fds ++ [heap_cell; heap_cell]))
                   = (length fds + 2)%nat).
    { rewrite length_insert, length_app. reflexivity. }
    rewrite Hlen. repeat split; try lia.
    replace (Z.to_nat (size + 1)) with (S (Z.to_nat size)) by lia.
    rewrite firstn_insert_snoc by (rewrite length_app; cbn [length]; lia).
    f_equal. rewrite firstn_app.
    replace (Z.to_nat size - length fds)%nat with 0%nat by lia.
    cbn [firstn]. now rewrite app_nil_r.
  - rewrite length_insert. repeat split; try lia.
    replace (Z.to_nat (count + 1)) with (S (Z.to_nat count)) by lia.
    apply firstn_insert_snoc. lia.
Qed.

(** The loop: the cells of the array before [count] hold the
    descriptors bound so far, in order. *)
Lemma bind_all_loop_run (addrs : list addrinfo) (port : Z) :
  forall (name : string) (size : Z) (fds : list Z) (count : Z) (w : world),
    size = Z.of_nat (length fds) -> 0 <= count <= size ->
    forall fds' count' w' evs,
      bind_all_loop heap_cell addrs port name size fds count w
      = (fds', count', w', evs) ->
      0 <= count' - count <= Z.of_nat (length addrs)
      /\ count' <= Z.of_nat (length fds')
      /\ firstn (Z.to_nat count') fds'
         = firstn (Z.to_nat count) fds ++ bound_fds evs
      /\ NoDup (bound_fds evs)
      /\ (forall fd, fd ∈ bound_fds evs ->
          fd ∉ open_fds w /\ fd ∈ open_fds w')
      /\ open_fds w ⊆ open_fds w'.
Proof.
  induction addrs as [|a addrs IH];
    intros name size fds count w Hsize Hcount fds' count' w' evs Hrun.
  - cbn in Hrun. inversion Hrun; subst fds' count' w' evs. cbn [bound_fds length].
    rewrite app_nil_r.
    repeat split; try lia; try set_solver; try constructor;
      try (intros fd []).
  - cbn [bind_all_loop] in Hrun. unfold bind at 1 in Hrun.
    pose proof (network_sockaddr_sprint_run name INET6_ADDRSTRLEN (ai_addr a) w)
      as [Hopen1 Hev1].
    destruct (network_sockaddr_sprint name INET6_ADDRSTRLEN (ai_addr a) w)
      as [[[ok name1] w1] e1].
    cbn [fst snd] in Hopen1, Hev1. subst e1. cbn [app] in Hrun.
    assert (Hstep : forall (binder : M Z),
              binder_run (binder w1) w1 ->
              (let '(b, w2, e2) :=
                 bind binder
                   (fun fd =>
                      let '(size, fds, count) :=
                        bind_all_store heap_cell fd size fds count in
                      bind_all_loop heap_cell addrs port name1 size fds count)
                   w1 in (b, w2, e2))
              = (fds', count', w', evs) ->
              0 <= count' - count <= Z.of_nat (length (a :: addrs))
              /\ count' <= Z.of_nat (length fds')
              /\ firstn (Z.to_nat count') fds'
                 = firstn (Z.to_nat count) fds ++ bound_fds evs
              /\ NoDup (bound_fds evs)
              /\ (forall fd, fd ∈ bound_fds evs ->
                  fd ∉ open_fds w /\ fd ∈ open_fds w')
              /\ open_fds w ⊆ open_fds w').
    { intros binder (Hsub & Hbound & Hfd) Hrun'. unfold bind in Hrun'.
      destruct (binder w1) as [[fd w2] e2]. cbn [fst snd] in Hsub, Hbound, Hfd.
      pose proof (bind_all_store_run fd size fds count Hsize Hcount) as Hstore.
      destruct (bind_all_store heap_cell fd size fds count)
        as [[size2 fds2] count2].
      destruct Hstore as (Hsize2 & Hcount2 & Hc2 & Hfirst2).
      destruct (bind_all_loop heap_cell addrs port name1 size2 fds2 count2 w2)
        as [[[fds3 count3] w3] e3] eqn:Hloop.
      inversion Hrun'; subst fds' count' w' evs.
      destruct (IH name1 size2 fds2 count2 w2 Hsize2 Hcount2 _ _ _ _ Hloop)
        as (Hc3 & Hlen3 & Hfirst3 & Hnodup3 & Hfds3 & Hsub3).
      rewrite bound_fds_app, Hbound. cbn [length].
      assert (Hnew : forall x, x ∈ (if fd >=? 0 then [fd] else []) ->
                               x = fd /\ 0 <= fd).
      { intros x Hx. destruct (Z.geb_spec fd 0).
        - apply list_elem_of_singleton in Hx. split; [assumption | lia].
        - now apply elem_of_nil in Hx. }
      split; [destruct (fd >=? 0); lia|].
      split; [assumption|].
      split; [rewrite Hfirst3, Hfirst2; now rewrite app_assoc|].
      split.
      { destruct (Z.geb_spec fd 0) as [Hge | Hlt]; [|exact Hnodup3].
        cbn [app]. constructor; [|exact Hnodup3].
        intros Hin. destruct (Hfds3 fd Hin) as [Hnot _].
        destruct (Hfd Hge) as [_ Hopen]. contradiction. }
      split; [|set_solver].
      intros x Hx. apply elem_of_app in Hx as [Hx | Hx].
      - destruct (Hnew x Hx) as [-> Hge]. destruct (Hfd Hge) as [Hnot Hin].
        split; [now rewrite <- Hopen1 | set_solver].
      - destruct (Hfds3 x Hx) as [Hnot Hin]. split; [set_solver | assumption]. }
    destruct (ai_family a =? AF_INET).
    { apply (Hstep (network_bind_ipv4 name1 port));
        [apply network_bind_ipv4_run | exact Hrun]. }
    destruct (ai_family a =? AF_INET6).
    { apply (Hstep (network_bind_ipv6 name1 port));
        [apply network_bind_ipv6_run | exact Hrun]. }
    destruct (bind_all_loop heap_cell addrs port name1 size fds count w1)
      as [[[fds3 count3] w3] e3] eqn:Hloop.
    inversion Hrun; subst fds' count' w' evs.
    destruct (IH name1 size fds count w1 Hsize Hcount _ _ _ _ Hloop)
      as (Hc3 & Hlen3 & Hfirst3 & Hnodup3 & Hfds3 & Hsub3).
    cbn [length]. repeat split; try lia; try assumption.
    + destruct (Hfds3 fd H) as [Hnot _]. now rewrite <- Hopen1.
    + now destruct (Hfds3 fd H).
    + now rewrite <- Hopen1.
Qed.

End BindAllFacts.

(** X18: [network_bind_all] stores nothing and reports once when
    [getaddrinfo] fails.  Otherwise the first [*count] cells of the array
    it stores, which has at least that many, hold exactly the descriptors
    the run bound with success, in the order of the candidates: they are
    distinct, were not open before, are open afterwards, and there is at
    most one of them for each candidate; no descriptor that was open
    before is closed. *)
Theorem network_bind_all_descriptors (stack_text : string)
  (heap_cell error : Z) (addrs : list addrinfo) (port : Z) (w : world) :
  (error < 0 ->
   network_bind_all stack_text heap_cell error addrs port w
   = (None, 0, w, [EvWarn "getaddrinfo failed: %s"]))
  /\ (0 <= error ->
      exists fds count w' evs,
        network_bind_all stack_text heap_cell error addrs port w
        = (Some fds, count, w', evs)
        /\ 0 <= count <= Z.of_nat (length addrs)
        /\ count <= Z.of_nat (length fds)
        /\ firstn (Z.to_nat count) fds = bound_fds evs
        /\ NoDup (bound_fds evs)
        /\ (forall fd, fd ∈ bound_fds evs ->
            fd ∉ open_fds w /\ fd ∈ open_fds w')
        /\ open_fds w ⊆ open_fds w').
Proof.
  unfold network_bind_all. split; intros Herror.
  - now replace (error <? 0) with true by (symmetry; apply Z.ltb_lt; lia).
  - replace (error <? 0) with false by (symmetry; apply Z.ltb_ge; lia).
    unfold bind.
    destruct (bind_all_loop heap_cell addrs port stack_text 2
                (xmalloc_ints heap_cell 2) 0 w)
      as [[[fds count] w'] evs] eqn:Hloop.
    destruct (bind_all_loop_run heap_cell addrs port stack_text 2
                (xmalloc_ints heap_cell 2) 0 w eq_refl ltac:(lia)
                _ _ _ _ Hloop)
      as (Hc & Hlen & Hfirst & Hnodup & Hfds & Hsub).
    exists fds, count, w', evs. cbn [ret]. rewrite app_nil_r.
    repeat split; try lia; try assumption.
    + now destruct (Hfds fd H).
    + now destruct (Hfds fd H).
Qed.

Lemma network_bind_all_descriptors_witness :
  exists fds count w' evs,
    network_bind_all "" 0 0
      [mk_addrinfo AF_INET6 SOCK_STREAM 6
         (sockaddr_in6 (htons 4373) (repeat 0 16));
       mk_addrinfo AF_INET SOCK_STREAM 6 (sockaddr_in (htons 4373) 0)]
      4373 (std_world [])
    = (Some fds, count, w', evs)
    /\ 0 <= count <= 2
    /\ count <= Z.of_nat (length fds)
    /\ firstn (Z.to_nat count) fds = bound_fds evs
    /\ NoDup (bound_fds evs)
    /\ (forall fd, fd ∈ bound_fds evs ->
        fd ∉ open_fds (std_world []) /\ fd ∈ open_fds w')
    /\ open_fds (std_world []) ⊆ open_fds w'.
Proof.
  apply (proj2 (network_bind_all_descriptors "" 0 0
                  [mk_addrinfo AF_INET6 SOCK_STREAM 6
                     (sockaddr_in6 (htons 4373) (repeat 0 16));
                   mk_addrinfo AF_INET SOCK_STREAM 6
                     (sockaddr_in (htons 4373) 0)]
                  4373 (std_world []))).
  lia.
Defined.

(** ** The text of an IPv4 address before the two binders *)

Lemma inet_pton4_loop_length (src : string) :
  forall (tmp : list Z) (cur : Z) (saw : bool) (octets : Z) (quad : list Z),
    inet_pton4_loop src tmp cur saw octets = Some quad ->
    octets <= 4 ->
    (saw = true -> Z.of_nat (length tmp) + 1 = octets) ->
    (saw = false -> Z.of_nat (length tmp) = octets /\ octets < 4) ->
    length quad = 4%nat.
Proof.
  induction src as [|ch src IH]; intros tmp cur saw octets quad Hrun H4 Ht Hf.
  - cbn [inet_pton4_loop] in Hrun.
    destruct (Z.ltb_spec octets 4); [discriminate|].
    inversion Hrun. rewrite length_app. cbn [length].
    destruct saw; [specialize (Ht eq_refl); lia | specialize (Hf eq_refl); lia].
  - cbn [inet_pton4_loop] in Hrun.
    destruct (isdigit ch).
    + destruct (saw && (cur =? 0)); [discriminate|].
      destruct (_ >? 255); [discriminate|].
      destruct saw.
      * apply (IH _ _ _ _ _ Hrun); auto.
      * destruct (Z.gtb_spec (octets + 1) 4); [discriminate|].
        apply (IH _ _ _ _ _ Hrun); [lia | | discriminate].
        intros _. destruct (Hf eq_refl). lia.
    + destruct ((char_code ch =? 46) && saw) eqn:Hdot; [|discriminate].
      apply andb_true_iff in Hdot as [_ ->].
      destruct (Z.eqb_spec octets 4); [discriminate|].
      apply (IH _ _ _ _ _ Hrun); [lia | discriminate |].
      intros _. specialize (Ht eq_refl). rewrite length_app. cbn [length].
      lia.
Qed.

Lemma inet_pton4_length (src : string) (quad : list Z) :
  inet_pton4 src = Some quad -> length quad = 4%nat.
Proof.
  intros H. apply (inet_pton4_loop_length _ _ _ _ _ _ H); [lia | discriminate|].
  intros _. cbn. lia.
Qed.

(** A byte is printed as a decimal numeral of at most three digits. *)
Lemma print_u_decimal : forall b, is_byte b ->
  decimal (print_u b) = Some b /\ strlen (print_u b) <= 3.
Proof.
  assert (H : forall b, is_byte b ->
                match decimal (print_u b) with
                | Some n => n =? b
                | None => false
                end = true) by each_byte.
  intros b Hb. specialize (H b Hb).
  pose proof (print_u_length b Hb) as Hlen. apply Z.leb_le in Hlen.
  split; [|assumption].
  destruct (decimal (print_u b)); [|discriminate].
  apply Z.eqb_eq in H. now subst.
Qed.

Lemma nibble_lor (val d : Z) :
  0 <= d < 16 -> Z.lor (Z.shiftl val 4) d = val * 16 + d.
Proof.
  intros Hd.
  assert (Hland : Z.land (Z.shiftl val 4) d = 0).
  { apply Z.bits_inj'; intros j Hj.
    rewrite Z.land_spec, Z.shiftl_spec, Z.testbit_0_l by lia.
    destruct (Z.ltb_spec j 4).
    - now rewrite Z.testbit_neg_r by lia.
    - rewrite <- (Z.mod_small d (2 ^ 4)) by lia.
      rewrite Z.testbit_mod_pow2 by lia.
      replace (j <? 4) with false by (symmetry; apply Z.ltb_ge; lia).
      now rewrite andb_false_r. }
  pose proof (Z.add_lor_land (Z.shiftl val 4) d) as Hadd.
  rewrite Hland, Z.add_0_r in Hadd. rewrite Hadd.
  rewrite Z.shiftl_mul_pow2 by lia. reflexivity.
Qed.

(** [inet_pton(AF_INET6, ...)] reads up to four decimal digits as a
    group and, at the dot that follows them, leaves the decision to
    [inet_pton4] on the current token. *)
Lemma inet_pton6_loop_digits (s : string) :
  forall (acc n : Z) (curtok : string) (tp : list Z) (colonp : option nat)
         (xdigits val : Z) (r : string),
    decimal_digits acc s = Some n ->
    0 <= xdigits -> xdigits + strlen s <= 4 ->
    0 <= val < 16 ^ xdigits ->
    Z.of_nat (length tp) + 4 <= 16 ->
    inet_pton6_loop (s ++ String "." r) curtok tp colonp xdigits val
    = match inet_pton4 curtok with
      | Some quad => inet_pton6_finish (tp ++ quad) colonp 0 0
      | None => None
      end.
Proof.
  induction s as [|c s IH];
    intros acc n curtok tp colonp xdigits val r Hdec Hx Hlen Hval Htp.
  - change ("" ++ String "." r)%string with (String "." r).
    cbn [inet_pton6_loop].
    change (hex_digit_value ".") with (@None Z).
    change (char_code "." =? 58) with false.
    change (char_code "." =? 46) with true. cbv beta iota.
    now replace (Z.of_nat (length tp) + 4 <=? 16) with true
      by (symmetry; apply Z.leb_le; lia).
  - change (String c s ++ String "." r)%string
      with (String c (s ++ String "." r)%string).
    cbn [decimal_digits] in Hdec.
    destruct (isdigit c) eqn:Hc; [|discriminate].
    destruct (isdigit_digit_value c Hc) as [Hdv Hd].
    rewrite strlen_String in Hlen. pose proof (strlen_nonneg s).
    cbn [inet_pton6_loop]. unfold hex_digit_value. rewrite Hdv.
    replace (char_code c - 48 <? 16) with true
      by (symmetry; apply Z.ltb_lt; lia).
    replace (xdigits =? 4) with false by (symmetry; apply Z.eqb_neq; lia).
    cbv zeta. rewrite nibble_lor by lia.
    assert (Hpow : 16 ^ (xdigits + 1) = 16 * 16 ^ xdigits)
      by (rewrite Z.pow_add_r by lia; lia).
    assert (Hmax : 16 ^ (xdigits + 1) <= 16 ^ 4)
      by (apply Z.pow_le_mono_r; lia).
    change (16 ^ 4) with 65536 in Hmax.
    rewrite gtb_le by lia.
    apply (IH _ n _ _ _ _ _ _ Hdec); [lia | lia | lia | assumption].
Qed.

Lemma digit_head_not_word (c : ascii) (s : string) :
  isdigit c = true ->
  String.eqb (String c s) "any" = false
  /\ String.eqb (String c s) "all" = false.
Proof.
  intros Hc. cbn [String.eqb].
  destruct (Ascii.eqb_spec c "a") as [-> | _]; [discriminate Hc|].
  split; reflexivity.
Qed.

(** The text of an IPv4 address is no IPv6 address for [inet_pton], and
    it is not one of the words [any] and [all]. *)
Lemma inet_pton6_dotted (b : Z) (r : string) :
  is_byte b ->
  inet_pton6 (print_u b ++ String "." r) = None
  /\ String.eqb (print_u b ++ String "." r) "any" = false
  /\ String.eqb (print_u b ++ String "." r) "all" = false.
Proof.
  intros Hb.
  destruct (print_u_decimal b Hb) as [Hdec Hlen].
  pose proof (print_u_head b Hb) as Hhead.
  assert (Hloop := fun curtok =>
            inet_pton6_loop_digits (print_u b) 0 b curtok [] None 0 0 r).
  destruct (print_u b) as [|c s]; [discriminate|].
  change (String c s ++ String "." r)%string
    with (String c (s ++ String "." r)%string) in *.
  split; [|now apply digit_head_not_word].
  unfold inet_pton6.
  replace (char_code c =? 58) with false.
  2: { symmetry. apply Z.eqb_neq. unfold isdigit in Hhead. cbv zeta in Hhead.
       apply andb_true_iff in Hhead as [_ H]. apply Z.leb_le in H. lia. }
  rewrite Hloop; [|exact Hdec | lia | lia | cbn; lia | cbn; lia].
  destruct (inet_pton4 _) as [quad|] eqn:Hquad; [|reflexivity].
  apply inet_pton4_length in Hquad.
  unfold inet_pton6_finish. cbn [app Z.ltb Z.compare].
  now rewrite Hquad.
Qed.

Lemma inet_ntop4_text (src : list Z) (size : Z) :
  Forall is_byte src -> 16 <= size ->
  inet_ntop4 src size
  = Some (print_u (s6 src 0) ++ String "." (print_u (s6 src 1) ++ String "."
            (print_u (s6 src 2) ++ String "." (print_u (s6 src 3)))))%string.
Proof.
  intros Hsrc Hsize.
  destruct (inet_ntop4_fits src size Hsrc Hsize) as (text & Htext & Hlen).
  rewrite Htext. unfold inet_ntop4 in Htext.
  destruct (_ >=? _) in Htext; [discriminate|]. symmetry. exact Htext.
Qed.

Lemma bind_calls_app (e1 e2 : list event) :
  bind_calls (e1 ++ e2) = bind_calls e1 ++ bind_calls e2.
Proof.
  induction e1 as [|e e1 IH]; [reflexivity|].
  destruct e; cbn [app bind_calls]; try exact IH. now rewrite IH.
Qed.

(** The IPv6 binder on a text that is no IPv6 address: no [bind], and
    the descriptors of the process as they were. *)
Lemma network_bind_ipv6_rejects (name : string) (port : Z) (w : world) :
  inet_pton6 name = None ->
  String.eqb name "any" = false -> String.eqb name "all" = false ->
  (network_bind_ipv6 name port w).1.1 = -1
  /\ bind_calls (network_bind_ipv6 name port w).2 = []
  /\ open_fds (network_bind_ipv6 name port w).1.2 = open_fds w.
Proof.
  intros Hpton Hany Hall.
  pose proof (lowest_free_fresh (open_fds w)) as Hfresh.
  unfold network_bind_ipv6, network_set_reuseaddr, sys_socket, sys_setsockopt,
    sys_bind, syswarn, warn, get_errno, emit, bind, ret.
  rewrite Hany, Hall. cbn [orb]. rewrite Hpton.
  run_call.
  - repeat run_call.
    all: cbn [fst snd open_fds after app bind_calls].
    all: repeat split; set_solver.
  - match goal with |- context [if ?b then _ else _] => destruct b end;
      cbn; repeat split.
Qed.

(** The IPv4 binder on a text that is an IPv4 address: one socket, no
    complaint about the address, and a [bind], if the socket was
    created, to that address and the port. *)
Lemma network_bind_ipv4_accepts (name : string) (port x : Z) (w : world) :
  inet_aton name = Some x ->
  socket_calls (network_bind_ipv4 name port w).2
  = [(PF_INET, SOCK_STREAM, IPPROTO_IP)]
  /\ existsb is_warn (network_bind_ipv4 name port w).2 = false
  /\ (bind_calls (network_bind_ipv4 name port w).2 = []
      \/ bind_calls (network_bind_ipv4 name port w).2
         = [mk_sockaddr AF_INET (htons port) x []]).
Proof.
  intros Haton.
  assert (Hany : String.eqb name "any" = false).
  { destruct (String.eqb_spec name "any") as [-> | _]; [discriminate|].
    reflexivity. }
  assert (Hall : String.eqb name "all" = false).
  { destruct (String.eqb_spec name "all") as [-> | _]; [discriminate|].
    reflexivity. }
  unfold network_bind_ipv4, network_set_reuseaddr, sys_socket, sys_setsockopt,
    sys_bind, syswarn, warn, get_errno, emit, bind, ret.
  rewrite Hany, Hall. cbn [orb]. rewrite Haton.
  run_call.
  - repeat run_call.
    all: cbn [fst snd app bind_calls socket_calls existsb is_warn orb].
    all: repeat split; auto.
  - cbn. repeat split; auto.
Qed.

Lemma network_sockaddr_sprint_v4mapped (name : string) (a : sockaddr)
  (w : world) :
  sa_family a = AF_INET6 -> IN6_IS_ADDR_V4MAPPED (sin6_addr a) = true ->
  exists b r,
    is_byte b
    /\ network_sockaddr_sprint name INET6_ADDRSTRLEN a w
       = (true, (print_u b ++ String "." r)%string, w, []).
Proof.
  intros Hfam Hmapped. unfold network_sockaddr_sprint, inet_ntop.
  rewrite Hfam, Hmapped.
  change (AF_INET6 =? AF_INET6) with true.
  change (AF_INET =? AF_INET) with true. cbv beta iota zeta.
  change (socklen_t INET6_ADDRSTRLEN) with 46.
  rewrite inet_ntop4_text by (try apply le_bytes_bytes; lia).
  eexists _, _. split; [|reflexivity].
  apply s6_byte, le_bytes_bytes.
Qed.

Lemma network_sockaddr_sprint_ipv4_text (name : string) (a : sockaddr)
  (w : world) :
  sa_family a = AF_INET -> 0 <= sin_addr a < 2 ^ 32 ->
  exists text,
    network_sockaddr_sprint name INET6_ADDRSTRLEN a w = (true, text, w, [])
    /\ inet_aton text = Some (sin_addr a).
Proof.
  intros Hfam Hrange. unfold network_sockaddr_sprint, inet_ntop.
  rewrite Hfam.
  change (AF_INET =? AF_INET6) with false.
  change (AF_INET =? AF_INET) with true. cbv beta iota zeta.
  change (socklen_t INET6_ADDRSTRLEN) with 46.
  rewrite inet_ntop4_text by (try apply le_bytes_bytes; lia).
  eexists. split; [reflexivity|].
  unfold le_bytes. cbn [s6 nth].
  change (String "." ?s) with ("." ++ s)%string.
  rewrite <- (le_word_le_bytes (sin_addr a) Hrange) at 5.
  apply inet_aton_print; apply land_255_byte.
Qed.

Section BindAllCandidates.

Variable stack_text : string.
Variable heap_cell : Z.

Lemma bind_all_loop_v4mapped (addrs : list addrinfo) (port : Z) :
  Forall v4mapped_candidate addrs ->
  forall (name : string) (size : Z) (fds : list Z) (count : Z) (w : world)
         (res : list Z * Z) (w' : world) (evs : list event),
    bind_all_loop heap_cell addrs port name size fds count w = (res, w', evs) ->
    res = (fds, count) /\ bind_calls evs = [] /\ open_fds w' = open_fds w.
Proof.
  induction 1 as [|a addrs (Hai & Hsa & Hmapped) _ IH];
    intros name size fds count w res w' evs Hrun.
  { cbn in Hrun. inversion Hrun. repeat split. }
  cbn [bind_all_loop] in Hrun. unfold bind at 1 in Hrun.
  destruct (network_sockaddr_sprint_v4mapped name (ai_addr a) w Hsa Hmapped)
    as (b & r & Hb & Hsprint).
  rewrite Hsprint, Hai in Hrun.
  change (AF_INET6 =? AF_INET) with false in Hrun.
  change (AF_INET6 =? AF_INET6) with true in Hrun. cbv beta iota in Hrun.
  destruct (inet_pton6_dotted b r Hb) as (Hpton & Hany & Hall).
  destruct (network_bind_ipv6_rejects _ port w Hpton Hany Hall)
    as (Hfd & Hbind & Hopen).
  unfold bind in Hrun.
  destruct (network_bind_ipv6 _ port w) as [[fd w2] e2].
  cbn [fst snd] in Hfd, Hbind, Hopen. subst fd.
  unfold bind_all_store in Hrun. change (-1 >=? 0) with false in Hrun.
  cbv beta iota in Hrun.
  destruct (bind_all_loop heap_cell addrs port _ size fds count w2)
    as [[res3 w3] e3] eqn:Hloop.
  destruct (IH _ _ _ _ _ _ _ _ Hloop) as (Hres & Hbind3 & Hopen3).
  inversion Hrun; subst res w' evs.
  cbn [app]. rewrite bind_calls_app, Hbind, Hbind3.
  repeat split; congruence.
Qed.

Lemma bind_all_loop_ipv4 (addrs : list addrinfo) (port : Z) :
  Forall ipv4_candidate addrs ->
  forall (name : string) (size : Z) (fds : list Z) (count : Z) (w : world)
         (res : list Z * Z) (w' : world) (evs : list event),
    bind_all_loop heap_cell addrs port name size fds count w = (res, w', evs) ->
    socket_calls evs = map (fun _ => (PF_INET, SOCK_STREAM, IPPROTO_IP)) addrs
    /\ existsb is_warn evs = false
    /\ exists tried,
         sublist tried addrs
         /\ bind_calls evs
            = map (fun a => mk_sockaddr AF_INET (htons port)
                              (sin_addr (ai_addr a)) []) tried.
Proof.
  induction 1 as [|a addrs (Hai & Hsa & Hrange) _ IH];
    intros name size fds count w res w' evs Hrun.
  { cbn in Hrun. inversion Hrun. repeat split.
    exists []. split; [constructor | reflexivity]. }
  cbn [bind_all_loop] in Hrun. unfold bind at 1 in Hrun.
  destruct (network_sockaddr_sprint_ipv4_text name (ai_addr a) w Hsa Hrange)
    as (text & Hsprint & Haton).
  rewrite Hsprint, Hai in Hrun.
  change (AF_INET =? AF_INET) with true in Hrun. cbv beta iota in Hrun.
  destruct (network_bind_ipv4_accepts text port _ w Haton)
    as (Hsock & Hwarn & Hbind).
  unfold bind in Hrun.
  destruct (network_bind_ipv4 text port w) as [[fd w2] e2].
  cbn [fst snd] in Hsock, Hwarn, Hbind.
  destruct (bind_all_store heap_cell fd size fds count)
    as [[size2 fds2] count2].
  destruct (bind_all_loop heap_cell addrs port text size2 fds2 count2 w2)
    as [[res3 w3] e3] eqn:Hloop.
  destruct (IH _ _ _ _ _ _ _ _ Hloop) as (Hsock3 & Hwarn3 & tried & Hsub & Hbind3).
  inversion Hrun; subst res w' evs.
  cbn [app map].
  rewrite socket_calls_app, existsb_app, bind_calls_app, Hsock, Hwarn, Hsock3,
    Hwarn3, Hbind3.
  repeat split.
  destruct Hbind as [-> | ->].
  - exists tried. split; [now constructor | reflexivity].
  - exists (a :: tried). split; [now constructor | reflexivity].
Qed.

End BindAllCandidates.

(** X19: in [network_bind_all] an IPv4-mapped IPv6 address among the
    candidates is never bound: it is printed as the IPv4 address within
    and handed to the IPv6 binder, which takes that text for no address.
    With only such candidates the count is 0, no [bind] is called, and
    the process holds the descriptors it held before. *)
Theorem network_bind_all_v4mapped (stack_text : string) (heap_cell error : Z)
  (addrs : list addrinfo) (port : Z) (w : world) :
  0 <= error ->
  Forall v4mapped_candidate addrs ->
  (network_bind_all stack_text heap_cell error addrs port w).1.1.2 = 0
  /\ bind_calls (network_bind_all stack_text heap_cell error addrs port w).2
     = []
  /\ open_fds (network_bind_all stack_text heap_cell error addrs port w).1.2
     = open_fds w.
Proof.
  intros Herror Haddrs. unfold network_bind_all.
  replace (error <? 0) with false by (symmetry; apply Z.ltb_ge; lia).
  unfold bind.
  destruct (bind_all_loop heap_cell addrs port stack_text 2
              (xmalloc_ints heap_cell 2) 0 w)
    as [[[fds count] w'] evs] eqn:Hloop.
  destruct (bind_all_loop_v4mapped heap_cell addrs port Haddrs _ _ _ _ _ _ _ _
              Hloop) as (Hres & Hbind & Hopen).
  cbn [fst snd ret]. rewrite app_nil_r.
  inversion Hres. repeat split; assumption.
Qed.

Lemma network_bind_all_v4mapped_witness :
  (network_bind_all "" 0 0
     [mk_addrinfo AF_INET6 SOCK_STREAM 6
        (sockaddr_in6 (htons 4373) (v4mapped 16777343))]
     4373 (std_world [])).1.1.2 = 0.
Proof.
  apply (network_bind_all_v4mapped "" 0 0
           [mk_addrinfo AF_INET6 SOCK_STREAM 6
              (sockaddr_in6 (htons 4373) (v4mapped 16777343))]
           4373 (std_world [])).
  - lia.
  - repeat constructor.
Defined.

(** X20: in [network_bind_all] the text printed for an IPv4 candidate is
    always taken back as its address: with IPv4 candidates only, one
    socket is created for each of them in turn, no address is ever
    reported invalid, and the addresses bound are, in order, those of
    candidates, each under the port given, none bound twice. *)
Theorem network_bind_all_ipv4 (stack_text : string) (heap_cell error : Z)
  (addrs : list addrinfo) (port : Z) (w : world) :
  0 <= error ->
  Forall ipv4_candidate addrs ->
  socket_calls (network_bind_all stack_text heap_cell error addrs port w).2
  = map (fun _ => (PF_INET, SOCK_STREAM, IPPROTO_IP)) addrs
  /\ existsb is_warn
       (network_bind_all stack_text heap_cell error addrs port w).2 = false
  /\ exists tried,
       sublist tried addrs
       /\ bind_calls
            (network_bind_all stack_text heap_cell error addrs port w).2
          = map (fun a => mk_sockaddr AF_INET (htons port)
                            (sin_addr (ai_addr a)) []) tried.
Proof.
  intros Herror Haddrs. unfold network_bind_all.
  replace (error <? 0) with false by (symmetry; apply Z.ltb_ge; lia).
  unfold bind.
  destruct (bind_all_loop heap_cell addrs port stack_text 2
              (xmalloc_ints heap_cell 2) 0 w)
    as [[[fds count] w'] evs] eqn:Hloop.
  destruct (bind_all_loop_ipv4 heap_cell addrs port Haddrs _ _ _ _ _ _ _ _
              Hloop) as (Hsock & Hwarn & tried & Hsub & Hbind).
  cbn [fst snd ret]. rewrite app_nil_r.
  repeat split; try assumption. now exists tried.
Qed.

Lemma network_bind_all_ipv4_witness :
  existsb is_warn
    (network_bind_all "" 0 0
       [mk_addrinfo AF_INET SOCK_STREAM 6 (sockaddr_in (htons 4373) 16777343)]
       4373 (std_world [Yes 0; Yes 0; No 98])).2 = false.
Proof.
  apply (network_bind_all_ipv4 "" 0 0
           [mk_addrinfo AF_INET SOCK_STREAM 6
              (sockaddr_in (htons 4373) 16777343)]
           4373 (std_world [Yes 0; Yes 0; No 98])).
  - lia.
  - repeat constructor; cbn; lia.
Defined.

(** * Further properties of [server/remctld.c] *)

(** ** [create_socket] *)

Lemma create_socket_run (port : Z) (w : world) :
  (accept_fds (create_socket port w).2 = []
   /\ existsb is_gss (create_socket port w).2 = false
   /\ existsb is_config_failure (create_socket port w).2 = false
   /\ existsb is_alarm_off (create_socket port w).2 = false
   /\ (bind_calls (create_socket port w).2 = []
       \/ bind_calls (create_socket port w).2
          = [mk_sockaddr AF_INET (htons port) INADDR_ANY []]))
  /\ (((create_socket port w).1.1 = -1
       /\ open_fds (create_socket port w).1.2 = open_fds w
       /\ held ∅ (create_socket port w).2 = ∅
       /\ existsb is_syswarn (create_socket port w).2 = true)
      \/ ((create_socket port w).1.1 = lowest_free (open_fds w)
          /\ lowest_free (open_fds w) ∉ open_fds w
          /\ open_fds (create_socket port w).1.2
             = {[lowest_free (open_fds w)]} ∪ open_fds w
          /\ bind_calls (create_socket port w).2
             = [mk_sockaddr AF_INET (htons port) INADDR_ANY []]
          /\ last (create_socket port w).2
             = Some (EvListen (lowest_free (open_fds w)) 5 (Ret 0))
          /\ existsb is_syswarn (create_socket port w).2 = false
          /\ In (EvBind (lowest_free (open_fds w))
                   (mk_sockaddr AF_INET (htons port) INADDR_ANY []) (Ret 0))
               (create_socket port w).2)).
Proof.
  pose proof (lowest_free_fresh (open_fds w)) as Hfresh.
  unfold create_socket, sys_socket, sys_setsockopt, sys_bind, sys_listen,
    syswarn, get_errno, emit, bind, ret.
  run_call.
  - repeat run_call.
    all: cbn [fst snd open_fds after app].
    all: (split; [repeat split; auto|]).
    all: try (left; repeat split; [set_solver | cbn; set_solver]).
    all: right; repeat split; try assumption; cbn; auto.
  - split; [repeat split; auto|]. left. cbn. repeat split.
Qed.


(** ** [acquire_creds] *)

Lemma acquire_creds_cases (service : string) (w : world) :
  open_fds (acquire_creds service w).1.2 = open_fds w
  /\ existsb is_listener_event (acquire_creds service w).2 = false
  /\ existsb is_alarm_off (acquire_creds service w).2 = false
  /\ existsb is_config_failure (acquire_creds service w).2 = false
  /\ (((acquire_creds service w).1.1 = true
       /\ creds_failed (acquire_creds service w).2 = false
       /\ existsb is_acquired (acquire_creds service w).2 = true
       /\ last (acquire_creds service w).2 = Some EvGssReleaseName)
      \/ ((acquire_creds service w).1.1 = false
          /\ creds_failed (acquire_creds service w).2 = true
          /\ existsb is_acquired (acquire_creds service w).2 = false
          /\ ~ In EvGssReleaseName (acquire_creds service w).2
          /\ (forall e,
                In (EvGssImportName service (Fail e))
                  (acquire_creds service w).2 ->
                forall r, ~ In (EvGssAcquireCred r)
                            (acquire_creds service w).2)
          /\ exists message,
              last (acquire_creds service w).2 = Some (EvWarn message))).
Proof.
  unfold acquire_creds, warn_gssapi, warn, emit, bind, ret.
  rewrite external_call_run.
  destruct (oracle w (clock w)); cbv beta iota zeta.
  - rewrite external_call_run.
    match goal with
    | |- context [oracle ?w' ?n] => destruct (oracle w' n)
    end; cbn [fst snd app open_fds after].
    + repeat split. left. repeat split.
    + repeat split. right. repeat split.
      * cbn. intros [H | [H | [H | []]]]; discriminate H.
      * cbn. intros e0 [H | [H | [H | []]]]; discriminate H.
      * eexists. reflexivity.
  - cbn [fst snd app open_fds after]. repeat split. right. repeat split.
    + cbn. intros [H | [H | []]]; discriminate H.
    + cbn. intros e0 _ r [H | [H | []]]; discriminate H.
    + eexists. reflexivity.
Qed.


(** ** What the stages of [main] do *)

Lemma listener_free_readings (evs : list event) :
  existsb is_listener_event evs = false ->
  bind_calls evs = [] /\ accept_fds evs = [] /\ socket_calls evs = [].
Proof.
  induction evs as [|e evs IH]; [repeat split|].
  cbn [existsb]. intros H. apply orb_false_iff in H as [He H].
  destruct (IH H) as (Hb & Ha & Hs).
  destruct e; try discriminate He; cbn; auto.
Qed.

Lemma accept_fds_app (e1 e2 : list event) :
  accept_fds (e1 ++ e2) = accept_fds e1 ++ accept_fds e2.
Proof.
  induction e1 as [|e e1 IH]; [reflexivity|].
  destruct e; cbn [app accept_fds]; try exact IH. now rewrite IH.
Qed.

Lemma handler_events_startup (s : Z) (body : list event) :
  handler_events s body ->
  existsb is_listener_event body = false
  /\ existsb is_alarm_off body = false
  /\ existsb is_config_failure body = false
  /\ existsb is_gss body = false.
Proof. intros []; repeat split. Qed.

Lemma serial_blocks_readings (stmp : Z) (evs : list event) :
  serial_blocks stmp evs ->
  Forall (eq stmp) (accept_fds evs)
  /\ bind_calls evs = []
  /\ existsb is_alarm_off evs = false
  /\ existsb is_config_failure evs = false
  /\ existsb is_gss evs = false.
Proof.
  induction 1 as [| e message rest _ IH | s body rest Hbody _ IH].
  - repeat split. constructor.
  - destruct IH as (Ha & Hb & Hal & Hc & Hg).
    cbn [accept_fds bind_calls existsb is_alarm_off is_config_failure is_gss
         orb].
    repeat split; auto.
  - destruct IH as (Ha & Hb & Hal & Hc & Hg).
    destruct (handler_events_startup _ _ Hbody) as (Hl' & Hal' & Hc' & Hg').
    destruct (listener_free_readings _ Hl') as (Hb' & Ha' & _).
    cbn [accept_fds bind_calls existsb is_alarm_off is_config_failure is_gss
         orb].
    rewrite accept_fds_app, bind_calls_app, !existsb_app, Ha', Hb', Hal', Hc',
      Hg', Hb, Hal, Hc, Hg.
    repeat split; auto.
Qed.

Lemma main_creds_run (o : options) (w : world) :
  existsb is_listener_event (main_creds o w).2 = false
  /\ existsb is_alarm_off (main_creds o w).2 = false
  /\ existsb is_config_failure (main_creds o w).2 = false
  /\ (main_creds o w).1.1 <> Serving
  /\ forall creds,
      (main_creds o w).1.1 = Value creds ->
      existsb is_acquired (main_creds o w).2 = creds
      /\ (creds = false -> (main_creds o w).2 = []).
Proof.
  unfold main_creds. destruct (service o) as [svc|].
  - unfold ebind, lift.
    destruct (acquire_creds_cases svc w) as (_ & Hl & Hal & Hc & Hcases).
    destruct (acquire_creds svc w) as [[ok w1] e1]. cbn [fst snd] in *.
    destruct Hcases as [(-> & _ & Hacq & _) | (-> & _ & Hacq & _)];
      cbn [negb]; unfold die, eret; cbn [fst snd].
    + rewrite app_nil_r.
      split; [assumption|]. split; [assumption|]. split; [assumption|].
      split; [discriminate|]. intros creds H. inversion H; subst creds.
      split; [assumption | discriminate].
    + rewrite !existsb_app, Hl, Hal, Hc.
      split; [reflexivity|]. split; [reflexivity|]. split; [reflexivity|].
      split; discriminate.
  - unfold eret. cbn [fst snd].
    split; [reflexivity|]. split; [reflexivity|]. split; [reflexivity|].
    split; [discriminate|]. intros creds H. inversion H; subst creds.
    split; reflexivity.
Qed.

Lemma main_serve_run (fuel : nat) (o : options) (w : world) :
  existsb is_config_failure (main_serve fuel o w).2 = false
  /\ existsb is_gss (main_serve fuel o w).2 = false
  /\ (do_standalone o = false ->
      (main_serve fuel o w).1.1 = Value tt
      /\ handler_events 0 (main_serve fuel o w).2)
  /\ (do_standalone o = true ->
      (forall u, (main_serve fuel o w).1.1 <> Value u)
      /\ (bind_calls (main_serve fuel o w).2 = []
          \/ bind_calls (main_serve fuel o w).2
             = [mk_sockaddr AF_INET (htons (port o)) INADDR_ANY []])
      /\ (accept_fds (main_serve fuel o w).2 = []
          \/ exists stmp pre loop,
               (main_serve fuel o w).2 = pre ++ loop
               /\ accept_fds pre = []
               /\ In (EvBind stmp
                        (mk_sockaddr AF_INET (htons (port o)) INADDR_ANY [])
                        (Ret 0)) pre
               /\ In (EvListen stmp 5 (Ret 0)) pre
               /\ serial_blocks stmp loop
               /\ accept_calls loop = fuel
               /\ (main_serve fuel o w).1.1 = Serving)).
Proof.
  unfold main_serve. destruct (do_standalone o); cbn [negb].
  - remember ((_ ;; _)%daemon w) as res eqn:Hrun.
    destruct res as [[out w'] evs]. symmetry in Hrun. cbn [fst snd].
    unfold ebind at 1 in Hrun. unfold lift at 1, emit in Hrun.
    cbv beta iota zeta in Hrun.
    unfold ebind at 1 in Hrun. unfold lift at 1 in Hrun.
    destruct (create_socket_run (port o) w)
      as ((Ha1 & Hg1 & Hc1 & Hal1 & Hb1) & Hcases).
    destruct (create_socket (port o) w) as [[stmp w1] e1].
    cbn [fst snd] in *. cbv beta iota zeta in Hrun.
    unfold ebind at 1 in Hrun.
    destruct Hcases as [(-> & _) | (-> & _ & _ & Hbind & Hlast & _ & Hin)].
    { change (-1 <? 0) with true in Hrun. unfold sysdie in Hrun.
      inversion Hrun; subst out w' evs.
      cbn [app existsb is_config_failure is_gss orb bind_calls accept_fds].
      rewrite !existsb_app, bind_calls_app, accept_fds_app, Hc1, Hg1, Ha1.
      cbn [existsb is_config_failure is_gss orb bind_calls accept_fds app].
      rewrite app_nil_r.
      repeat split; try discriminate; auto. }
    replace (lowest_free (open_fds w) <? 0) with false in Hrun
      by (symmetry; apply Z.ltb_ge, lowest_free_nonneg).
    set (stmp := lowest_free (open_fds w)) in *.
    unfold eret at 1 in Hrun. cbv beta iota zeta in Hrun.
    unfold ebind at 1 in Hrun.
    assert (Hpid :
      exists out2 w2 e2,
        (match pid_path o with
         | Some pid_path =>
             ebind (lift (external_call (EvPidFile pid_path)))
               (fun pid_file =>
                  match pid_file with
                  | Fail _ => sysdie "cannot create PID file %s"
                  | Ret _ => eret tt
                  end)
         | None => eret tt
         end) w1 = (out2, w2, e2)
        /\ existsb is_listener_event e2 = false
        /\ existsb is_config_failure e2 = false
        /\ existsb is_gss e2 = false
        /\ out2 <> Serving).
    { destruct (pid_path o) as [path|].
      - unfold ebind, lift, external_call, bind, ask, emit, ret, sysdie, eret.
        destruct (oracle w1 (clock w1)); cbv beta iota zeta;
          eexists _, _, _; (split; [reflexivity|]);
          repeat split; discriminate.
      - eexists _, _, _. split; [reflexivity|]. repeat split. discriminate. }
    destruct Hpid as (out2 & w2 & e2 & Hpid & Hl2 & Hc2 & Hg2 & Hout).
    rewrite Hpid in Hrun.
    destruct (listener_free_readings _ Hl2) as (Hb2 & Ha2 & _).
    destruct out2 as [[] | status |]; [| | contradiction].
    + destruct (accept_loop_serves fuel stmp w2)
        as (Hserving & Hcount & Hserial).
      destruct (accept_loop fuel stmp w2) as [[out3 w3] e3].
      cbn [fst snd] in *. subst out3. inversion Hrun; subst out w' evs.
      destruct (serial_blocks_readings _ _ Hserial)
        as (Ha3 & Hb3 & Hal3 & Hc3 & Hg3).
      cbn [app existsb is_config_failure is_gss orb bind_calls accept_fds].
      rewrite !existsb_app, !bind_calls_app, Hc1, Hg1, Hc2, Hg2, Hc3, Hg3,
        Hbind, Hb2, Hb3.
      cbn [app existsb orb].
      repeat split; try discriminate; auto.
      right. exists stmp, (EvAlarm 0 :: e1 ++ e2), e3.
      repeat split; auto.
      * cbn [app]. now rewrite <- app_assoc.
      * cbn [accept_fds]. now rewrite accept_fds_app, Ha1, Ha2.
      * right. apply in_or_app. now left.
      * right. apply in_or_app. left.
        destruct e1 as [|x e1] using rev_ind; [discriminate Hlast|].
        rewrite last_snoc in Hlast. inversion Hlast.
        apply in_or_app. right. now left.
    + inversion Hrun; subst out w' evs.
      cbn [app existsb is_config_failure is_gss orb bind_calls accept_fds].
      rewrite !existsb_app, !bind_calls_app, !accept_fds_app, Hc1, Hg1, Hc2,
        Hg2, Hbind, Hb2, Ha1, Ha2.
      cbn [app existsb orb].
      repeat split; try discriminate; auto.
  - unfold lift.
    pose proof (server_handle_connection_events 0 w) as Hbody.
    destruct (server_handle_connection 0 w) as [[[] w1] body].
    cbn [fst snd] in *.
    destruct (handler_events_startup _ _ Hbody) as (_ & _ & Hc & Hg).
    repeat split; auto; discriminate.
Qed.

(** ** The stages of a run of [main] *)

Section MainStages.

Variable CONFIG_FILE : string.
Variable PACKAGE_VERSION : string.

Local Open Scope daemon_scope.

Lemma main_eq (fuel : nat) (argv : list getopt_result) :
  main CONFIG_FILE PACKAGE_VERSION fuel argv
  = (lift (emit (EvAlarm (60 * 60))) ;;
     o <- parse_options CONFIG_FILE PACKAGE_VERSION argv
            (default_options CONFIG_FILE) ;;
     config <- lift (external_call (EvConfigLoad (conffile o))) ;;
     (match config with
      | Fail _ => die "cannot read configuration file %s"
      | Ret _ => eret tt
      end) ;;
     creds <- main_creds o ;;
     main_serve fuel o ;;
     (if creds : bool then lift (emit EvGssReleaseCred) else eret tt) ;;
     eret 0).
Proof. reflexivity. Qed.

(** A run of [main], stage by stage. *)
Lemma main_stages (fuel : nat) (argv : list getopt_result) (w : world) :
  main CONFIG_FILE PACKAGE_VERSION fuel argv w
  = let '(out1, w1, e1) :=
      parse_options CONFIG_FILE PACKAGE_VERSION argv
        (default_options CONFIG_FILE) w in
    match out1 with
    | Exited status => (Exited status, w1, EvAlarm 3600 :: e1)
    | Serving => (Serving, w1, EvAlarm 3600 :: e1)
    | Value o =>
        match oracle w1 (clock w1) with
        | No e =>
            (Exited 1, after w1 (open_fds w1) (errno w1),
             EvAlarm 3600 :: e1
             ++ [EvConfigLoad (conffile o) (Fail e);
                 EvDie "cannot read configuration file %s"])
        | Yes v =>
            let '(out3, w3, e3) :=
              main_creds o (after w1 (open_fds w1) (errno w1)) in
            match out3 with
            | Exited status =>
                (Exited status, w3,
                 EvAlarm 3600 :: e1 ++ EvConfigLoad (conffile o) (Ret v) :: e3)
            | Serving =>
                (Serving, w3,
                 EvAlarm 3600 :: e1 ++ EvConfigLoad (conffile o) (Ret v) :: e3)
            | Value creds =>
                let '(out4, w4, e4) := main_serve fuel o w3 in
                match out4 with
                | Exited status =>
                    (Exited status, w4,
                     EvAlarm 3600 :: e1
                     ++ EvConfigLoad (conffile o) (Ret v) :: e3 ++ e4)
                | Serving =>
                    (Serving, w4,
                     EvAlarm 3600 :: e1
                     ++ EvConfigLoad (conffile o) (Ret v) :: e3 ++ e4)
                | Value _ =>
                    (Value 0, w4,
                     EvAlarm 3600 :: e1
                     ++ EvConfigLoad (conffile o) (Ret v) :: e3 ++ e4
                     ++ (if creds : bool then [EvGssReleaseCred] else []))
                end
            end
        end
    end.
Proof.
  rewrite main_eq.
  unfold ebind at 1. unfold lift at 1, emit at 1. cbv beta iota zeta.
  unfold ebind at 1.
  destruct (parse_options CONFIG_FILE PACKAGE_VERSION argv
              (default_options CONFIG_FILE) w) as [[out1 w1] e1].
  destruct out1 as [o | status |]; [|reflexivity|reflexivity].
  unfold ebind at 1. unfold lift at 1. rewrite external_call_run.
  destruct (oracle w1 (clock w1)) as [v | e]; cbv beta iota zeta.
  2: { unfold ebind at 1, die at 1. reflexivity. }
  unfold ebind at 1, eret at 1. cbv beta iota zeta.
  unfold ebind at 1.
  destruct (main_creds o (after w1 (open_fds w1) (errno w1)))
    as [[out3 w3] e3].
  destruct out3 as [creds | status |]; [|reflexivity|reflexivity].
  unfold ebind at 1.
  destruct (main_serve fuel o w3) as [[out4 w4] e4].
  destruct out4 as [[] | status |];
    [|cbn [app]; now rewrite ?app_nil_r|cbn [app]; now rewrite ?app_nil_r].
  unfold ebind, eret, lift, emit.
  destruct creds; cbn [app]; rewrite ?app_nil_r; reflexivity.
Qed.

(** *** The option loop *)

Lemma parse_options_plain (argv : list getopt_result) :
  Forall (fun x => is_exit_option x = false) argv ->
  forall (o : options) (w : world),
    exists o',
      parse_options CONFIG_FILE PACKAGE_VERSION argv o w = (Value o', w, [])
      /\ port o'
         = fold_left (fun p x => match x with
                                 | opt_p optarg => u16 (atoi optarg)
                                 | _ => p
                                 end) argv (port o)
      /\ (do_standalone o' = true
          <-> do_standalone o = true \/ In opt_m argv).
Proof.
  induction 1 as [|x argv Hx _ IH]; intros o w.
  { exists o. repeat split; cbn; tauto. }
  destruct x; try discriminate Hx; cbn [parse_options fold_left];
    match goal with
    | |- context [parse_options _ _ argv ?o1 w] =>
        destruct (IH o1 w) as (o' & -> & Hport & Hstand)
    end;
    exists o'; cbn [port do_standalone] in *;
    (split; [reflexivity|]); (split; [exact Hport|]);
    rewrite Hstand; cbn [In]; intuition discriminate.
Qed.

Lemma parse_options_exit (pre post : list getopt_result) (x : getopt_result) :
  Forall (fun x => is_exit_option x = false) pre ->
  is_exit_option x = true ->
  forall (o : options) (w : world),
    parse_options CONFIG_FILE PACKAGE_VERSION (pre ++ x :: post) o w
    = (Exited (exit_option_status x), w,
       exit_option_events (usage_message CONFIG_FILE)
         ("remctld " ++ PACKAGE_VERSION ++ nl) x).
Proof.
  induction 1 as [|y pre Hy _ IH]; intros Hx o w.
  - destruct x; try discriminate Hx; reflexivity.
  - destruct y; try discriminate Hy; cbn [app parse_options]; now apply IH.
Qed.

Lemma exit_option_split (argv : list getopt_result) :
  Forall (fun x => is_exit_option x = false) argv
  \/ exists pre x post,
       argv = pre ++ x :: post
       /\ Forall (fun x => is_exit_option x = false) pre
       /\ is_exit_option x = true.
Proof.
  induction argv as [|y argv IH]; [left; constructor|].
  destruct (is_exit_option y) eqn:Hy.
  - right. exists [], y, argv. repeat split; [constructor | assumption].
  - destruct IH as [IH | (pre & x & post & -> & Hpre & Hx)].
    + left. now constructor.
    + right. exists (y :: pre), x, post.
      repeat split; [now constructor | assumption].
Qed.

End MainStages.

(** ** [main] *)



Lemma exit_option_events_readings (usage version : string)
  (x : getopt_result) :
  existsb is_listener_event (exit_option_events usage version x) = false
  /\ existsb is_alarm_off (exit_option_events usage version x) = false
  /\ existsb is_config_failure (exit_option_events usage version x) = false
  /\ existsb is_network_event (exit_option_events usage version x) = false.
Proof. destruct x; repeat split. Qed.

(** X24: without [-m] on the command line the daemon serves its
    standard input only: in no run does it create, mark, bind, listen on
    or accept on a socket, the watchdog armed at the start is never
    cancelled, and the run comes to an end. *)
Theorem main_inetd (CONFIG_FILE PACKAGE_VERSION : string) (fuel : nat)
  (argv : list getopt_result) (w : world) :
  ~ In opt_m argv ->
  existsb is_listener_event (main CONFIG_FILE PACKAGE_VERSION fuel argv w).2
  = false
  /\ existsb is_alarm_off (main CONFIG_FILE PACKAGE_VERSION fuel argv w).2
     = false
  /\ hd_error (main CONFIG_FILE PACKAGE_VERSION fuel argv w).2
     = Some (EvAlarm 3600)
  /\ (main CONFIG_FILE PACKAGE_VERSION fuel argv w).1.1 <> Serving.
Proof.
  intros Hm. rewrite main_stages.
  destruct (exit_option_split argv)
    as [Hplain | (pre & x & post & -> & Hpre & Hx)].
  2: { rewrite (parse_options_exit CONFIG_FILE PACKAGE_VERSION pre post x
                  Hpre Hx).
       destruct (exit_option_events_readings (usage_message CONFIG_FILE)
                   ("remctld " ++ PACKAGE_VERSION ++ nl) x)
         as (Hl & Hal & _).
       cbn [fst snd existsb is_listener_event is_alarm_off orb hd_error].
       rewrite Hl, Hal. repeat split. discriminate. }
  destruct (parse_options_plain CONFIG_FILE PACKAGE_VERSION argv Hplain
              (default_options CONFIG_FILE) w) as (o & -> & _ & Hstand).
  assert (Ho : do_standalone o = false).
  { destruct (do_standalone o); [|reflexivity].
    destruct (proj1 Hstand eq_refl) as [H | H]; [discriminate H | contradiction]. }
  cbn [app].
  destruct (oracle w (clock w)) as [v | e].
  2: { cbn. repeat split. discriminate. }
  destruct (main_creds_run o (after w (open_fds w) (errno w)))
    as (Hl3 & Hal3 & _ & Hout3 & _).
  destruct (main_creds o (after w (open_fds w) (errno w))) as [[out3 w3] e3].
  cbn [fst snd] in Hl3, Hal3, Hout3.
  destruct out3 as [creds | status |]; [| |contradiction].
  2: { cbn [fst snd existsb is_listener_event is_alarm_off orb hd_error].
       rewrite Hl3, Hal3. repeat split. discriminate. }
  destruct (main_serve_run fuel o w3) as (_ & _ & Hserve & _).
  destruct (Hserve Ho) as (Hout4 & Hbody).
  destruct (main_serve fuel o w3) as [[out4 w4] e4].
  cbn [fst snd] in Hout4, Hbody. subst out4.
  destruct (handler_events_startup _ _ Hbody) as (Hl4 & Hal4 & _).
  cbn [fst snd existsb is_listener_event is_alarm_off orb hd_error].
  rewrite !existsb_app, Hl3, Hal3, Hl4, Hal4.
  destruct creds; repeat split; discriminate.
Qed.

Lemma main_inetd_witness :
  existsb is_listener_event
    (main "/etc/remctl.conf" "2.11" 5 [opt_s "host/www.example.org"]
       (std_world [])).2 = false.
Proof.
  apply (main_inetd "/etc/remctl.conf" "2.11" 5
           [opt_s "host/www.example.org"] (std_world [])).
  intros [H | []]. discriminate H.
Defined.

(** X25: a configuration file that cannot be read ends the run with
    status 1, the fatal report being its last act; by then no
    credentials were asked for and no socket or session exists. *)
Theorem main_config_failure_is_fatal (CONFIG_FILE PACKAGE_VERSION : string)
  (fuel : nat) (argv : list getopt_result) (w : world) :
  existsb is_config_failure (main CONFIG_FILE PACKAGE_VERSION fuel argv w).2
  = true ->
  (main CONFIG_FILE PACKAGE_VERSION fuel argv w).1.1 = Exited 1
  /\ last (main CONFIG_FILE PACKAGE_VERSION fuel argv w).2
     = Some (EvDie "cannot read configuration file %s")
  /\ existsb is_network_event (main CONFIG_FILE PACKAGE_VERSION fuel argv w).2
     = false
  /\ existsb is_gss (main CONFIG_FILE PACKAGE_VERSION fuel argv w).2 = false.
Proof.
  rewrite main_stages.
  destruct (exit_option_split argv)
    as [Hplain | (pre & x & post & -> & Hpre & Hx)].
  2: { rewrite (parse_options_exit CONFIG_FILE PACKAGE_VERSION pre post x
                  Hpre Hx).
       destruct (exit_option_events_readings (usage_message CONFIG_FILE)
                   ("remctld " ++ PACKAGE_VERSION ++ nl) x)
         as (_ & _ & Hc & _).
       cbn [fst snd existsb is_config_failure orb]. rewrite Hc.
       discriminate. }
  destruct (parse_options_plain CONFIG_FILE PACKAGE_VERSION argv Hplain
              (default_options CONFIG_FILE) w) as (o & -> & _ & _).
  cbn [app].
  destruct (oracle w (clock w)) as [v | e].
  2: { intros _. cbn. repeat split. }
  destruct (main_creds_run o (after w (open_fds w) (errno w)))
    as (_ & _ & Hc3 & Hout3 & _).
  destruct (main_creds o (after w (open_fds w) (errno w))) as [[out3 w3] e3].
  cbn [fst snd] in Hc3, Hout3.
  destruct out3 as [creds | status |]; [| |contradiction].
  2: { cbn [fst snd existsb is_config_failure orb]. rewrite Hc3.
       discriminate. }
  destruct (main_serve_run fuel o w3) as (Hc4 & _).
  destruct (main_serve fuel o w3) as [[out4 w4] e4].
  cbn [fst snd] in Hc4.
  destruct out4 as [[] | status |];
    cbn [fst snd existsb is_config_failure orb];
    rewrite ?existsb_app, Hc3, Hc4; try discriminate.
  destruct creds; discriminate.
Qed.

Lemma main_config_failure_is_fatal_witness :
  (main "/etc/remctl.conf" "2.11" 5 [opt_m; opt_f "/nonexistent"]
     (std_world [No 2])).1.1 = Exited 1.
Proof.
  apply (main_config_failure_is_fatal "/etc/remctl.conf" "2.11" 5
           [opt_m; opt_f "/nonexistent"] (std_world [No 2])).
  vm_compute. reflexivity.
Defined.

(** X26: in every run of [main] there is at most one [bind], to the
    wildcard address and the port of the last [-p] on the command line,
    read by [atoi] and stored as an [unsigned short], 4444 without one; and when the run calls
    [accept] at all, [-m] was given and every [accept] is on one and the
    same descriptor, which the run before its first [accept] bound with
    success to that address and put into the listening state. *)
Theorem main_listener (CONFIG_FILE PACKAGE_VERSION : string) (fuel : nat)
  (argv : list getopt_result) (w : world) :
  (bind_calls (main CONFIG_FILE PACKAGE_VERSION fuel argv w).2 = []
   \/ bind_calls (main CONFIG_FILE PACKAGE_VERSION fuel argv w).2
      = [mk_sockaddr AF_INET (htons (selected_port argv)) INADDR_ANY []])
  /\ (accept_fds (main CONFIG_FILE PACKAGE_VERSION fuel argv w).2 <> [] ->
      In opt_m argv
      /\ exists stmp pre loop,
          (main CONFIG_FILE PACKAGE_VERSION fuel argv w).2 = pre ++ loop
          /\ accept_fds pre = []
          /\ In (EvBind stmp
                   (mk_sockaddr AF_INET (htons (selected_port argv))
                      INADDR_ANY []) (Ret 0)) pre
          /\ In (EvListen stmp 5 (Ret 0)) pre
          /\ Forall (eq stmp) (accept_fds loop)).
Proof.
  rewrite main_stages.
  destruct (exit_option_split argv)
    as [Hplain | (pre & x & post & -> & Hpre & Hx)].
  2: { rewrite (parse_options_exit CONFIG_FILE PACKAGE_VERSION pre post x
                  Hpre Hx).
       destruct (exit_option_events_readings (usage_message CONFIG_FILE)
                   ("remctld " ++ PACKAGE_VERSION ++ nl) x)
         as (Hl & _).
       destruct (listener_free_readings _ Hl) as (Hb & Ha & _).
       cbn [fst snd bind_calls accept_fds]. rewrite Hb, Ha.
       split; [now left | intros H; now contradiction H]. }
  destruct (parse_options_plain CONFIG_FILE PACKAGE_VERSION argv Hplain
              (default_options CONFIG_FILE) w) as (o & -> & Hport & Hstand).
  change (port (default_options CONFIG_FILE)) with 4444 in Hport.
  fold (selected_port argv) in Hport.
  cbn [app].
  destruct (oracle w (clock w)) as [v | e].
  2: { cbn. split; [now left | intros H; now contradiction H]. }
  destruct (main_creds_run o (after w (open_fds w) (errno w)))
    as (Hl3 & _ & _ & Hout3 & _).
  destruct (main_creds o (after w (open_fds w) (errno w))) as [[out3 w3] e3].
  cbn [fst snd] in Hl3, Hout3.
  destruct (listener_free_readings _ Hl3) as (Hb3 & Ha3 & _).
  destruct out3 as [creds | status |]; [| |contradiction].
  2: { cbn [fst snd bind_calls accept_fds]. rewrite Hb3, Ha3.
       split; [now left | intros H; now contradiction H]. }
  destruct (main_serve_run fuel o w3) as (_ & _ & Hinetd & Hdaemon).
  destruct (do_standalone o) eqn:Ho.
  - destruct (Hdaemon eq_refl) as (Hout4 & Hb4 & Ha4). clear Hinetd Hdaemon.
    rewrite Hport in *.
    destruct (main_serve fuel o w3) as [[out4 w4] e4].
    cbn [fst snd] in Hout4, Hb4, Ha4.
    assert (Hevs :
      exists out, 
        (let '(out4, w4, e4) := (out4, w4, e4) in
         match out4 with
         | Value _ =>
             (Value 0, w4,
              EvAlarm 3600
              :: EvConfigLoad (conffile o) (Ret v)
                 :: e3 ++ e4 ++ (if creds then [EvGssReleaseCred] else []))
         | Exited status =>
             (Exited status, w4,
              EvAlarm 3600 :: EvConfigLoad (conffile o) (Ret v) :: e3 ++ e4)
         | Serving =>
             (Serving, w4,
              EvAlarm 3600 :: EvConfigLoad (conffile o) (Ret v) :: e3 ++ e4)
         end)
        = (out, w4, EvAlarm 3600 :: EvConfigLoad (conffile o) (Ret v)
                    :: e3 ++ e4)).
    { destruct out4 as [u | status |]; [now contradiction (Hout4 u)| |];
        eexists; reflexivity. }
    destruct Hevs as (out & ->). cbn [fst snd bind_calls accept_fds].
    rewrite bind_calls_app, accept_fds_app, Hb3, Ha3. cbn [app].
    split; [exact Hb4|]. intros Hacc.
    split; [destruct (proj1 Hstand eq_refl) as [H | H];
            [discriminate H | exact H]|].
    destruct Ha4 as [Ha4 | (stmp & pre4 & loop & -> & Hpre & Hbind & Hlisten
                            & Hserial & _)];
      [contradiction|].
    destruct (serial_blocks_readings _ _ Hserial) as (Hloop & _).
    exists stmp,
      (EvAlarm 3600 :: EvConfigLoad (conffile o) (Ret v) :: e3 ++ pre4), loop.
    repeat split.
    + cbn [app]. now rewrite <- !app_assoc.
    + cbn [accept_fds]. now rewrite accept_fds_app, Ha3, Hpre.
    + right. right. apply in_or_app. now right.
    + right. right. apply in_or_app. now right.
    + exact Hloop.
  - destruct (Hinetd eq_refl) as (Hout4 & Hbody). clear Hinetd Hdaemon.
    destruct (main_serve fuel o w3) as [[out4 w4] e4].
    cbn [fst snd] in Hout4, Hbody. subst out4.
    destruct (handler_events_startup _ _ Hbody) as (Hl4 & _).
    destruct (listener_free_readings _ Hl4) as (Hb4 & Ha4 & _).
    cbn [fst snd bind_calls accept_fds].
    rewrite !bind_calls_app, !accept_fds_app, Hb3, Ha3, Hb4, Ha4.
    destruct creds; cbn; (split; [now left | intros H; now contradiction H]).
Qed.

Lemma main_listener_witness :
  In opt_m [opt_p "80"; opt_m; opt_p "70000"]
  /\ exists stmp pre loop,
      (main "/etc/remctl.conf" "2.11" 2 [opt_p "80"; opt_m; opt_p "70000"]
         (std_world [])).2 = pre ++ loop
      /\ accept_fds pre = []
      /\ In (EvBind stmp
               (mk_sockaddr AF_INET
                  (htons (selected_port [opt_p "80"; opt_m; opt_p "70000"]))
                  INADDR_ANY []) (Ret 0)) pre
      /\ In (EvListen stmp 5 (Ret 0)) pre
      /\ Forall (eq stmp) (accept_fds loop).
Proof.
  apply (proj2 (main_listener "/etc/remctl.conf" "2.11" 2
                  [opt_p "80"; opt_m; opt_p "70000"] (std_world []))).
  vm_compute. discriminate.
Defined.

Example main_port_saturates :
  bind_calls
    (main "/etc/remctl.conf" "2.11" 1 [opt_m; opt_p "10000000000000000000"]
       (std_world [])).2
  = [mk_sockaddr AF_INET (htons 65535) INADDR_ANY []].
Proof. vm_compute. reflexivity. Qed.

(** X27: [main] returns only in one way: with 0, without ever having
    touched a socket of its own, after the handler of the connection on
    descriptor 0 ran to its end; and its last act is to release the
    credentials exactly when it acquired some. *)
Theorem main_returns (CONFIG_FILE PACKAGE_VERSION : string) (fuel : nat)
  (argv : list getopt_result) (w : world) (v : Z) :
  (main CONFIG_FILE PACKAGE_VERSION fuel argv w).1.1 = Value v ->
  v = 0
  /\ existsb is_listener_event (main CONFIG_FILE PACKAGE_VERSION fuel argv w).2
     = false
  /\ exists pre body rel,
      (main CONFIG_FILE PACKAGE_VERSION fuel argv w).2 = pre ++ body ++ rel
      /\ handler_events 0 body
      /\ ((rel = [EvGssReleaseCred] /\ existsb is_acquired pre = true)
          \/ (rel = [] /\ existsb is_gss pre = false)).
Proof.
  rewrite main_stages.
  destruct (exit_option_split argv)
    as [Hplain | (pre & x & post & -> & Hpre & Hx)].
  2: { rewrite (parse_options_exit CONFIG_FILE PACKAGE_VERSION pre post x
                  Hpre Hx). discriminate. }
  destruct (parse_options_plain CONFIG_FILE PACKAGE_VERSION argv Hplain
              (default_options CONFIG_FILE) w) as (o & -> & _ & _).
  cbn [app].
  destruct (oracle w (clock w)) as [v0 | e]; [|discriminate].
  destruct (main_creds_run o (after w (open_fds w) (errno w)))
    as (Hl3 & _ & _ & _ & Hcreds).
  destruct (main_creds o (after w (open_fds w) (errno w))) as [[out3 w3] e3].
  cbn [fst snd] in Hl3, Hcreds.
  destruct out3 as [creds | status |]; [|discriminate|discriminate].
  destruct (Hcreds creds eq_refl) as (Hacq & Hnone). clear Hcreds.
  destruct (main_serve_run fuel o w3) as (_ & _ & Hinetd & Hdaemon).
  destruct (do_standalone o) eqn:Ho.
  - destruct (Hdaemon eq_refl) as (Hout4 & _).
    destruct (main_serve fuel o w3) as [[out4 w4] e4]. cbn [fst snd] in Hout4.
    destruct out4 as [u | status |];
      [now contradiction (Hout4 u) | discriminate | discriminate].
  - destruct (Hinetd eq_refl) as (Hout4 & Hbody).
    destruct (main_serve fuel o w3) as [[out4 w4] e4].
    cbn [fst snd] in Hout4, Hbody. subst out4.
    destruct (handler_events_startup _ _ Hbody) as (Hl4 & _).
    cbn [fst snd]. intros H. inversion H; subst v.
    split; [reflexivity|]. split.
    { cbn [existsb is_listener_event orb].
      rewrite !existsb_app, Hl3, Hl4. now destruct creds. }
    exists (EvAlarm 3600 :: EvConfigLoad (conffile o) (Ret v0) :: e3), e4,
      (if creds then [EvGssReleaseCred] else []).
    split; [cbn [app]; reflexivity|]. split; [assumption|].
    destruct creds.
    + left. split; [reflexivity|]. cbn [existsb is_acquired orb]. exact Hacq.
    + right. split; [reflexivity|]. now rewrite (Hnone eq_refl).
Qed.

Lemma main_returns_witness :
  0 = 0
  /\ existsb is_listener_event
       (main "/etc/remctl.conf" "2.11" 5 [opt_s "host/www.example.org"]
          (std_world [])).2 = false
  /\ exists pre body rel,
      (main "/etc/remctl.conf" "2.11" 5 [opt_s "host/www.example.org"]
         (std_world [])).2 = pre ++ body ++ rel
      /\ handler_events 0 body
      /\ ((rel = [EvGssReleaseCred] /\ existsb is_acquired pre = true)
          \/ (rel = [] /\ existsb is_gss pre = false)).
Proof.
  apply (main_returns "/etc/remctl.conf" "2.11" 5
           [opt_s "host/www.example.org"] (std_world []) 0).
  vm_compute. reflexivity.
Defined.
